(** * Pihu, the agentic interview component: a model of [App] and its handlers

    The React component [App] (completion client [callGroq], the handlers
    [startAgenticInterview], [handleAskNext], [handleUserSubmit],
    [handleVoiceInput], [runTestPrompt], [runDiagnostics] and the Clear
    Conversation button) is embedded as follows.

    - ECMAScript strings are sequences of UTF-16 code units ([jsstring]);
      the built-ins the component calls ([trim], [join], [String],
      [JSON.stringify], optional chaining, [??]) are written out on them.
    - A handler is a program of the free monad [Prog]: its nodes are the
      component's effects (state setters, [Math.random], speech synthesis)
      and the [await] of a [fetch].  [try]/[catch]/[finally] are
      combinators on programs.
    - A handler reads [messages], [userInput], [candidateProfile] and
      [devApiKey] from the render it was created in (a closure), and writes
      through the setters to the live store.  Each handler therefore takes
      the render's [Store] as an argument.
    - [run] executes one program against a list of fetch outcomes; [step]
      is the event loop: user events and settled fetches interleave, and a
      program suspended at an [await] is kept as an in-flight task.
      [run_feed] shows that [run] is the event loop with nothing
      interleaved. *)

From Stdlib Require Import List NArith String Ascii Bool Lia DecimalString.
Import ListNotations.

Set Implicit Arguments.
Set Warnings "-register-all".
Local Open Scope list_scope.

(** ** ECMAScript strings *)

(** A string value: its UTF-16 code units. *)
Definition jsstring : Type := list N.

(** A string literal of the source whose characters are all ASCII. *)
Definition lit (s : string) : jsstring :=
  map N_of_ascii (list_ascii_of_string s).

(** The escape [\n] of a template literal. *)
Definition LF : jsstring := [10%N].

(** U+2014 (em dash) and U+2026 (horizontal ellipsis), which occur in
    the source's literals. *)
Definition EM_DASH : jsstring := [0x2014%N].
Definition ELLIPSIS : jsstring := [0x2026%N].

(** ToBoolean on a string: only the empty string is falsy. *)
Definition truthy (s : jsstring) : bool :=
  match s with
  | [] => false
  | _ :: _ => true
  end.

(** WhiteSpace and LineTerminator code points, as [String.prototype.trim]
    strips them. *)
Definition isWhiteSpace (c : N) : bool :=
  ((9 <=? c) && (c <=? 13) || (c =? 32) || (c =? 0xA0) || (c =? 0x1680)
   || (0x2000 <=? c) && (c <=? 0x200A)
   || (c =? 0x2028) || (c =? 0x2029) || (c =? 0x202F) || (c =? 0x205F)
   || (c =? 0x3000) || (c =? 0xFEFF))%N.

Fixpoint trimStart (s : jsstring) : jsstring :=
  match s with
  | [] => []
  | c :: r => if isWhiteSpace c then trimStart r else s
  end.

Definition trimEnd (s : jsstring) : jsstring := rev (trimStart (rev s)).

Definition trim (s : jsstring) : jsstring := trimEnd (trimStart s).

(** [Array.prototype.join] on an array of strings. *)
Fixpoint join (sep : jsstring) (l : list jsstring) : jsstring :=
  match l with
  | [] => []
  | [x] => x
  | x :: r => x ++ sep ++ join sep r
  end.

(** [String.prototype.toUpperCase] on the ASCII letters; the component
    applies it to role names only. *)
Definition toUpperCase (s : jsstring) : jsstring :=
  map (fun c => if ((97 <=? c) && (c <=? 122))%N then (c - 32)%N else c) s.

(** The decimal rendering of a non-negative integer (Number::toString on
    an integral value such as an HTTP status). *)
Definition decimal (n : N) : jsstring :=
  lit (NilZero.string_of_uint (N.to_uint n)).

Definition hexDigit (d : N) : N :=
  if (d <? 10)%N then (48 + d)%N else (87 + d)%N.

(** The escape [\uXXXX] of one code unit, lower-case hex as
    [JSON.stringify] writes it. *)
Definition unicodeEscape (c : N) : jsstring :=
  [92; 117;
   hexDigit ((c / 4096) mod 16); hexDigit ((c / 256) mod 16);
   hexDigit ((c / 16) mod 16); hexDigit (c mod 16)]%N.

(** ** Errors *)

(** What a [throw] carries; the handlers read only [err.message]. *)
Inductive JsError : Type :=
| Error (msg : jsstring)
| TypeError (msg : jsstring)
| SyntaxError (msg : jsstring)
| ReferenceError (msg : jsstring).

Definition message (e : JsError) : jsstring :=
  match e with
  | Error m | TypeError m | SyntaxError m | ReferenceError m => m
  end.

(** A completion record: a value or a thrown error. *)
Inductive JsResult (A : Type) : Type :=
| Ok (a : A)
| Raise (e : JsError).
Arguments Ok {A} a.
Arguments Raise {A} e.

(** ** JSON values *)

(** A Number value is never computed with, only rendered: a finite one is
    carried by its Number::toString rendering (so both zeros are "0"). *)
Inductive JsNumber : Type :=
| Finite (repr : jsstring)
| NaN
| PosInfinity
| NegInfinity.

Definition numberToString (n : JsNumber) : jsstring :=
  match n with
  | Finite r => r
  | NaN => lit "NaN"
  | PosInfinity => lit "Infinity"
  | NegInfinity => lit "-Infinity"
  end.

(** What [res.json()] yields.  An object is its own properties in
    enumeration order, each key once. *)
Inductive JSON : Type :=
| JNull
| JBool (b : bool)
| JNumber (n : JsNumber)
| JString (s : jsstring)
| JArray (items : list JSON)
| JObject (props : list (jsstring * JSON)).

(** A JavaScript value as the extraction sees it: [None] is [undefined]. *)
Definition JsValue : Type := option JSON.

Definition jsstring_eqb (a b : jsstring) : bool :=
  if list_eq_dec N.eq_dec a b then true else false.

Fixpoint lookup (key : jsstring) (props : list (jsstring * JSON)) : JsValue :=
  match props with
  | [] => None
  | (k, v) :: rest => if jsstring_eqb key k then Some v else lookup key rest
  end.

(** [v.name] for a property name that no built-in prototype defines
    ([choices], [text], [output], [message], [content]): only an object's
    own property answers. *)
Definition getNamed (name : jsstring) (v : JSON) : JsValue :=
  match v with
  | JObject props => lookup name props
  | _ => None
  end.

(** [v[i]]: an array element, a one-unit substring, or the own property
    whose key is the index written in decimal. *)
Definition getIndex (i : nat) (v : JSON) : JsValue :=
  match v with
  | JArray items => nth_error items i
  | JString s => option_map (fun c => JString [c]) (nth_error s i)
  | JObject props => lookup (decimal (N.of_nat i)) props
  | _ => None
  end.

(** [undefined] and [null]. *)
Definition nullish (v : JsValue) : bool :=
  match v with
  | None | Some JNull => true
  | Some _ => false
  end.

(** Optional chaining [v?.p]: short-circuits to [undefined] on a nullish
    base. *)
Definition optChain (get : JSON -> JsValue) (v : JsValue) : JsValue :=
  match v with
  | None | Some JNull => None
  | Some x => get x
  end.

(** Nullish coalescing [a ?? b]. *)
Definition coalesce (a b : JsValue) : JsValue :=
  if nullish a then b else a.

(** [String(v)].  An array joins its elements with a comma, a nullish
    element rendering as the empty string.  An object renders through
    [Object.prototype.toString] unless it has an own [toString]: that one
    came out of JSON, is not callable, and [valueOf] returns the object
    itself, so the conversion raises. *)
Definition CANNOT_CONVERT : JsError :=
  TypeError (lit "Cannot convert object to primitive value").

Fixpoint ToString (v : JSON) : JsResult jsstring :=
  match v with
  | JNull => Ok (lit "null")
  | JBool true => Ok (lit "true")
  | JBool false => Ok (lit "false")
  | JNumber n => Ok (numberToString n)
  | JString s => Ok s
  | JArray items =>
      (fix joinItems (l : list JSON) : JsResult jsstring :=
         match l with
         | [] => Ok []
         | x :: r =>
             match (match x with JNull => Ok [] | _ => ToString x end) with
             | Raise e => Raise e
             | Ok sx =>
                 match r with
                 | [] => Ok sx
                 | _ :: _ =>
                     match joinItems r with
                     | Raise e => Raise e
                     | Ok sr => Ok (sx ++ lit "," ++ sr)
                     end
                 end
             end
         end) items
  | JObject props =>
      match lookup (lit "toString") props with
      | Some _ => Raise CANNOT_CONVERT
      | None => Ok (lit "[object Object]")
      end
  end.

Definition StringOf (v : JsValue) : JsResult jsstring :=
  match v with
  | None => Ok (lit "undefined")
  | Some x => ToString x
  end.

(** QuoteJSONString without the surrounding quotes: the short escapes,
    [\u00XX] for the other control characters, [\uXXXX] for a surrogate
    that has no partner. *)
Definition isHighSurrogate (c : N) : bool := ((0xD800 <=? c) && (c <=? 0xDBFF))%N.
Definition isLowSurrogate (c : N) : bool := ((0xDC00 <=? c) && (c <=? 0xDFFF))%N.

Definition escapeUnit (c : N) : jsstring :=
  if (c =? 8)%N then [92; 98]%N
  else if (c =? 9)%N then [92; 116]%N
  else if (c =? 10)%N then [92; 110]%N
  else if (c =? 12)%N then [92; 102]%N
  else if (c =? 13)%N then [92; 114]%N
  else if (c =? 34)%N then [92; 34]%N
  else if (c =? 92)%N then [92; 92]%N
  else if (c <? 32)%N then unicodeEscape c
  else [c].

Fixpoint quoteBody (s : jsstring) : jsstring :=
  match s with
  | [] => []
  | c :: r =>
      if isHighSurrogate c then
        match r with
        | d :: r' =>
            if isLowSurrogate d then c :: d :: quoteBody r'
            else unicodeEscape c ++ quoteBody r
        | [] => unicodeEscape c
        end
      else if isLowSurrogate c then unicodeEscape c ++ quoteBody r
      else escapeUnit c ++ quoteBody r
  end.

Definition DQUOTE : jsstring := [34%N].

Definition QuoteJSONString (s : jsstring) : jsstring :=
  DQUOTE ++ quoteBody s ++ DQUOTE.

(** [JSON.stringify(v)] with no replacer and no indent.  A number that is
    not finite is written [null]; no value that came out of JSON is
    callable, so no [toJSON] is ever invoked and no property is dropped. *)
Fixpoint JSON_stringify (v : JSON) : jsstring :=
  match v with
  | JNull => lit "null"
  | JBool true => lit "true"
  | JBool false => lit "false"
  | JNumber (Finite r) => r
  | JNumber _ => lit "null"
  | JString s => QuoteJSONString s
  | JArray items =>
      lit "[" ++ join (lit ",") (map JSON_stringify items) ++ lit "]"
  | JObject props =>
      lit "{"
      ++ join (lit ",")
           (map (fun kv => QuoteJSONString (fst kv) ++ lit ":" ++ JSON_stringify (snd kv))
              props)
      ++ lit "}"
  end.

(** ** The component's state *)

Inductive Role : Type := system | assistant | user.

(** The role as the string the source writes. *)
Definition roleName (r : Role) : jsstring :=
  match r with
  | system => lit "system"
  | assistant => lit "assistant"
  | user => lit "user"
  end.

Record Message : Type := mkMessage {
  id : jsstring;
  role : Role;
  text : jsstring
}.

(** One cell per [useState] of [App]. *)
Record Store : Type := mkStore {
  messages : list Message;
  candidateProfile : jsstring;
  userInput : jsstring;
  isThinking : bool;
  devApiKey : jsstring;
  diagnostics : option jsstring;
  lastTestResponse : option jsstring
}.

Definition withMessages (f : list Message -> list Message) (s : Store) : Store :=
  mkStore (f (messages s)) (candidateProfile s) (userInput s) (isThinking s)
    (devApiKey s) (diagnostics s) (lastTestResponse s).

Definition withCandidateProfile (v : jsstring) (s : Store) : Store :=
  mkStore (messages s) v (userInput s) (isThinking s)
    (devApiKey s) (diagnostics s) (lastTestResponse s).

Definition withUserInput (v : jsstring) (s : Store) : Store :=
  mkStore (messages s) (candidateProfile s) v (isThinking s)
    (devApiKey s) (diagnostics s) (lastTestResponse s).

Definition withIsThinking (v : bool) (s : Store) : Store :=
  mkStore (messages s) (candidateProfile s) (userInput s) v
    (devApiKey s) (diagnostics s) (lastTestResponse s).

Definition withDevApiKey (v : jsstring) (s : Store) : Store :=
  mkStore (messages s) (candidateProfile s) (userInput s) (isThinking s)
    v (diagnostics s) (lastTestResponse s).

Definition withDiagnostics (v : option jsstring) (s : Store) : Store :=
  mkStore (messages s) (candidateProfile s) (userInput s) (isThinking s)
    (devApiKey s) v (lastTestResponse s).

Definition withLastTestResponse (v : option jsstring) (s : Store) : Store :=
  mkStore (messages s) (candidateProfile s) (userInput s) (isThinking s)
    (devApiKey s) (diagnostics s) v.

(** ** The network *)

Record Request : Type := mkRequest {
  url : jsstring;
  method : jsstring;
  headers : list (jsstring * jsstring);
  body : jsstring
}.

(** A response as [callGroq] consumes it: the status, and what reading the
    body as text or as JSON gives ([res.json()] rejects with a SyntaxError
    on a body that is not JSON). *)
Record Response : Type := mkResponse {
  status : N;
  resText : JsResult jsstring;
  resJson : JsResult JSON
}.

(** [res.ok]: a status in 200..299. *)
Definition ok (res : Response) : bool :=
  ((200 <=? status res) && (status res <=? 299))%N.

(** How a [fetch] promise settles. *)
Inductive FetchOutcome : Type :=
| Rejected (e : JsError)
| Resolved (res : Response).

(** ** Effects and programs *)

(** The continuation handed to [speakText]:
    [() => recognitionRef.current?.start()]. *)
Inductive Callback : Type := StartRecognition.

(** What [speakText] meets in the host.  It uses [window.speechSynthesis]
    and the [SpeechSynthesisUtterance] constructor unguarded: where the
    host lacks the constructor, [new SpeechSynthesisUtterance(text)]
    throws a [ReferenceError]; where it lacks the queue, [synth.speak]
    throws a [TypeError]; either way before anything is queued.  The
    wording of the error is the engine's. *)
Inductive Synthesis : Type :=
| SynthesisAvailable
| SynthesisThrows (e : JsError).

Inductive Eff : Type -> Type :=
| SetMessages (f : list Message -> list Message) : Eff unit
| SetUserInput (v : jsstring) : Eff unit
| SetIsThinking (v : bool) : Eff unit
| SetDiagnostics (v : option jsstring) : Eff unit
| SetLastTestResponse (v : option jsstring) : Eff unit
| RandomSuffix : Eff jsstring
| Speak (utterance : jsstring) (onEnd : option Callback) : Eff unit.

(** A handler body.  [Await] is the only suspension point: the [await] of
    [fetch], with the reading of the response body folded into it. *)
Inductive Prog (A : Type) : Type :=
| Ret (a : A)
| Throw (e : JsError)
| Do (X : Type) (e : Eff X) (k : X -> Prog A)
| Await (req : Request) (k : FetchOutcome -> Prog A).
Arguments Ret {A} a.
Arguments Throw {A} e.
Arguments Do {A X} e k.
Arguments Await {A} req k.

Fixpoint bind {A B : Type} (p : Prog A) (f : A -> Prog B) : Prog B :=
  match p with
  | Ret a => f a
  | Throw e => Throw e
  | Do e k => Do e (fun x => bind (k x) f)
  | Await req k => Await req (fun o => bind (k o) f)
  end.

Declare Scope prog_scope.
Delimit Scope prog_scope with prog.
Notation "x <- p ;; q" := (bind p (fun x => q))
  (at level 61, p at next level, right associativity) : prog_scope.
Notation "p ;; q" := (bind p (fun _ => q))
  (at level 61, right associativity) : prog_scope.
Local Open Scope prog_scope.

(** [try { p } catch (err) { h err }]. *)
Fixpoint tryCatch {A : Type} (p : Prog A) (h : JsError -> Prog A) : Prog A :=
  match p with
  | Ret a => Ret a
  | Throw e => h e
  | Do e k => Do e (fun x => tryCatch (k x) h)
  | Await req k => Await req (fun o => tryCatch (k o) h)
  end.

(** [try { p } finally { fin }]: [fin] runs on both exits, and the exit
    of [p] stands unless [fin] itself throws. *)
Fixpoint tryFinally {A : Type} (p : Prog A) (fin : Prog unit) : Prog A :=
  match p with
  | Ret a => fin ;; Ret a
  | Throw e => fin ;; Throw e
  | Do e k => Do e (fun x => tryFinally (k x) fin)
  | Await req k => Await req (fun o => tryFinally (k o) fin)
  end.

Definition trigger {X : Type} (e : Eff X) : Prog X := Do e (fun x => Ret x).

Definition setMessages (f : list Message -> list Message) : Prog unit :=
  trigger (SetMessages f).
Definition setUserInput (v : jsstring) : Prog unit := trigger (SetUserInput v).
Definition setIsThinking (v : bool) : Prog unit := trigger (SetIsThinking v).
Definition setDiagnostics (v : option jsstring) : Prog unit :=
  trigger (SetDiagnostics v).
Definition setLastTestResponse (v : option jsstring) : Prog unit :=
  trigger (SetLastTestResponse v).

(** A result of pure code, raised into a program. *)
Definition liftResult {A : Type} (r : JsResult A) : Prog A :=
  match r with
  | Ok a => Ret a
  | Raise e => Throw e
  end.

(** [await fetch(input, init)]: a rejected promise throws at the [await]. *)
Definition fetch (req : Request) : Prog Response :=
  Await req (fun o =>
    match o with
    | Rejected e => Throw e
    | Resolved res => Ret res
    end).

(** ** Running a program *)

(** What the component does to its surroundings, in order. *)
Inductive Output : Type :=
| Fetched (req : Request)
| Spoke (utterance : jsstring) (onEnd : option Callback)
| Listening.

(** The live store, the source of [Math.random] suffixes with the number
    already drawn, and the outputs so far. *)
Record World : Type := mkWorld {
  store : Store;
  entropy : nat -> jsstring;
  drawn : nat;
  trace : list Output
}.

Definition onStore (f : Store -> Store) (w : World) : World :=
  mkWorld (f (store w)) (entropy w) (drawn w) (trace w).

Definition emit (o : Output) (w : World) : World :=
  mkWorld (store w) (entropy w) (drawn w) (trace w ++ [o]).

Definition perform {X : Type} (e : Eff X) (w : World) : X * World :=
  match e in Eff T return T * World with
  | SetMessages f => (tt, onStore (withMessages f) w)
  | SetUserInput v => (tt, onStore (withUserInput v) w)
  | SetIsThinking v => (tt, onStore (withIsThinking v) w)
  | SetDiagnostics v => (tt, onStore (withDiagnostics v) w)
  | SetLastTestResponse v => (tt, onStore (withLastTestResponse v) w)
  | RandomSuffix =>
      (entropy w (drawn w), mkWorld (store w) (entropy w) (S (drawn w)) (trace w))
  | Speak u cb => (tt, emit (Spoke u cb) w)
  end.

(** How a run ends: a value, an uncaught error, or an [await] on a
    request that never settles. *)
Inductive Outcome (A : Type) : Type :=
| Returned (a : A)
| Thrown (e : JsError)
| Pending.
Arguments Returned {A} a.
Arguments Thrown {A} e.
Arguments Pending {A}.

(** One program run to its end with nothing interleaved: every [await]
    takes the next outcome of [net]; the result carries the outcomes
    left over. *)
Fixpoint run {A : Type} (p : Prog A) (net : list FetchOutcome) (w : World)
    : Outcome A * list FetchOutcome * World :=
  match p with
  | Ret a => (Returned a, net, w)
  | Throw e => (Thrown e, net, w)
  | Do e k => let (x, w') := perform e w in run (k x) net w'
  | Await req k =>
      match net with
      | [] => (Pending, [], emit (Fetched req) w)
      | o :: rest => run (k o) rest (emit (Fetched req) w)
      end
  end.

(** The id [uid(prefix)] yields in [w], and the world after
    [append({ id: uid(prefix), role, text })]. *)
Definition nextId (prefix : jsstring) (w : World) : jsstring :=
  prefix ++ lit "_" ++ entropy w (drawn w).

Definition appended (prefix : jsstring) (r : Role) (t : jsstring) (w : World) : World :=
  mkWorld
    (withMessages (fun s => s ++ [mkMessage (nextId prefix w) r t]) (store w))
    (entropy w) (S (drawn w)) (trace w).

(** ** The event loop *)

(** A handler suspended at an [await]. *)
Record Task : Type := mkTask {
  awaited : Request;
  resume : FetchOutcome -> Prog unit
}.

(** A program run until it ends or suspends; an uncaught error ends it
    (an unhandled rejection, which touches no state). *)
Fixpoint advance (p : Prog unit) (w : World) : World * option Task :=
  match p with
  | Ret _ => (w, None)
  | Throw _ => (w, None)
  | Do e k => let (x, w') := perform e w in advance (k x) w'
  | Await req k => (emit (Fetched req) w, Some (mkTask req k))
  end.

(** [mount] is the store of the first render.  The effect that installs
    [onresult] has an empty dependency list: it runs once, after that
    render, and the callback keeps that render's [handleVoiceInput]. *)
Record Sys : Type := mkSys {
  world : World;
  mount : Store;
  inflight : list Task
}.

Inductive Event : Type :=
| ChangeProfile (v : jsstring)
| ChangeInput (v : jsstring)
| ChangeDevKey (v : jsstring)
| ClickStart
| ClickAskNext
| ClickClear
| ClickSpeak
| ClickSend
| ClickRunDiagnostics
| ClickRunTestPrompt
| RecognitionResult (transcript : jsstring)
| UtteranceEnd (onEnd : option Callback)
| FetchSettled (i : nat) (o : FetchOutcome).

Definition dispatch (p : Prog unit) (s : Sys) : Sys :=
  let (w, t) := advance p (world s) in
  mkSys w (mount s)
    (match t with
     | Some t => inflight s ++ [t]
     | None => inflight s
     end).

Definition without {T : Type} (i : nat) (l : list T) : list T :=
  firstn i l ++ skipn (S i) l.

(** One handler alone in the event loop: each outcome of [net] in turn
    settles the fetch it is suspended at.  The result tells whether the
    handler has ended, and carries the outcomes left over. *)
Fixpoint feed (net : list FetchOutcome) (t : option Task) (w : World)
    : bool * list FetchOutcome * World :=
  match t with
  | None => (true, net, w)
  | Some task =>
      match net with
      | [] => (false, [], w)
      | o :: rest =>
          let (w', t') := advance (resume task o) w in feed rest t' w'
      end
  end.

(** ** The module-level constants and the handlers of [App] *)

Definition MODEL : jsstring := lit "openai/gpt-oss-120b".

Definition DEFAULT_GROQ_API_URL : jsstring :=
  lit "https://api.groq.ai/v1/engines/gpt-oss-120b/completions".

(** The text of the message [useState] seeds the transcript with. *)
Definition SYSTEM_TEXT : jsstring :=
  lit "You are Pihu " ++ EM_DASH
  ++ lit " an agentic interview assistant that plans, asks context-aware follow-ups, conducts behavioral + technical interview questions, evaluates answers, and provides concise feedback and scores.".

Definition MISSING_KEY : jsstring :=
  lit "Missing GROQ API key. Set VITE_GROQ_API_KEY at build time or paste a key in Dev API Key.".

(** The numeric literals of the calls. *)
Definition num (r : string) : JsNumber := Finite (lit r).

(** [uid(prefix)]: the prefix, an underscore, and
    [Math.random().toString(36).slice(2, 9)], which the environment
    supplies. *)
Definition uid (prefix : jsstring) : Prog jsstring :=
  Do RandomSuffix (fun d => Ret (prefix ++ lit "_" ++ d)).

(** [append]: the functional update [(s) => [...s, m]]. *)
Definition append (m : Message) : Prog unit :=
  setMessages (fun s => s ++ [m]).

(** [append({ id: uid(prefix), role, text })]. *)
Definition appendNew (prefix : jsstring) (r : Role) (t : jsstring) : Prog unit :=
  i <- uid prefix ;; append (mkMessage i r t).

(** [messages.map((m) => `${m.role.toUpperCase()}: ${m.text}`).join("\n")]. *)
Definition renderConversation (ms : list Message) : jsstring :=
  join LF (map (fun m => toUpperCase (roleName (role m)) ++ lit ": " ++ text m) ms).

(** Lines 119-120 of [callGroq]:
    [data?.choices?.[0]?.text ?? data?.output ?? JSON.stringify(data)]
    and the [String(text)] that is returned. *)
Definition choiceText (data : JSON) : JsValue :=
  optChain (getNamed (lit "text"))
    (optChain (getIndex 0)
       (optChain (getNamed (lit "choices")) (Some data))).

Definition outputField (data : JSON) : JsValue :=
  optChain (getNamed (lit "output")) (Some data).

Definition selectText (data : JSON) : JsValue :=
  coalesce (coalesce (choiceText data) (outputField data))
    (Some (JString (JSON_stringify data))).

Definition completionText (data : JSON) : JsResult jsstring :=
  StringOf (selectText data).

(** The README draft's [fetchInterviewerReply], lines 104-105:
    [data?.choices?.[0]?.message?.content || "…"]. *)
Definition truthyValue (v : JsValue) : bool :=
  match v with
  | None | Some JNull | Some (JBool false) | Some (JNumber NaN) => false
  | Some (JNumber (Finite r)) => negb (jsstring_eqb r (lit "0"))
  | Some (JString s) => truthy s
  | Some _ => true
  end.

Definition messageContent (data : JSON) : JsValue :=
  optChain (getNamed (lit "content"))
    (optChain (getNamed (lit "message"))
       (optChain (getIndex 0)
          (optChain (getNamed (lit "choices")) (Some data)))).

Definition readmeReply (data : JSON) : JsValue :=
  if truthyValue (messageContent data) then messageContent data
  else Some (JString ELLIPSIS).

(** The three response shapes the extraction is stated on. *)
Definition choiceTextBody (X : jsstring) : JSON :=
  JObject [(lit "choices", JArray [JObject [(lit "text", JString X)]])].

Definition outputBody (Y : jsstring) : JSON :=
  JObject [(lit "output", JString Y)].

(** A body whose [output] is an object with a [toString] of its own. *)
Definition toStringBody : JSON :=
  JObject [(lit "output", JObject [(lit "toString", JString (lit "x"))])].

Definition messageContentBody (Z : jsstring) : JSON :=
  JObject [(lit "choices",
            JArray [JObject [(lit "message", JObject [(lit "content", JString Z)])]])].

(** ** Where the configuration comes from *)

(** A value of the host environment, as far as [getRuntimeEnv] tells
    values apart: undefined, null, a primitive (only its truthiness
    matters) or an object, read at its keys (an injected environment maps
    names to strings). *)
Inductive HostValue : Type :=
| HUndefined
| HNull
| HPrimitive (isTruthy : bool)
| HObject (fields : jsstring -> option jsstring).

Definition truthyHost (v : HostValue) : bool :=
  match v with
  | HUndefined | HNull => false
  | HPrimitive b => b
  | HObject _ => true
  end.

(** [typeof v === "object"]. *)
Definition isObjectType (v : HostValue) : bool :=
  match v with
  | HNull | HObject _ => true
  | _ => false
  end.

(** [import.meta]: reading it throws in some runtimes; where it can be
    read it is falsy or has an [env]. *)
Inductive ImportMeta : Type :=
| MetaThrows (e : JsError)
| MetaFalsy
| MetaWith (env : HostValue).

(** [window]: its [__ENV], its [_env_] and the names attached to it
    directly. *)
Record Window : Type := mkWindow {
  __ENV : HostValue;
  _env_ : HostValue;
  ownKeys : jsstring -> option jsstring
}.

(** [window] is [None] where [typeof window] is ["undefined"]. *)
Record Host : Type := mkHost {
  importMeta : ImportMeta;
  window : option Window
}.

Definition readImportMetaEnvSafely (h : Host) : HostValue :=
  match importMeta h with
  | MetaThrows _ => HUndefined
  | MetaFalsy => HUndefined
  | MetaWith env => if truthyHost env then env else HUndefined
  end.

Definition getRuntimeEnv (h : Host) : HostValue :=
  let metaEnv := readImportMetaEnvSafely h in
  if truthyHost metaEnv then metaEnv
  else
    match window h with
    | Some w =>
        if truthyHost (__ENV w) && isObjectType (__ENV w) then __ENV w
        else if truthyHost (_env_ w) && isObjectType (_env_ w) then _env_ w
        else HObject (ownKeys w)
    | None => HObject (fun _ => None)
    end.

(** [runtimeEnv?.KEY]: a primitive has no such property. *)
Definition readEnv (v : HostValue) (key : jsstring) : option jsstring :=
  match v with
  | HObject fields => fields key
  | _ => None
  end.

(** [runtimeEnv], the constant of the module, in the host [h]. *)
Definition runtimeEnvOf (h : Host) : jsstring -> option jsstring :=
  readEnv (getRuntimeEnv h).

(** ** Properties of programs *)

(** Every effect of the program is an [allowed] one and every request it
    awaits a [sendable] one. *)
Inductive Uses {A : Type} (allowed : forall X, Eff X -> Prop)
    (sendable : Request -> Prop) : Prog A -> Prop :=
| uses_ret a : Uses allowed sendable (Ret a)
| uses_throw e : Uses allowed sendable (Throw e)
| uses_do X (e : Eff X) k :
    allowed X e -> (forall x, Uses allowed sendable (k x)) ->
    Uses allowed sendable (Do e k)
| uses_await req k :
    sendable req -> (forall o, Uses allowed sendable (k o)) ->
    Uses allowed sendable (Await req k).

(** What an effect does to the thinking flag. *)
Definition setsThinking {X : Type} (e : Eff X) : option bool :=
  match e with
  | SetIsThinking v => Some v
  | _ => None
  end.

(** An effect that writes neither the transcript nor the thinking flag. *)
Definition quietEff (X : Type) (e : Eff X) : Prop :=
  match e with
  | SetMessages _ | SetIsThinking _ | SetUserInput _ => False
  | _ => True
  end.

Definition anyRequest (req : Request) : Prop := True.

(** A program that never writes the thinking flag. *)
Definition leavesFlag (X : Type) (e : Eff X) : Prop := setsThinking e = None.

(** [Idles b p]: whenever [p] ends, the last thing it did to the thinking
    flag was to switch it off; [b] tells that the flag is known to be off
    where [p] starts.  Nothing is known after an [await], since other
    handlers run in between. *)
Inductive Idles : bool -> Prog unit -> Prop :=
| idles_ret u : Idles true (Ret u)
| idles_throw e : Idles true (Throw e)
| idles_do b X (e : Eff X) k :
    (forall x,
        Idles (match setsThinking e with Some v => negb v | None => b end) (k x)) ->
    Idles b (Do e k)
| idles_await b req k :
    (forall o, Idles false (k o)) -> Idles b (Await req k).

(** An in-flight handler that will switch the flag off when it ends, and
    one that will not touch it. *)
Definition settlesThinking (t : Task) : Prop :=
  forall o, Idles false (resume t o).

Definition ignoresThinking (t : Task) : Prop :=
  forall o, Uses leavesFlag anyRequest (resume t o).

(** If the flag is on, a handler that will switch it off is in flight. *)
Definition thinkingAccounted (s : Sys) : Prop :=
  Forall (fun t => settlesThinking t \/ ignoresThinking t) (inflight s)
  /\ (isThinking (store (world s)) = true ->
      exists t, In t (inflight s) /\ settlesThinking t).

(** ** Sample inputs *)

(** An environment that injects nothing, a source of random suffixes, a
    store (seeded transcript, a candidate profile, a Dev API Key and an
    input field of choice, idle) and the world around it. *)
Definition noEnv : jsstring -> option jsstring := fun _ => None.

Definition sampleRnd (n : nat) : jsstring := decimal (N.of_nat n).

Definition sampleStore (key input : jsstring) : Store :=
  mkStore [mkMessage (lit "sys_0") system SYSTEM_TEXT]
    (lit "backend engineer, 5 years") input false key None None.

Definition sampleWorld (key input : jsstring) : World :=
  mkWorld (sampleStore key input) sampleRnd 1 [].

(** Status 200 with the JSON body [data]; status 500 with a text body. *)
Definition okResponse (data : JSON) : Response :=
  mkResponse 200 (Ok (JSON_stringify data)) (Ok data).

Definition errorResponse : Response :=
  mkResponse 500 (Ok (lit "upstream down"))
    (Raise (SyntaxError (lit "Unexpected token u in JSON at position 0"))).

Definition UPSTREAM_DOWN : JsError :=
  Error (lit "GROQ API error: 500 upstream down").

(** A host without Web Speech synthesis. *)
Definition NO_UTTERANCE : JsError :=
  ReferenceError (lit "SpeechSynthesisUtterance is not defined").

Definition noSynthesis : Synthesis := SynthesisThrows NO_UTTERANCE.

(** Status 200 with a body that is not JSON. *)
Definition htmlResponse : Response :=
  mkResponse 200 (Ok (lit "<html>"))
    (Raise (SyntaxError (lit "Unexpected token < in JSON at position 0"))).

(** An injected environment that defines the key and nothing else. *)
Definition keyOnly (k : jsstring) : jsstring -> option jsstring :=
  fun name => if jsstring_eqb name (lit "VITE_GROQ_API_KEY") then Some k else None.

(** A bundled page: [import.meta.env] is an object without the key,
    while the page injects the key [k] through [window.__ENV]. *)
Definition bundledHost : Host :=
  mkHost (MetaWith (HObject noEnv))
    (Some (mkWindow (HObject (keyOnly (lit "k"))) HUndefined noEnv)).

(** A page where [import.meta] cannot be read: [window.__ENV] and
    [window._env_] both define a key. *)
Definition injectedHost : Host :=
  mkHost (MetaThrows (Error (lit "import.meta is not available")))
    (Some (mkWindow (HObject (keyOnly (lit "k1"))) (HObject (keyOnly (lit "k2"))) noEnv)).

(** The event lists the theorems on the event loop are run at: a Dev API
    Key pasted, and beside it a profile or an answer typed. *)
Definition keyPasted : list Event := [ChangeDevKey (lit "k")].

Definition profileAndKey : list Event :=
  [ChangeProfile (lit "backend engineer, 5 years"); ChangeDevKey (lit "k")].

Definition keyAndAnswer : list Event :=
  [ChangeDevKey (lit "k"); ChangeInput (lit " my answer ")].

Section App.

(** The mapping [getRuntimeEnv()] returned at module load, read at a
    key: [None] where the key is absent. *)
Variable runtimeEnv : jsstring -> option jsstring.

(** What [runDiagnostics] probes: whether [import.meta.env] can be read
    and whether [window.__ENV] is defined. *)
Variables importMetaEnv windowENV : bool.

(** Whether the host has Web Speech synthesis. *)
Variable synthesis : Synthesis.

(** [speakText]: one utterance handed to the synthesis queue, with the
    continuation to run when it has been spoken. *)
Definition speakText (t : jsstring) (onEnd : option Callback) : Prog unit :=
  match synthesis with
  | SynthesisAvailable => trigger (Speak t onEnd)
  | SynthesisThrows e => Throw e
  end.

(** [(runtimeEnv?.KEY as string) || fallback]. *)
Definition envOr (key fallback : jsstring) : jsstring :=
  match runtimeEnv key with
  | Some v => if truthy v then v else fallback
  | None => fallback
  end.

Definition GROQ_API_URL : jsstring :=
  envOr (lit "VITE_GROQ_API_URL") DEFAULT_GROQ_API_URL.

Definition STATIC_API_KEY : jsstring := envOr (lit "VITE_GROQ_API_KEY") [].

(** [STATIC_API_KEY || devApiKey], in the render [r]. *)
Definition effectiveApiKey (r : Store) : jsstring :=
  if truthy STATIC_API_KEY then STATIC_API_KEY else devApiKey r.

(** The request [callGroq] sends. *)
Definition groqRequest (r : Store) (prompt : jsstring)
    (temperature max_tokens : JsNumber) : Request :=
  mkRequest GROQ_API_URL (lit "POST")
    [(lit "Content-Type", lit "application/json");
     (lit "Authorization", lit "Bearer " ++ effectiveApiKey r)]
    (JSON_stringify
       (JObject [(lit "model", JString MODEL);
                 (lit "prompt", JString prompt);
                 (lit "max_tokens", JNumber max_tokens);
                 (lit "temperature", JNumber temperature)])).

Definition callGroq (r : Store) (prompt : jsstring)
    (temperature max_tokens : JsNumber) : Prog jsstring :=
  if negb (truthy (effectiveApiKey r)) then Throw (Error MISSING_KEY)
  else
    res <- fetch (groqRequest r prompt temperature max_tokens) ;;
    if negb (ok res) then
      txt <- liftResult (resText res) ;;
      Throw (Error (lit "GROQ API error: " ++ decimal (status res) ++ lit " " ++ txt))
    else
      data <- liftResult (resJson res) ;;
      liftResult (completionText data).

Definition announcement (r : Store) : jsstring :=
  lit "Start an agentic interview for candidate:" ++ LF ++ candidateProfile r.

Definition planPrompt (r : Store) : jsstring :=
  lit "You are an expert interview designer. Given the candidate profile below, produce a short JSON plan with:" ++ LF
  ++ lit "1) role summary (1 line)" ++ LF
  ++ lit "2) 3 follow-up clarifying questions to ask candidate before interview" ++ LF
  ++ lit "3) 6 interview questions (mix of behavioral + technical) with a 1-3 line rubric for each question." ++ LF
  ++ LF
  ++ lit "Candidate profile:" ++ LF
  ++ candidateProfile r.

Definition followupsPrompt (planText : jsstring) : jsstring :=
  lit "From this plan, extract only the 3 follow-up clarifying questions in a numbered list. Plan was:" ++ LF
  ++ planText.

Definition errorText (err : JsError) : jsstring := lit "Error: " ++ message err.

Definition startAgenticInterview (r : Store) : Prog unit :=
  tryFinally
    (tryCatch
       (setIsThinking true ;;
        appendNew (lit "u") user (announcement r) ;;
        planText <- callGroq r (planPrompt r) (num "0.1") (num "400") ;;
        appendNew (lit "a") assistant (lit "PLAN:" ++ LF ++ planText) ;;
        followupText <- callGroq r (followupsPrompt planText) (num "0.1") (num "200") ;;
        appendNew (lit "a") assistant (lit "FOLLOW-UPS:" ++ LF ++ followupText) ;;
        speakText (lit "Let's begin the interview. " ++ followupText)
          (Some StartRecognition))
       (fun err => appendNew (lit "aerr") assistant (errorText err)))
    (setIsThinking false).

Definition askPrompt (r : Store) : jsstring :=
  lit "You are the interviewer. Ask one interview question or follow-up based on the conversation so far. Conversation messages:" ++ LF
  ++ renderConversation (messages r) ++ LF
  ++ lit "If the next step is to ask a rubric-based question, include a short rubric after the question separated by " ++ LF
  ++ lit "---" ++ LF
  ++ lit "Rubric:".

Definition handleAskNext (r : Store) : Prog unit :=
  tryFinally
    (tryCatch
       (setIsThinking true ;;
        resp <- callGroq r (askPrompt r) (num "0.2") (num "400") ;;
        appendNew (lit "a") assistant resp ;;
        speakText resp (Some StartRecognition))
       (fun err => appendNew (lit "aerr") assistant (errorText err)))
    (setIsThinking false).

Definition evalPrompt (r : Store) (answer : jsstring) : jsstring :=
  lit "You are an interview evaluator. Given the last interview question and the candidate's answer below, provide:" ++ LF
  ++ lit "1) a short score 1-5," ++ LF
  ++ lit "2) 2-line feedback," ++ LF
  ++ lit "3) suggested follow-up probe (single sentence) if needed." ++ LF
  ++ LF
  ++ lit "Conversation:" ++ LF
  ++ renderConversation (messages r) ++ LF
  ++ lit "CANDIDATE_ANSWER: " ++ answer.

Definition handleUserSubmit (r : Store) : Prog unit :=
  if negb (truthy (trim (userInput r))) then Ret tt
  else
    let answer := trim (userInput r) in
    setUserInput [] ;;
    appendNew (lit "u") user answer ;;
    setIsThinking true ;;
    tryFinally
      (tryCatch
         (evalText <- callGroq r (evalPrompt r answer) (num "0") (num "250") ;;
          appendNew (lit "a") assistant (lit "EVALUATION:" ++ LF ++ evalText) ;;
          speakText evalText None)
         (fun err => appendNew (lit "aerr") assistant (errorText err)))
      (setIsThinking false).

(** [handleVoiceInput]: the call of [handleUserSubmit] is the last
    statement, so running the callee up to its first [await] and then
    the rest is sequencing.  [r] is the render whose closure the
    recognition callback holds. *)
Definition handleVoiceInput (r : Store) (transcript : jsstring) : Prog unit :=
  setUserInput [] ;;
  appendNew (lit "u") user transcript ;;
  handleUserSubmit r.

Definition yesNo (b : bool) : jsstring := if b then lit "yes" else lit "no".
Definition YESNO (b : bool) : jsstring := if b then lit "YES" else lit "NO".

Definition runDiagnostics (r : Store) : Prog unit :=
  setDiagnostics
    (Some (join LF
       [lit "import.meta.env available: " ++ yesNo importMetaEnv;
        lit "window.__ENV present: " ++ yesNo windowENV;
        lit "Detected GROQ_API_URL: " ++ GROQ_API_URL;
        lit "Static API key present at build/runtime: " ++ YESNO (truthy STATIC_API_KEY);
        lit "Effective API key (static || dev): " ++ YESNO (truthy (effectiveApiKey r))])).

Definition runTestPrompt (r : Store) : Prog unit :=
  if negb (truthy (effectiveApiKey r)) then
    setLastTestResponse
      (Some (lit "No API key configured (set VITE_GROQ_API_KEY or paste a Dev API Key). Test aborted."))
  else
    setLastTestResponse
      (Some (lit "Running test prompt " ++ EM_DASH ++ lit " waiting for response...")) ;;
    tryCatch
      (resp <- callGroq r
                 (lit "Respond with 'groq-test-ok' to confirm connectivity and authentication.")
                 (num "0") (num "40") ;;
       setLastTestResponse (Some (lit "OK " ++ EM_DASH ++ lit " response:" ++ LF ++ resp)) ;;
       speakText resp None)
      (fun err => setLastTestResponse (Some (lit "Test failed: " ++ message err))).

(** The Clear Conversation button: [() => setMessages([])]. *)
Definition clearConversation : Prog unit := setMessages (fun _ => []).

(** ** The event loop of the component *)

(** One turn of the event loop.  A click on a disabled button does
    nothing; [ClickSend] is the Send button and Ctrl+Enter alike;
    [FetchSettled i o] resumes the [i]-th in-flight handler. *)
Definition step (s : Sys) (ev : Event) : Sys :=
  let r := store (world s) in
  match ev with
  | ChangeProfile v =>
      mkSys (onStore (withCandidateProfile v) (world s)) (mount s) (inflight s)
  | ChangeInput v =>
      mkSys (onStore (withUserInput v) (world s)) (mount s) (inflight s)
  | ChangeDevKey v =>
      mkSys (onStore (withDevApiKey v) (world s)) (mount s) (inflight s)
  | ClickStart =>
      if negb (truthy (trim (candidateProfile r))) || isThinking r then s
      else dispatch (startAgenticInterview r) s
  | ClickAskNext =>
      if isThinking r then s else dispatch (handleAskNext r) s
  | ClickClear => dispatch clearConversation s
  | ClickSpeak => mkSys (emit Listening (world s)) (mount s) (inflight s)
  | ClickSend => dispatch (handleUserSubmit r) s
  | ClickRunDiagnostics => dispatch (runDiagnostics r) s
  | ClickRunTestPrompt => dispatch (runTestPrompt r) s
  | RecognitionResult transcript =>
      dispatch (handleVoiceInput (mount s) transcript) s
  | UtteranceEnd (Some StartRecognition) =>
      mkSys (emit Listening (world s)) (mount s) (inflight s)
  | UtteranceEnd None => s
  | FetchSettled i o =>
      match nth_error (inflight s) i with
      | None => s
      | Some t =>
          dispatch (resume t o) (mkSys (world s) (mount s) (without i (inflight s)))
      end
  end.

(** The first render: the transcript seeded with the system message,
    whose id takes the first random suffix. *)
Definition initialStore (seedId : jsstring) : Store :=
  mkStore [mkMessage seedId system SYSTEM_TEXT] [] [] false [] None None.

Definition boot (rnd : nat -> jsstring) : Sys :=
  let st := initialStore (lit "sys" ++ lit "_" ++ rnd 0) in
  mkSys (mkWorld st rnd 1 []) st [].

Definition exec (rnd : nat -> jsstring) (evs : list Event) : Sys :=
  fold_left step evs (boot rnd).

Definition transcript (s : Sys) : list Message := messages (store (world s)).

(** What [callGroq] comes to once its [fetch] has settled with [o]
    (lines 113-120); [run_callGroq] below proves it of the code. *)
Definition settled (o : FetchOutcome) : Outcome jsstring :=
  match o with
  | Rejected e => Thrown e
  | Resolved res =>
      if ok res then
        match resJson res with
        | Raise e => Thrown e
        | Ok data =>
            match completionText data with
            | Raise e => Thrown e
            | Ok t => Returned t
            end
        end
      else
        match resText res with
        | Raise e => Thrown e
        | Ok txt =>
            Thrown (Error (lit "GROQ API error: " ++ decimal (status res) ++ lit " " ++ txt))
        end
  end.

(** A message that is not the system's. *)
Definition spoken (m : Message) : Prop := role m <> system.

(** A transcript update that only adds user and assistant messages at the
    end, and a program whose every write to the transcript is one. *)
Definition extends (f : list Message -> list Message) : Prop :=
  forall s, exists suffix, f s = s ++ suffix /\ Forall spoken suffix.

Definition appendOnlyEff {X : Type} (e : Eff X) : Prop :=
  match e with
  | SetMessages f => extends f
  | _ => True
  end.

Inductive AppendOnly {A : Type} : Prog A -> Prop :=
| ao_ret a : AppendOnly (Ret a)
| ao_throw e : AppendOnly (Throw e)
| ao_do X (e : Eff X) k :
    appendOnlyEff e -> (forall x, AppendOnly (k x)) -> AppendOnly (Do e k)
| ao_await req k :
    (forall o, AppendOnly (k o)) -> AppendOnly (Await req k).

(** Every in-flight handler only adds to the transcript, however its
    fetch settles. *)
Definition tasksAppendOnly (s : Sys) : Prop :=
  Forall (fun t => forall o, AppendOnly (resume t o)) (inflight s).

(** The seeded system message of a session whose random suffixes are
    [rnd]. *)
Definition seedMessage (rnd : nat -> jsstring) : Message :=
  mkMessage (lit "sys" ++ lit "_" ++ rnd 0) system SYSTEM_TEXT.

(** The first message of a transcript that has one is the system's. *)
Definition firstIsSystem (s : Sys) : Prop :=
  match transcript s with
  | [] => True
  | m :: _ => role m = system
  end.

(** The Clear Conversation event. *)
Definition isClear (ev : Event) : bool :=
  match ev with
  | ClickClear => true
  | _ => false
  end.

(** The transcript of [final] is that of [w] followed by messages with
    exactly these roles and texts, in this order (the ids are random). *)
Definition gained (w final : World) (added : list (Role * jsstring)) : Prop :=
  exists ms,
    messages (store final) = messages (store w) ++ ms
    /\ map (fun m => (role m, text m)) ms = added.

(** The world after [speakText t onEnd] as the last statement of the
    [try] of an interview handler: the utterance is queued, or the
    [catch] of the handler has appended the error [speakText] threw. *)
Definition afterSpeaking (t : jsstring) (onEnd : option Callback) (w : World) : World :=
  match synthesis with
  | SynthesisAvailable => emit (Spoke t onEnd) w
  | SynthesisThrows e => appended (lit "aerr") assistant (errorText e) w
  end.

(** [startAgenticInterview] as the draft [app.jsx] has it: after the
    follow-ups it appends a fixed notice and speaks nothing. *)
Definition FOLLOWUPS_NOTICE : jsstring :=
  lit "I'll ask the follow-ups one by one. Please answer them to continue.".

Definition startAgenticInterview_draft (r : Store) : Prog unit :=
  tryFinally
    (tryCatch
       (setIsThinking true ;;
        appendNew (lit "u") user (announcement r) ;;
        planText <- callGroq r (planPrompt r) (num "0.1") (num "400") ;;
        appendNew (lit "a") assistant (lit "PLAN:" ++ LF ++ planText) ;;
        followupText <- callGroq r (followupsPrompt planText) (num "0.1") (num "200") ;;
        appendNew (lit "a") assistant (lit "FOLLOW-UPS:" ++ LF ++ followupText) ;;
        appendNew (lit "a") assistant FOLLOWUPS_NOTICE)
       (fun err => appendNew (lit "aerr") assistant (errorText err)))
    (setIsThinking false).

(** A request as [callGroq] may send it: a POST to the configured URL
    whose Authorization header is [Bearer ] and a credential that is not
    empty. *)
Definition credentialed (req : Request) : Prop :=
  url req = GROQ_API_URL
  /\ method req = lit "POST"
  /\ exists key,
       truthy key = true
       /\ In (lit "Authorization", lit "Bearer " ++ key) (headers req).

Definition anyEff (X : Type) (e : Eff X) : Prop := True.

(** Every request sent so far is a credentialed one. *)
Definition requestsCredentialed (tr : list Output) : Prop :=
  forall req, In (Fetched req) tr -> credentialed req.

(** The invariant of the event loop behind it: the handlers in flight
    will send credentialed requests only. *)
Definition sendsCredentialed (s : Sys) : Prop :=
  Forall (fun t => forall o, Uses anyEff credentialed (resume t o)) (inflight s)
  /\ requestsCredentialed (trace (world s)).

(** ** How [run] goes through the combinators *)

Lemma run_bind (A B : Type) (p : Prog A) (f : A -> Prog B) net w :
  run (bind p f) net w =
  match run p net w with
  | (Returned a, net', w') => run (f a) net' w'
  | (Thrown e, net', w') => (Thrown e, net', w')
  | (Pending, net', w') => (Pending, net', w')
  end.
Proof.
  revert net w.
  induction p as [a | e | X e k IH | req k IH]; intros net w; simpl; try reflexivity.
  - destruct (perform e w) as [x w']. apply IH.
  - destruct net as [| o rest]; [reflexivity | apply IH].
Qed.

Lemma run_tryCatch (A : Type) (p : Prog A) (h : JsError -> Prog A) net w :
  run (tryCatch p h) net w =
  match run p net w with
  | (Thrown e, net', w') => run (h e) net' w'
  | other => other
  end.
Proof.
  revert net w.
  induction p as [a | e | X e k IH | req k IH]; intros net w; simpl; try reflexivity.
  - destruct (perform e w) as [x w']. apply IH.
  - destruct net as [| o rest]; [reflexivity | apply IH].
Qed.

Lemma run_tryFinally (A : Type) (p : Prog A) (fin : Prog unit) net w :
  run (tryFinally p fin) net w =
  match run p net w with
  | (Returned a, net', w') =>
      match run fin net' w' with
      | (Returned _, n, v) => (Returned a, n, v)
      | (Thrown e, n, v) => (Thrown e, n, v)
      | (Pending, n, v) => (Pending, n, v)
      end
  | (Thrown e, net', w') =>
      match run fin net' w' with
      | (Returned _, n, v) => (Thrown e, n, v)
      | (Thrown e', n, v) => (Thrown e', n, v)
      | (Pending, n, v) => (Pending, n, v)
      end
  | (Pending, net', w') => (Pending, net', w')
  end.
Proof.
  revert net w.
  induction p as [a | e | X e k IH | req k IH]; intros net w; simpl.
  - rewrite run_bind. destruct (run fin net w) as [[[u | e | ] n] v]; reflexivity.
  - rewrite run_bind. destruct (run fin net w) as [[[u | e' | ] n] v]; reflexivity.
  - destruct (perform e w) as [x w']. apply IH.
  - destruct net as [| o rest]; [reflexivity | apply IH].
Qed.

(** [run] is the event loop with nothing interleaved: starting the
    handler and settling its fetches one after the other ends in the
    world [run] computes, with the same outcomes left, suspended exactly
    when [run] is pending. *)
Lemma run_feed (p : Prog unit) net w :
  feed net (snd (advance p w)) (fst (advance p w))
  = (match fst (fst (run p net w)) with Pending => false | _ => true end,
     snd (fst (run p net w)), snd (run p net w)).
Proof.
  revert net w.
  induction p as [a | e | X e k IH | req k IH]; intros net w; simpl.
  - destruct net; reflexivity.
  - destruct net; reflexivity.
  - destruct (perform e w) as [x w']. apply IH.
  - destruct net as [| o rest]; [reflexivity |].
    cbn [feed resume].
    specialize (IH o rest (emit (Fetched req) w)).
    destruct (advance (k o) (emit (Fetched req) w)) as [w' t']. exact IH.
Qed.

Lemma run_setIsThinking b net w :
  run (setIsThinking b) net w = (Returned tt, net, onStore (withIsThinking b) w).
Proof. reflexivity. Qed.

Lemma run_setUserInput v net w :
  run (setUserInput v) net w = (Returned tt, net, onStore (withUserInput v) w).
Proof. reflexivity. Qed.

Lemma run_appendNew prefix r t net w :
  run (appendNew prefix r t) net w = (Returned tt, net, appended prefix r t w).
Proof. reflexivity. Qed.

Lemma run_speakText t cb net w :
  run (speakText t cb) net w =
  match synthesis with
  | SynthesisAvailable => (Returned tt, net, emit (Spoke t cb) w)
  | SynthesisThrows e => (Thrown e, net, w)
  end.
Proof. unfold speakText. case synthesis; reflexivity. Qed.

Lemma run_liftResult (A : Type) (x : JsResult A) net w :
  run (liftResult x) net w =
  (match x with Ok a => Returned a | Raise e => Thrown e end, net, w).
Proof. destruct x; reflexivity. Qed.

Lemma run_callGroq r prompt t m net w :
  run (callGroq r prompt t m) net w =
  if truthy (effectiveApiKey r) then
    match net with
    | [] => (Pending, [], emit (Fetched (groqRequest r prompt t m)) w)
    | o :: rest => (settled o, rest, emit (Fetched (groqRequest r prompt t m)) w)
    end
  else (Thrown (Error MISSING_KEY), net, w).
Proof.
  unfold callGroq.
  destruct (truthy (effectiveApiKey r)); [| reflexivity].
  cbv beta iota delta [negb].
  rewrite run_bind. cbv beta iota delta [fetch run].
  destruct net as [| [e | res] rest]; try reflexivity.
  cbv beta iota. unfold settled.
  destruct (ok res); cbv beta iota delta [negb].
  - rewrite run_bind, run_liftResult.
    destruct (resJson res) as [data | e]; [| reflexivity].
    cbv beta iota. rewrite run_liftResult.
    destruct (completionText data); reflexivity.
  - rewrite run_bind, run_liftResult.
    destruct (resText res) as [txt | e]; reflexivity.
Qed.

(** ** The completion client without a credential *)

(** C1.  With an empty static credential and an empty Dev API Key,
    [callGroq] is the bare [throw] of the missing-key error for every
    prompt, temperature and token bound: the program has no [fetch] in it,
    and run against any network it throws that error, reads no outcome and
    leaves the store and the trace (so the list of requests) as they were. *)
Theorem callGroq_without_credential r prompt temperature max_tokens :
  STATIC_API_KEY = [] ->
  devApiKey r = [] ->
  callGroq r prompt temperature max_tokens = Throw (Error MISSING_KEY)
  /\ forall net w,
       run (callGroq r prompt temperature max_tokens) net w
       = (Thrown (Error MISSING_KEY), net, w).
Proof.
  intros Hstatic Hdev.
  assert (Hkey : effectiveApiKey r = []).
  { unfold effectiveApiKey. rewrite Hstatic. exact Hdev. }
  assert (Hprog : callGroq r prompt temperature max_tokens = Throw (Error MISSING_KEY)).
  { unfold callGroq. rewrite Hkey. reflexivity. }
  split; [exact Hprog |].
  intros net w. rewrite Hprog. reflexivity.
Qed.

(** ** Submitting a blank answer *)

Lemma sys_eta (s : Sys) : mkSys (world s) (mount s) (inflight s) = s.
Proof. destruct s; reflexivity. Qed.

(** C9.  When the input field trims to the empty string,
    [handleUserSubmit] returns at once: it is the empty program, its run
    changes neither the store nor the trace and reads nothing from the
    network, and the Send event leaves the whole state of the event loop
    (transcript, input field, thinking flag, in-flight calls) as it was. *)
Theorem blank_submit_is_noop r :
  trim (userInput r) = [] ->
  handleUserSubmit r = Ret tt
  /\ (forall net w, run (handleUserSubmit r) net w = (Returned tt, net, w))
  /\ (forall s, store (world s) = r -> step s ClickSend = s).
Proof.
  intros Hblank.
  assert (Hprog : handleUserSubmit r = Ret tt).
  { unfold handleUserSubmit. rewrite Hblank. reflexivity. }
  repeat split.
  - exact Hprog.
  - intros net w. rewrite Hprog. reflexivity.
  - intros s Hs. unfold step. rewrite Hs, Hprog.
    unfold dispatch. simpl. apply sys_eta.
Qed.

(** ** Clear Conversation *)

(** C10.  In every state of the event loop, whatever the thinking flag and
    however many calls are in flight, Clear Conversation leaves the
    transcript empty (no system message is put back) and changes nothing
    else: profile, input field, thinking flag, Dev API Key, diagnostics,
    last test response, the trace and the in-flight calls are the same. *)
Theorem clear_resets_only_the_transcript (s : Sys) :
  let s' := step s ClickClear in
  transcript s' = []
  /\ candidateProfile (store (world s')) = candidateProfile (store (world s))
  /\ userInput (store (world s')) = userInput (store (world s))
  /\ isThinking (store (world s')) = isThinking (store (world s))
  /\ devApiKey (store (world s')) = devApiKey (store (world s))
  /\ diagnostics (store (world s')) = diagnostics (store (world s))
  /\ lastTestResponse (store (world s')) = lastTestResponse (store (world s))
  /\ trace (world s') = trace (world s)
  /\ inflight s' = inflight s.
Proof.
  cbv zeta. unfold step, dispatch, clearConversation, transcript. simpl.
  repeat split.
Qed.

(** ** Extracting the completion text *)

(** [String] fails in one way only. *)
Lemma ToString_cases :
  forall v, (exists t, ToString v = Ok t) \/ ToString v = Raise CANNOT_CONVERT.
Proof.
  fix IH 1.
  intros [| [|] | n | s | items | props]; try (left; eexists; reflexivity).
  - cbn [ToString]. revert items. fix IHl 1.
    intros [| x r]; [left; eexists; reflexivity |].
    assert (Hx : (exists t, match x with JNull => Ok [] | _ => ToString x end = Ok t)
                 \/ match x with JNull => Ok [] | _ => ToString x end
                    = Raise CANNOT_CONVERT).
    { pose proof (IH x) as HIx.
      destruct x; try (left; eexists; reflexivity); exact HIx. }
    pose proof (IHl r) as Hr.
    destruct Hx as [[sx Hx] | Hx]; rewrite Hx; [| right; reflexivity].
    destruct r as [| y r']; [left; eexists; reflexivity |].
    destruct Hr as [[sr Hr] | Hr]; rewrite Hr;
      [left; eexists; reflexivity | right; reflexivity].
  - cbn [ToString]. destruct (lookup (lit "toString") props);
      [right; reflexivity | left; eexists; reflexivity].
Qed.

Lemma selectText_present data : nullish (selectText data) = false.
Proof.
  unfold selectText, coalesce.
  destruct (nullish (choiceText data)) eqn:Ha.
  - destruct (nullish (outputField data)) eqn:Hb; [reflexivity | exact Hb].
  - rewrite Ha. exact Ha.
Qed.

Lemma selectText_choice data v :
  choiceText data = Some v -> v <> JNull -> selectText data = Some v.
Proof.
  intros Hc Hv. unfold selectText, coalesce. rewrite Hc.
  destruct v; try reflexivity. contradiction.
Qed.

Lemma selectText_output data v :
  nullish (choiceText data) = true -> outputField data = Some v -> v <> JNull ->
  selectText data = Some v.
Proof.
  intros Hc Ho Hv. unfold selectText, coalesce. rewrite Hc, Ho.
  destruct v; try reflexivity. contradiction.
Qed.

Lemma selectText_fallback data :
  nullish (choiceText data) = true -> nullish (outputField data) = true ->
  selectText data = Some (JString (JSON_stringify data)).
Proof.
  intros Hc Ho. unfold selectText, coalesce. rewrite Hc, Ho. reflexivity.
Qed.

(** C4, as amended.  The text [callGroq] extracts from a successful
    JSON body: for the body [{ choices: [{ text: X }] }] it is [X], and so
    it is whenever [choices[0].text] is the string [X]; for [{ output: Y }]
    it is [Y], and so it is whenever the first-choice text is missing and
    [output] is the string [Y]; when both are missing (or null) it is
    [JSON.stringify] of the whole body.  The value handed to [String] is
    never undefined or null.  [callGroq] does not always return a string:
    on an ok response with a JSON body it returns the extracted text where
    [String] yields one, and throws what [String] raised otherwise, after
    one fetch either way; [String] raises only a [TypeError], and only
    where the field selected holds an object or an array. *)
Theorem completion_text_extraction :
  (forall X, completionText (choiceTextBody X) = Ok X)
  /\ (forall Y, getNamed (lit "choices") (outputBody Y) = None
               /\ completionText (outputBody Y) = Ok Y)
  /\ (forall data X,
        choiceText data = Some (JString X) -> completionText data = Ok X)
  /\ (forall data Y,
        nullish (choiceText data) = true ->
        outputField data = Some (JString Y) -> completionText data = Ok Y)
  /\ (forall data,
        nullish (choiceText data) = true ->
        nullish (outputField data) = true ->
        completionText data = Ok (JSON_stringify data))
  /\ (forall data, nullish (selectText data) = false)
  /\ (forall data,
        (exists t, completionText data = Ok t)
        \/ (completionText data = Raise CANNOT_CONVERT
            /\ match selectText data with
               | Some (JArray _) | Some (JObject _) => True
               | _ => False
               end))
  /\ (forall r prompt temperature max_tokens res rest w data,
        truthy (effectiveApiKey r) = true ->
        ok res = true ->
        resJson res = Ok data ->
        run (callGroq r prompt temperature max_tokens) (Resolved res :: rest) w
        = (match completionText data with
           | Ok t => Returned t
           | Raise e => Thrown e
           end,
           rest,
           emit (Fetched (groqRequest r prompt temperature max_tokens)) w)).
Proof.
  split; [| split; [| split; [| split; [| split; [| split; [| split]]]]]].
  - intros X. reflexivity.
  - intros Y. split; reflexivity.
  - intros data X Hc. unfold completionText.
    rewrite (selectText_choice data Hc); [reflexivity | discriminate].
  - intros data Y Hc Ho. unfold completionText.
    rewrite (selectText_output data Hc Ho); [reflexivity | discriminate].
  - intros data Hc Ho. unfold completionText.
    rewrite (selectText_fallback data Hc Ho). reflexivity.
  - apply selectText_present.
  - intros data. unfold completionText, StringOf.
    destruct (selectText data) as [v |]; [| left; eexists; reflexivity].
    destruct (ToString_cases v) as [Hv | Hv]; [left; exact Hv |].
    destruct v as [| [|] | n | t | items | props];
      try discriminate Hv; right; split; trivial.
  - intros r prompt temperature max_tokens res rest w data Hkey Hok Hjson.
    rewrite run_callGroq, Hkey. unfold settled.
    rewrite Hok, Hjson. destruct (completionText data); reflexivity.
Qed.

(** Quoting never shortens a string. *)
Lemma escapeUnit_length c : 1 <= List.length (escapeUnit c).
Proof.
  unfold escapeUnit, unicodeEscape.
  repeat match goal with
         | |- context [if ?b then _ else _] => destruct b
         end; simpl; lia.
Qed.

Lemma quoteBody_length_upto n :
  forall s, List.length s <= n -> List.length s <= List.length (quoteBody s).
Proof.
  induction n as [| n IH]; intros s Hn.
  - destruct s; [simpl; lia | simpl in Hn; lia].
  - destruct s as [| c r]; [simpl; lia |].
    simpl in Hn. cbn [quoteBody].
    assert (Hr : List.length r <= List.length (quoteBody r)) by (apply IH; lia).
    destruct (isHighSurrogate c).
    + destruct r as [| d r'].
      * unfold unicodeEscape. simpl. lia.
      * destruct (isLowSurrogate d).
        -- assert (Hr' : List.length r' <= List.length (quoteBody r')).
           { apply IH. simpl in Hn. lia. }
           simpl. lia.
        -- rewrite length_app. unfold unicodeEscape at 1.
           cbn [List.length] in *. lia.
    + destruct (isLowSurrogate c).
      * rewrite length_app. unfold unicodeEscape at 1. cbn [List.length]. lia.
      * rewrite length_app. pose proof (escapeUnit_length c). cbn [List.length]. lia.
Qed.

Lemma quoteBody_length s : List.length s <= List.length (quoteBody s).
Proof. apply (quoteBody_length_upto (n := List.length s)). lia. Qed.

Lemma messageContentBody_longer Z :
  List.length Z < List.length (JSON_stringify (messageContentBody Z)).
Proof.
  unfold messageContentBody. cbn [JSON_stringify map join fst snd].
  unfold QuoteJSONString.
  repeat rewrite length_app.
  pose proof (quoteBody_length Z).
  unfold DQUOTE. cbn [List.length]. lia.
Qed.

(** C5 (as the code has it).  [callGroq] takes the text from
    [choices[0].text] when that is neither undefined nor null, else from
    [output] when that is neither, else it is [JSON.stringify] of the
    body; [choices[0].message.content] is not consulted.  For the body
    [{ choices: [{ message: { content: Z } }] }] the two fields are
    missing, so the text is the serialized body, which is never [Z]; the
    README draft's [fetchInterviewerReply] is the reader of
    [message.content] and yields [Z] there when [Z] is not empty. *)
Theorem completion_text_priority :
  (forall data v,
      choiceText data = Some v -> v <> JNull ->
      completionText data = ToString v)
  /\ (forall data v,
        nullish (choiceText data) = true ->
        outputField data = Some v -> v <> JNull ->
        completionText data = ToString v)
  /\ (forall data,
        nullish (choiceText data) = true ->
        nullish (outputField data) = true ->
        completionText data = Ok (JSON_stringify data))
  /\ (forall Z,
        choiceText (messageContentBody Z) = None
        /\ outputField (messageContentBody Z) = None
        /\ completionText (messageContentBody Z)
           = Ok (JSON_stringify (messageContentBody Z))
        /\ JSON_stringify (messageContentBody Z) <> Z
        /\ messageContent (messageContentBody Z) = Some (JString Z)
        /\ (truthy Z = true -> readmeReply (messageContentBody Z) = Some (JString Z))).
Proof.
  split; [| split; [| split]].
  - intros data v Hc Hv. unfold completionText.
    rewrite (selectText_choice data Hc Hv). reflexivity.
  - intros data v Hc Ho Hv. unfold completionText.
    rewrite (selectText_output data Hc Ho Hv). reflexivity.
  - intros data Hc Ho. unfold completionText.
    rewrite (selectText_fallback data Hc Ho). reflexivity.
  - intros Z.
    split; [reflexivity |]. split; [reflexivity |]. split; [reflexivity |].
    split.
    + intros Heq. pose proof (messageContentBody_longer Z) as Hlen.
      rewrite Heq in Hlen. lia.
    + split; [reflexivity |].
      intros HZ. unfold readmeReply.
      change (messageContent (messageContentBody Z)) with (Some (JString Z)).
      cbn [truthyValue]. rewrite HZ. reflexivity.
Qed.

(** ** One operation run to its end *)

Lemma callGroq_returned r prompt t m net w s net' w' :
  run (callGroq r prompt t m) net w = (Returned s, net', w') ->
  truthy (effectiveApiKey r) = true
  /\ (exists o, net = o :: net')
  /\ w' = emit (Fetched (groqRequest r prompt t m)) w.
Proof.
  rewrite run_callGroq.
  destruct (truthy (effectiveApiKey r)); [| discriminate].
  destruct net as [| o rest]; [discriminate |].
  intros H. injection H as Hs Hn Hw. subst net' w'.
  split; [reflexivity |]. split; [exists o |]; reflexivity.
Qed.

Lemma callGroq_thrown r prompt t m net w e net' w' :
  run (callGroq r prompt t m) net w = (Thrown e, net', w') ->
  (net' = net /\ w' = w)
  \/ ((exists o, net = o :: net')
      /\ w' = emit (Fetched (groqRequest r prompt t m)) w).
Proof.
  rewrite run_callGroq.
  destruct (truthy (effectiveApiKey r)).
  - destruct net as [| o rest]; [discriminate |].
    intros H. injection H as Hs Hn Hw. subst net' w'.
    right. split; [exists o |]; reflexivity.
  - intros H. injection H as He Hn Hw. subst net' w'. left. split; reflexivity.
Qed.

Ltac run_steps :=
  repeat (progress (rewrite ?run_tryFinally, ?run_tryCatch, ?run_bind,
                      ?run_setIsThinking, ?run_setUserInput, ?run_appendNew,
                      ?run_speakText;
                    cbv beta iota)).

Lemma trace_onStore f w : trace (onStore f w) = trace w.
Proof. reflexivity. Qed.

Lemma trace_emit o w : trace (emit o w) = trace w ++ [o].
Proof. reflexivity. Qed.

Lemma trace_appended prefix r t w : trace (appended prefix r t w) = trace w.
Proof. reflexivity. Qed.

Lemma messages_thinking b w :
  messages (store (onStore (withIsThinking b) w)) = messages (store w).
Proof. reflexivity. Qed.

Lemma messages_input v w :
  messages (store (onStore (withUserInput v) w)) = messages (store w).
Proof. reflexivity. Qed.

Lemma messages_emit o w : messages (store (emit o w)) = messages (store w).
Proof. reflexivity. Qed.

Lemma messages_appended prefix r t w :
  messages (store (appended prefix r t w))
  = messages (store w) ++ [mkMessage (nextId prefix w) r t].
Proof. reflexivity. Qed.

Lemma isThinking_set b w : isThinking (store (onStore (withIsThinking b) w)) = b.
Proof. reflexivity. Qed.

Create Rewrite HintDb world.
#[local] Hint Rewrite trace_onStore trace_emit trace_appended messages_thinking
  messages_input messages_emit messages_appended isThinking_set : world.

Ltac world_simpl := unfold gained; autorewrite with world.

Ltac gained_by ms :=
  exists ms; split; [rewrite <- ?app_assoc; reflexivity | reflexivity].

(** C2.  When the plan call and then the follow-up call of
    [startAgenticInterview] return [planText] and [followupText], the
    operation ends normally having read exactly two network outcomes, and
    the thinking flag is off.  Where the host has speech synthesis, its
    outputs are, in this order, the plan request, the follow-up request
    (whose prompt embeds [planText]) and only then the utterance; the
    transcript has gained the user's announcement, an assistant message
    [PLAN:] + newline + [planText] and an assistant message
    [FOLLOW-UPS:] + newline + [followupText], in this order.  Where
    [speakText] throws [e], the two requests are all the outputs, and the
    same three messages are followed by the error message of [e].  As long
    as the plan call has not settled, the plan request is the only output:
    the follow-up call has not started. *)
Theorem start_interview_two_calls_in_order
    r net w planText followupText net1 w1 net2 w2 :
  run (callGroq r (planPrompt r) (num "0.1") (num "400")) net
      (appended (lit "u") user (announcement r) (onStore (withIsThinking true) w))
    = (Returned planText, net1, w1) ->
  run (callGroq r (followupsPrompt planText) (num "0.1") (num "200")) net1
      (appended (lit "a") assistant (lit "PLAN:" ++ LF ++ planText) w1)
    = (Returned followupText, net2, w2) ->
  exists final,
    run (startAgenticInterview r) net w = (Returned tt, net2, final)
    /\ (exists o1 o2, net = o1 :: o2 :: net2)
    /\ match synthesis with
       | SynthesisAvailable =>
           trace final
           = trace w
             ++ [Fetched (groqRequest r (planPrompt r) (num "0.1") (num "400"));
                 Fetched (groqRequest r (followupsPrompt planText) (num "0.1") (num "200"));
                 Spoke (lit "Let's begin the interview. " ++ followupText)
                   (Some StartRecognition)]
           /\ gained w final
                [(user, announcement r);
                 (assistant, lit "PLAN:" ++ LF ++ planText);
                 (assistant, lit "FOLLOW-UPS:" ++ LF ++ followupText)]
       | SynthesisThrows e =>
           trace final
           = trace w
             ++ [Fetched (groqRequest r (planPrompt r) (num "0.1") (num "400"));
                 Fetched (groqRequest r (followupsPrompt planText) (num "0.1") (num "200"))]
           /\ gained w final
                [(user, announcement r);
                 (assistant, lit "PLAN:" ++ LF ++ planText);
                 (assistant, lit "FOLLOW-UPS:" ++ LF ++ followupText);
                 (assistant, errorText e)]
       end
    /\ isThinking (store final) = false
    /\ run (startAgenticInterview r) [] w
       = (Pending, [],
          emit (Fetched (groqRequest r (planPrompt r) (num "0.1") (num "400")))
            (appended (lit "u") user (announcement r)
               (onStore (withIsThinking true) w))).
Proof.
  intros H1 H2.
  exists (onStore (withIsThinking false)
            (afterSpeaking (lit "Let's begin the interview. " ++ followupText)
               (Some StartRecognition)
               (appended (lit "a") assistant
                  (lit "FOLLOW-UPS:" ++ LF ++ followupText) w2))).
  split.
  { unfold startAgenticInterview. rewrite run_tryFinally, run_tryCatch.
    run_steps. rewrite H1. run_steps. rewrite H2. run_steps.
    unfold afterSpeaking. case synthesis; [| intros e]; run_steps; reflexivity. }
  destruct (callGroq_returned _ _ _ _ _ _ H1) as [Hkey [[o1 Hn1] Hw1]].
  destruct (callGroq_returned _ _ _ _ _ _ H2) as [_ [[o2 Hn2] Hw2]].
  subst net net1 w2 w1.
  split; [exists o1, o2; reflexivity |].
  split; [| split; [apply isThinking_set |]].
  - unfold afterSpeaking. case synthesis; [| intros e].
    + split; [world_simpl; rewrite <- !app_assoc; reflexivity |].
      world_simpl.
      match goal with
      | |- exists ms, (((_ ++ [?a]) ++ [?b]) ++ [?c]) = _ /\ _ => gained_by [a; b; c]
      end.
    + split; [world_simpl; rewrite <- !app_assoc; reflexivity |].
      world_simpl.
      match goal with
      | |- exists ms, ((((_ ++ [?a]) ++ [?b]) ++ [?c]) ++ [?d]) = _ /\ _ =>
          gained_by [a; b; c; d]
      end.
  - unfold startAgenticInterview. run_steps. rewrite run_callGroq, Hkey.
    reflexivity.
Qed.

(** C3.  A failing completion call, whatever the error [e] (missing key,
    upstream status, rejected fetch), in each operation:
    - start interview, plan call fails: the transcript gains the user's
      announcement and then one assistant message [Error: ] + [e]'s
      message; the only request that can have been sent is the plan
      request, so no follow-up call is made;
    - start interview, follow-up call fails after the plan call returned:
      the announcement and the [PLAN:] message stay, one error message
      follows, and nothing is requested after the failing call;
    - ask next: the transcript gains the one error message;
    - submit answer (input not blank): the user's message stays and one
      error message follows.
    Every time the operation ends normally with the thinking flag off and
    reads from the network no further than the failing call did. *)
Theorem failed_call_is_reported :
  (forall r net w e net' w',
   run (callGroq r (planPrompt r) (num "0.1") (num "400")) net
       (appended (lit "u") user (announcement r) (onStore (withIsThinking true) w))
     = (Thrown e, net', w') ->
   exists final,
     run (startAgenticInterview r) net w = (Returned tt, net', final)
     /\ gained w final [(user, announcement r); (assistant, errorText e)]
     /\ (trace final = trace w
         \/ trace final
            = trace w ++ [Fetched (groqRequest r (planPrompt r) (num "0.1") (num "400"))])
     /\ isThinking (store final) = false)
  /\ (forall r net w e net' w' planText net1 w1,
        run (callGroq r (planPrompt r) (num "0.1") (num "400")) net
            (appended (lit "u") user (announcement r) (onStore (withIsThinking true) w))
          = (Returned planText, net1, w1) ->
        run (callGroq r (followupsPrompt planText) (num "0.1") (num "200")) net1
            (appended (lit "a") assistant (lit "PLAN:" ++ LF ++ planText) w1)
          = (Thrown e, net', w') ->
        exists final,
          run (startAgenticInterview r) net w = (Returned tt, net', final)
          /\ gained w final
               [(user, announcement r);
                (assistant, lit "PLAN:" ++ LF ++ planText);
                (assistant, errorText e)]
          /\ (trace final
              = trace w ++ [Fetched (groqRequest r (planPrompt r) (num "0.1") (num "400"))]
              \/ trace final
                 = trace w
                   ++ [Fetched (groqRequest r (planPrompt r) (num "0.1") (num "400"));
                       Fetched (groqRequest r (followupsPrompt planText)
                                  (num "0.1") (num "200"))])
          /\ isThinking (store final) = false)
  /\ (forall r net w e net' w',
       run (callGroq r (askPrompt r) (num "0.2") (num "400")) net
           (onStore (withIsThinking true) w)
         = (Thrown e, net', w') ->
       exists final,
         run (handleAskNext r) net w = (Returned tt, net', final)
         /\ gained w final [(assistant, errorText e)]
         /\ (trace final = trace w
             \/ trace final
                = trace w ++ [Fetched (groqRequest r (askPrompt r) (num "0.2") (num "400"))])
         /\ isThinking (store final) = false)
  /\ (forall r net w e net' w',
       truthy (trim (userInput r)) = true ->
       run (callGroq r (evalPrompt r (trim (userInput r))) (num "0") (num "250")) net
           (onStore (withIsThinking true)
              (appended (lit "u") user (trim (userInput r))
                 (onStore (withUserInput []) w)))
         = (Thrown e, net', w') ->
       exists final,
         run (handleUserSubmit r) net w = (Returned tt, net', final)
         /\ gained w final [(user, trim (userInput r)); (assistant, errorText e)]
         /\ (trace final = trace w
             \/ trace final
                = trace w
                  ++ [Fetched (groqRequest r (evalPrompt r (trim (userInput r)))
                                 (num "0") (num "250"))])
         /\ isThinking (store final) = false).
Proof.
  split; [| split; [| split]].
  - intros r net w e net' w' H. eexists. split.
    { unfold startAgenticInterview. run_steps. rewrite H. run_steps. reflexivity. }
    destruct (callGroq_thrown _ _ _ _ _ _ H) as [[Hn Hw] | [[o Hn] Hw]]; subst.
    + split; [| split; [left; world_simpl; reflexivity | apply isThinking_set]].
      world_simpl.
      match goal with
      | |- exists ms, ((_ ++ [?a]) ++ [?b]) = _ /\ _ => gained_by [a; b]
      end.
    + split; [| split; [right; world_simpl; reflexivity | apply isThinking_set]].
      world_simpl.
      match goal with
      | |- exists ms, ((_ ++ [?a]) ++ [?b]) = _ /\ _ => gained_by [a; b]
      end.
  - intros r net w e net' w' planText net1 w1 H1 H2. eexists. split.
    { unfold startAgenticInterview. run_steps. rewrite H1. run_steps.
      rewrite H2. run_steps. reflexivity. }
    destruct (callGroq_returned _ _ _ _ _ _ H1) as [_ [[o1 Hn1] Hw1]].
    destruct (callGroq_thrown _ _ _ _ _ _ H2) as [[Hn Hw] | [[o Hn] Hw]]; subst.
    + split; [| split; [left; world_simpl; reflexivity | apply isThinking_set]].
      world_simpl.
      match goal with
      | |- exists ms, (((_ ++ [?a]) ++ [?b]) ++ [?c]) = _ /\ _ => gained_by [a; b; c]
      end.
    + split; [| split; [right; world_simpl; rewrite <- !app_assoc; reflexivity
                       | apply isThinking_set]].
      world_simpl.
      match goal with
      | |- exists ms, (((_ ++ [?a]) ++ [?b]) ++ [?c]) = _ /\ _ => gained_by [a; b; c]
      end.
  - intros r net w e net' w' H. eexists. split.
    { unfold handleAskNext. run_steps. rewrite H. run_steps. reflexivity. }
    destruct (callGroq_thrown _ _ _ _ _ _ H) as [[Hn Hw] | [[o Hn] Hw]]; subst.
    + split; [| split; [left; world_simpl; reflexivity | apply isThinking_set]].
      world_simpl.
      match goal with
      | |- exists ms, (_ ++ [?a]) = _ /\ _ => gained_by [a]
      end.
    + split; [| split; [right; world_simpl; reflexivity | apply isThinking_set]].
      world_simpl.
      match goal with
      | |- exists ms, (_ ++ [?a]) = _ /\ _ => gained_by [a]
      end.
  - intros r net w e net' w' Hne H. eexists. split.
    { unfold handleUserSubmit. rewrite Hne. cbv beta iota zeta delta [negb].
      run_steps. rewrite H. run_steps. reflexivity. }
    destruct (callGroq_thrown _ _ _ _ _ _ H) as [[Hn Hw] | [[o Hn] Hw]]; subst.
    + split; [| split; [left; world_simpl; reflexivity | apply isThinking_set]].
      world_simpl.
      match goal with
      | |- exists ms, ((_ ++ [?a]) ++ [?b]) = _ /\ _ => gained_by [a; b]
      end.
    + split; [| split; [right; world_simpl; reflexivity | apply isThinking_set]].
      world_simpl.
      match goal with
      | |- exists ms, ((_ ++ [?a]) ++ [?b]) = _ /\ _ => gained_by [a; b]
      end.
Qed.

(** ** Append-only programs *)

Lemma AppendOnly_bind (A B : Type) (p : Prog A) (f : A -> Prog B) :
  AppendOnly p -> (forall a, AppendOnly (f a)) -> AppendOnly (bind p f).
Proof.
  intros Hp Hf. induction Hp; simpl; try constructor; auto.
Qed.

Lemma AppendOnly_tryCatch (A : Type) (p : Prog A) (h : JsError -> Prog A) :
  AppendOnly p -> (forall e, AppendOnly (h e)) -> AppendOnly (tryCatch p h).
Proof.
  intros Hp Hh. induction Hp; simpl; try constructor; auto.
Qed.

Lemma AppendOnly_tryFinally (A : Type) (p : Prog A) (fin : Prog unit) :
  AppendOnly p -> AppendOnly fin -> AppendOnly (tryFinally p fin).
Proof.
  intros Hp Hfin. induction Hp; simpl.
  - apply AppendOnly_bind; [assumption | intros; constructor].
  - apply AppendOnly_bind; [assumption | intros; constructor].
  - constructor; auto.
  - constructor; auto.
Qed.

Lemma AppendOnly_perform (X : Type) (e : Eff X) :
  appendOnlyEff e -> AppendOnly (trigger e).
Proof. intros He. constructor; [exact He | intros; constructor]. Qed.

Lemma AppendOnly_liftResult (A : Type) (x : JsResult A) : AppendOnly (liftResult x).
Proof. destruct x; constructor. Qed.

Lemma AppendOnly_appendNew prefix r t :
  r <> system -> AppendOnly (appendNew prefix r t).
Proof.
  intros Hr. unfold appendNew, uid, append, setMessages, trigger. simpl.
  constructor; [exact I |]. intros d.
  constructor; [| intros; constructor].
  intros s. exists [mkMessage (prefix ++ lit "_" ++ d) r t].
  split; [reflexivity |]. constructor; [exact Hr | constructor].
Qed.

Lemma AppendOnly_callGroq r prompt t m : AppendOnly (callGroq r prompt t m).
Proof.
  unfold callGroq. destruct (negb (truthy (effectiveApiKey r))); [constructor |].
  apply AppendOnly_bind.
  - unfold fetch. constructor. intros [e | res]; constructor.
  - intros res. destruct (negb (ok res)).
    + apply AppendOnly_bind; [apply AppendOnly_liftResult | intros; constructor].
    + apply AppendOnly_bind; intros; apply AppendOnly_liftResult.
Qed.

Create HintDb ao discriminated.
#[local] Hint Resolve AppendOnly_bind AppendOnly_tryCatch AppendOnly_tryFinally
  AppendOnly_perform AppendOnly_liftResult AppendOnly_callGroq : ao.
#[local] Hint Extern 1 (AppendOnly (appendNew _ _ _)) =>
  apply AppendOnly_appendNew; discriminate : ao.
#[local] Hint Extern 1 (AppendOnly (setIsThinking _)) =>
  apply AppendOnly_perform; exact I : ao.
#[local] Hint Extern 1 (AppendOnly (setUserInput _)) =>
  apply AppendOnly_perform; exact I : ao.
#[local] Hint Extern 1 (AppendOnly (setDiagnostics _)) =>
  apply AppendOnly_perform; exact I : ao.
#[local] Hint Extern 1 (AppendOnly (setLastTestResponse _)) =>
  apply AppendOnly_perform; exact I : ao.
#[local] Hint Extern 1 (AppendOnly (speakText _ _)) =>
  unfold speakText; case synthesis;
  [apply AppendOnly_perform; exact I | intros; constructor] : ao.
#[local] Hint Extern 1 (AppendOnly (Ret _)) => constructor : ao.

Lemma AppendOnly_startAgenticInterview r : AppendOnly (startAgenticInterview r).
Proof. unfold startAgenticInterview. auto 20 with ao. Qed.

Lemma AppendOnly_handleAskNext r : AppendOnly (handleAskNext r).
Proof. unfold handleAskNext. auto 20 with ao. Qed.

Lemma AppendOnly_handleUserSubmit r : AppendOnly (handleUserSubmit r).
Proof.
  unfold handleUserSubmit.
  destruct (negb (truthy (trim (userInput r)))); auto 20 with ao.
Qed.

Lemma AppendOnly_handleVoiceInput r t : AppendOnly (handleVoiceInput r t).
Proof.
  unfold handleVoiceInput. pose proof (AppendOnly_handleUserSubmit r).
  auto 20 with ao.
Qed.

Lemma AppendOnly_runDiagnostics r : AppendOnly (runDiagnostics r).
Proof. unfold runDiagnostics. auto with ao. Qed.

Lemma AppendOnly_runTestPrompt r : AppendOnly (runTestPrompt r).
Proof.
  unfold runTestPrompt.
  destruct (negb (truthy (effectiveApiKey r))); auto 20 with ao.
Qed.

(** ** The event loop keeps the transcript append-only *)

Lemma triggerextends (X : Type) (e : Eff X) w :
  appendOnlyEff e ->
  exists suffix,
    messages (store (snd (perform e w))) = messages (store w) ++ suffix
    /\ Forall spoken suffix.
Proof.
  destruct e; simpl; intros He;
    try (exists []; split; [symmetry; apply app_nil_r | constructor]).
  exact (He (messages (store w))).
Qed.

Lemma advance_appendOnly (p : Prog unit) :
  AppendOnly p ->
  forall w,
    (exists suffix,
        messages (store (fst (advance p w))) = messages (store w) ++ suffix
        /\ Forall spoken suffix)
    /\ (forall t, snd (advance p w) = Some t -> forall o, AppendOnly (resume t o)).
Proof.
  induction 1 as [a | e | X e k He Hk IH | req k Hk IH]; intros w; simpl.
  - split; [exists []; split; [symmetry; apply app_nil_r | constructor]
           | discriminate].
  - split; [exists []; split; [symmetry; apply app_nil_r | constructor]
           | discriminate].
  - destruct (triggerextends e w He) as [s1 [Hs1 Hf1]].
    destruct (perform e w) as [x w1]. simpl in Hs1.
    destruct (IH x w1) as [[s2 [Hs2 Hf2]] Htask].
    split; [| exact Htask].
    exists (s1 ++ s2). split.
    + rewrite Hs2, Hs1, app_assoc. reflexivity.
    + apply Forall_app. split; assumption.
  - split.
    + exists []. split; [symmetry; apply app_nil_r | constructor].
    + intros t Ht. injection Ht as Ht. subst t. exact Hk.
Qed.

Lemma dispatch_appendOnly p s :
  AppendOnly p ->
  tasksAppendOnly s ->
  tasksAppendOnly (dispatch p s)
  /\ exists suffix,
       transcript (dispatch p s) = transcript s ++ suffix /\ Forall spoken suffix.
Proof.
  intros Hp Hs.
  destruct (advance_appendOnly Hp (world s)) as [Hext Htask].
  unfold dispatch, tasksAppendOnly, transcript in *.
  destruct (advance p (world s)) as [w [t |]]; simpl in *.
  - split; [| exact Hext].
    apply Forall_app. split; [exact Hs |].
    constructor; [apply Htask; reflexivity | constructor].
  - split; [exact Hs | exact Hext].
Qed.

Lemma firstn_Forall (T : Type) (P : T -> Prop) (l : list T) :
  Forall P l -> forall n, Forall P (firstn n l).
Proof.
  induction 1 as [| x l Hx Hl IH]; intros [| n]; simpl; constructor; auto.
Qed.

Lemma skipn_Forall (T : Type) (P : T -> Prop) (l : list T) :
  Forall P l -> forall n, Forall P (skipn n l).
Proof.
  induction 1 as [| x l Hx Hl IH]; intros [| n]; simpl; try constructor; auto.
Qed.

Lemma without_Forall (T : Type) (P : T -> Prop) i (l : list T) :
  Forall P l -> Forall P (without i l).
Proof.
  intros H. unfold without. apply Forall_app. split.
  - apply firstn_Forall. exact H.
  - apply skipn_Forall. exact H.
Qed.

Lemma unchanged_extends (l : list Message) :
  exists suffix, l = l ++ suffix /\ Forall spoken suffix.
Proof. exists []. split; [symmetry; apply app_nil_r | constructor]. Qed.

Lemma dispatch_clear s :
  dispatch clearConversation s
  = mkSys (onStore (withMessages (fun _ => [])) (world s)) (mount s) (inflight s).
Proof. reflexivity. Qed.

Lemma step_clear s : transcript (step s ClickClear) = [].
Proof. unfold step. rewrite dispatch_clear. reflexivity. Qed.

Lemma settled_appendOnly s i t o :
  tasksAppendOnly s ->
  nth_error (inflight s) i = Some t ->
  AppendOnly (resume t o)
  /\ tasksAppendOnly (mkSys (world s) (mount s) (without i (inflight s))).
Proof.
  intros Hs Ht. split.
  - unfold tasksAppendOnly in Hs. rewrite Forall_forall in Hs.
    apply Hs. eapply nth_error_In. exact Ht.
  - unfold tasksAppendOnly in *. cbn [inflight]. apply without_Forall. exact Hs.
Qed.

(** What one event does, given that the handlers in flight only append:
    the same holds afterwards, and unless the event is Clear Conversation
    the transcript has only grown at its end. *)
Lemma step_appendOnly s ev :
  tasksAppendOnly s ->
  tasksAppendOnly (step s ev)
  /\ (isClear ev = false ->
      exists suffix,
        transcript (step s ev) = transcript s ++ suffix /\ Forall spoken suffix).
Proof.
  intros Hs.
  destruct ev as [v | v | v | | | | | | | | t | onEnd | i o];
    unfold step; cbv beta iota zeta.
  - split; [exact Hs | intros _; apply unchanged_extends].
  - split; [exact Hs | intros _; apply unchanged_extends].
  - split; [exact Hs | intros _; apply unchanged_extends].
  - destruct (negb (truthy (trim (candidateProfile (store (world s)))))
              || isThinking (store (world s))).
    + split; [exact Hs | intros _; apply unchanged_extends].
    + destruct (dispatch_appendOnly (AppendOnly_startAgenticInterview (store (world s))) Hs).
      split; [assumption | intros _; assumption].
  - destruct (isThinking (store (world s))).
    + split; [exact Hs | intros _; apply unchanged_extends].
    + destruct (dispatch_appendOnly (AppendOnly_handleAskNext (store (world s))) Hs).
      split; [assumption | intros _; assumption].
  - rewrite dispatch_clear. split; [exact Hs | discriminate].
  - split; [exact Hs | intros _; apply unchanged_extends].
  - destruct (dispatch_appendOnly (AppendOnly_handleUserSubmit (store (world s))) Hs).
    split; [assumption | intros _; assumption].
  - destruct (dispatch_appendOnly (AppendOnly_runDiagnostics (store (world s))) Hs).
    split; [assumption | intros _; assumption].
  - destruct (dispatch_appendOnly (AppendOnly_runTestPrompt (store (world s))) Hs).
    split; [assumption | intros _; assumption].
  - destruct (dispatch_appendOnly (AppendOnly_handleVoiceInput (mount s) t) Hs).
    split; [assumption | intros _; assumption].
  - destruct onEnd as [[] |];
      (split; [exact Hs | intros _; apply unchanged_extends]).
  - destruct (nth_error (inflight s) i) as [t |] eqn:Ht.
    + destruct (@settled_appendOnly s i t o Hs Ht) as [Hp Hrest].
      destruct (dispatch_appendOnly Hp Hrest).
      split; [assumption | intros _; assumption].
    + split; [exact Hs | intros _; apply unchanged_extends].
Qed.

Lemma step_tasksAppendOnly s ev :
  tasksAppendOnly s -> tasksAppendOnly (step s ev).
Proof. intros Hs. apply step_appendOnly. exact Hs. Qed.

Lemma step_extends s ev :
  tasksAppendOnly s ->
  isClear ev = false ->
  exists suffix,
    transcript (step s ev) = transcript s ++ suffix /\ Forall spoken suffix.
Proof. intros Hs Hev. apply step_appendOnly; assumption. Qed.

Lemma exec_snoc rnd evs ev : exec rnd (evs ++ [ev]) = step (exec rnd evs) ev.
Proof. unfold exec. rewrite fold_left_app. reflexivity. Qed.

Lemma exec_tasksAppendOnly rnd evs : tasksAppendOnly (exec rnd evs).
Proof.
  induction evs as [| ev evs IH] using rev_ind.
  - constructor.
  - rewrite exec_snoc. apply step_tasksAppendOnly. exact IH.
Qed.

(** C8.  After any sequence of events (user actions and settled fetches,
    interleaved in any way), one more event that is not Clear Conversation
    leaves the transcript as it was followed by zero or more messages, so
    every message stays where it is and the length does not decrease;
    Clear Conversation leaves it empty. *)
Theorem transcript_is_append_only rnd evs ev :
  let before := transcript (exec rnd evs) in
  let after := transcript (step (exec rnd evs) ev) in
  if isClear ev then after = []
  else (exists suffix, after = before ++ suffix)
       /\ List.length before <= List.length after.
Proof.
  cbv zeta. destruct (isClear ev) eqn:Hev.
  - destruct ev; try discriminate Hev. apply step_clear.
  - destruct (@step_extends (exec rnd evs) ev (exec_tasksAppendOnly rnd evs) Hev)
      as [suffix [Hsuffix _]].
    split; [exists suffix; exact Hsuffix |].
    rewrite Hsuffix, length_app. lia.
Qed.

(** ** The system message *)

(** C7 (as the code has it).  After any sequence of events with no Clear
    Conversation among them, the transcript starts with the seeded system
    message and every later message is a user or assistant one: no
    operation removes or replaces the system message on its own.  Once
    Clear Conversation has occurred, the system message is gone for good:
    no message of the transcript has role system, so a transcript that is
    not empty then starts with a user or assistant message. *)
Theorem system_message_until_clear rnd evs :
  role (seedMessage rnd) = system
  /\ (existsb isClear evs = false ->
      exists rest,
        transcript (exec rnd evs) = seedMessage rnd :: rest
        /\ Forall spoken rest)
  /\ (existsb isClear evs = true ->
      Forall spoken (transcript (exec rnd evs))).
Proof.
  split; [reflexivity |].
  induction evs as [| ev evs [IHkept IHgone]] using rev_ind.
  - split; [| discriminate].
    intros _. exists []. split; [reflexivity | constructor].
  - rewrite exec_snoc, existsb_app. cbn [existsb]. rewrite orb_false_r.
    destruct (isClear ev) eqn:Hev.
    + rewrite orb_true_r. split; [discriminate |].
      intros _. destruct ev; try discriminate Hev.
      rewrite step_clear. constructor.
    + rewrite orb_false_r.
      destruct (@step_extends (exec rnd evs) ev (exec_tasksAppendOnly rnd evs) Hev)
        as [suffix [Hsuffix Hspoken]].
      rewrite Hsuffix. split.
      * intros Hnone. destruct (IHkept Hnone) as [rest [Hrest Hr]].
        exists (rest ++ suffix). rewrite Hrest. split; [reflexivity |].
        apply Forall_app. split; assumption.
      * intros Hsome. apply Forall_app. split; [apply IHgone; exact Hsome | assumption].
Qed.

(** ** A recognized utterance *)

Lemma dispatch_mount p s : mount (dispatch p s) = mount s.
Proof. unfold dispatch. destruct (advance p (world s)) as [w t]. reflexivity. Qed.

Lemma step_mount s ev : mount (step s ev) = mount s.
Proof.
  destruct ev as [v | v | v | | | | | | | | t | onEnd | i o];
    unfold step; cbv beta iota zeta; rewrite ?dispatch_mount; try reflexivity.
  - destruct (negb (truthy (trim (candidateProfile (store (world s)))))
              || isThinking (store (world s)));
      rewrite ?dispatch_mount; reflexivity.
  - destruct (isThinking (store (world s))); rewrite ?dispatch_mount; reflexivity.
  - destruct onEnd as [[] |]; reflexivity.
  - destruct (nth_error (inflight s) i); rewrite ?dispatch_mount; reflexivity.
Qed.

Lemma exec_mount rnd evs :
  mount (exec rnd evs) = initialStore (lit "sys" ++ lit "_" ++ rnd 0).
Proof.
  induction evs as [| ev evs IH] using rev_ind.
  - reflexivity.
  - rewrite exec_snoc, step_mount. exact IH.
Qed.

(** C6 (what the code does).  In every reachable state a recognized
    utterance [t] adds one user message with text [t] (untrimmed) and does
    nothing else: [handleUserSubmit] reads the input field of the render
    the recognition callback was created in, which is empty, and returns
    at once.  No request is sent, no handler is left in flight, nothing is
    spoken, and the thinking flag keeps its value. *)
Theorem voice_result_makes_no_call rnd evs t :
  let s := exec rnd evs in
  let s' := step s (RecognitionResult t) in
  gained (world s) (world s') [(user, t)]
  /\ trace (world s') = trace (world s)
  /\ inflight s' = inflight s
  /\ isThinking (store (world s')) = isThinking (store (world s))
  /\ userInput (store (world s')) = [].
Proof.
  cbv zeta. unfold step. rewrite exec_mount.
  unfold handleVoiceInput, handleUserSubmit, dispatch. simpl.
  split; [| repeat split].
  eexists. split; reflexivity.
Qed.

(** The typed path for comparison: with a credential, typing a non-blank
    answer and pressing Send adds the trimmed answer as a user message,
    sends the evaluation request and leaves the handler in flight. *)
Lemma typed_answer_is_evaluated s t :
  truthy (trim t) = true ->
  truthy (effectiveApiKey (withUserInput t (store (world s)))) = true ->
  let r := withUserInput t (store (world s)) in
  let s' := step (step s (ChangeInput t)) ClickSend in
  gained (world s) (world s') [(user, trim t)]
  /\ trace (world s')
     = trace (world s)
       ++ [Fetched (groqRequest r (evalPrompt r (trim t)) (num "0") (num "250"))]
  /\ List.length (inflight s') = S (List.length (inflight s))
  /\ isThinking (store (world s')) = true.
Proof.
  intros Ht Hkey. cbv zeta. unfold step.
  cbn [world store onStore mount inflight].
  unfold handleUserSubmit.
  replace (userInput (withUserInput t (store (world s)))) with t by reflexivity.
  rewrite Ht. cbv beta iota zeta delta [negb].
  unfold callGroq. rewrite Hkey. cbv beta iota zeta delta [negb].
  unfold dispatch. simpl.
  split; [| split; [reflexivity | split; [| reflexivity]]].
  - eexists. split; reflexivity.
  - rewrite length_app. simpl. lia.
Qed.

(** ** The configuration constants *)

Lemma truthy_empty (s : jsstring) : truthy s = false -> s = [].
Proof. destruct s; [reflexivity | discriminate]. Qed.

(** X1.  The endpoint is never the empty string: it is the injected
    [VITE_GROQ_API_URL] when that is not empty, and the default when it is
    empty or not injected.  The static key is the injected
    [VITE_GROQ_API_KEY] when that is not empty, and it is then the
    effective key whatever the Dev API Key field holds; when none is
    injected, or an empty one, the static key is empty and the effective
    key is the Dev API Key.  So the effective key is empty exactly when
    both are. *)
Theorem configured_url_and_key (r : Store) :
  truthy GROQ_API_URL = true
  /\ (forall v,
        runtimeEnv (lit "VITE_GROQ_API_URL") = Some v ->
        truthy v = true ->
        GROQ_API_URL = v)
  /\ (runtimeEnv (lit "VITE_GROQ_API_URL") = None
      \/ runtimeEnv (lit "VITE_GROQ_API_URL") = Some [] ->
      GROQ_API_URL = DEFAULT_GROQ_API_URL)
  /\ (forall v,
        runtimeEnv (lit "VITE_GROQ_API_KEY") = Some v ->
        truthy v = true ->
        STATIC_API_KEY = v /\ effectiveApiKey r = v)
  /\ (runtimeEnv (lit "VITE_GROQ_API_KEY") = None
      \/ runtimeEnv (lit "VITE_GROQ_API_KEY") = Some [] ->
      STATIC_API_KEY = [] /\ effectiveApiKey r = devApiKey r)
  /\ truthy (effectiveApiKey r) = truthy STATIC_API_KEY || truthy (devApiKey r).
Proof.
  unfold effectiveApiKey. unfold GROQ_API_URL, STATIC_API_KEY, envOr.
  split; [| split; [| split; [| split; [| split]]]].
  - destruct (runtimeEnv (lit "VITE_GROQ_API_URL")) as [v |]; [| reflexivity].
    destruct (truthy v) eqn:Hv; [exact Hv | reflexivity].
  - intros v Hsome Hv. rewrite Hsome, Hv. reflexivity.
  - intros [Hnone | Hempty]; [rewrite Hnone | rewrite Hempty]; reflexivity.
  - intros v Hsome Hv. rewrite Hsome, Hv. cbv iota. rewrite Hv. split; reflexivity.
  - intros [Hnone | Hempty]; [rewrite Hnone | rewrite Hempty]; split; reflexivity.
  - destruct (runtimeEnv (lit "VITE_GROQ_API_KEY")) as [v |].
    + destruct (truthy v) eqn:Hv.
      * cbv iota. rewrite ?Hv. reflexivity.
      * reflexivity.
    + reflexivity.
Qed.

(** ** The completion client, call by call *)

(** X2.  One call of [callGroq], against any network and whatever the
    outcome: it writes nothing to the store and draws no random suffix;
    with a credential it sends exactly one request, the one built from its
    arguments, and reads exactly one outcome; without one it sends and
    reads nothing. *)
Theorem callGroq_sends_one_request_at_most r prompt temperature max_tokens net w :
  let result := run (callGroq r prompt temperature max_tokens) net w in
  store (snd result) = store w
  /\ drawn (snd result) = drawn w
  /\ (if truthy (effectiveApiKey r)
      then trace (snd result)
           = trace w ++ [Fetched (groqRequest r prompt temperature max_tokens)]
           /\ snd (fst result) = tl net
      else trace (snd result) = trace w /\ snd (fst result) = net).
Proof.
  cbv zeta. rewrite run_callGroq.
  destruct (truthy (effectiveApiKey r)).
  - destruct net as [| o rest]; repeat split.
  - repeat split.
Qed.

(** X3.  How a call with a credential fails: a rejected fetch is thrown
    on as it is; a response whose status is outside 200..299 becomes the
    error [GROQ API error: ] + status + space + body text, and its body is
    not read as JSON; an ok response whose body is not JSON throws what
    [res.json()] rejected with.  In each case one request was sent and
    nothing was retried. *)
Theorem callGroq_failures r prompt temperature max_tokens rest w :
  truthy (effectiveApiKey r) = true ->
  let call := callGroq r prompt temperature max_tokens in
  let sent := emit (Fetched (groqRequest r prompt temperature max_tokens)) w in
  (forall e, run call (Rejected e :: rest) w = (Thrown e, rest, sent))
  /\ (forall res txt,
        ok res = false ->
        resText res = Ok txt ->
        run call (Resolved res :: rest) w
        = (Thrown (Error (lit "GROQ API error: " ++ decimal (status res)
                            ++ lit " " ++ txt)),
           rest, sent))
  /\ (forall res e,
        ok res = true ->
        resJson res = Raise e ->
        run call (Resolved res :: rest) w = (Thrown e, rest, sent)).
Proof.
  intros Hkey. cbv zeta.
  split; [| split].
  - intros e. rewrite run_callGroq, Hkey. reflexivity.
  - intros res txt Hok Htxt. rewrite run_callGroq, Hkey. unfold settled.
    rewrite Hok, Htxt. reflexivity.
  - intros res e Hok Hjson. rewrite run_callGroq, Hkey. unfold settled.
    rewrite Hok, Hjson. reflexivity.
Qed.

(** X4.  The text extraction never yields a missing value and fails in
    one way only: [String] raising on an object or array.  Whenever the
    value selected is a string, a number or a boolean, and whenever both
    fields are missing so that the serialized body is taken, a string
    comes out. *)
Theorem completion_text_failure_mode data :
  ((exists t, completionText data = Ok t)
   \/ completionText data = Raise CANNOT_CONVERT)
  /\ match selectText data with
     | Some (JArray _) | Some (JObject _) => True
     | _ => exists t, completionText data = Ok t
     end
  /\ (nullish (choiceText data) = true ->
      nullish (outputField data) = true ->
      exists t, completionText data = Ok t).
Proof.
  split; [| split].
  - unfold completionText, StringOf.
    destruct (selectText data) as [v |]; [apply ToString_cases |].
    left. eexists. reflexivity.
  - unfold completionText, StringOf.
    destruct (selectText data) as [[| [|] | n | s | items | props] |];
      try exact I; eexists; reflexivity.
  - intros Hc Ho. unfold completionText.
    rewrite (selectText_fallback data Hc Ho). eexists. reflexivity.
Qed.

(** ** The operations on their success paths *)

Lemma run_setLastTestResponse v net w :
  run (setLastTestResponse v) net w
  = (Returned tt, net, onStore (withLastTestResponse v) w).
Proof. reflexivity. Qed.

Lemma run_setDiagnostics v net w :
  run (setDiagnostics v) net w = (Returned tt, net, onStore (withDiagnostics v) w).
Proof. reflexivity. Qed.

Lemma userInput_thinking b w :
  userInput (store (onStore (withIsThinking b) w)) = userInput (store w).
Proof. reflexivity. Qed.

Lemma userInput_emit o w : userInput (store (emit o w)) = userInput (store w).
Proof. reflexivity. Qed.

Lemma userInput_appended prefix r t w :
  userInput (store (appended prefix r t w)) = userInput (store w).
Proof. reflexivity. Qed.

Lemma userInput_set v w : userInput (store (onStore (withUserInput v) w)) = v.
Proof. reflexivity. Qed.

Lemma isThinking_emit o w : isThinking (store (emit o w)) = isThinking (store w).
Proof. reflexivity. Qed.

Lemma isThinking_appended prefix r t w :
  isThinking (store (appended prefix r t w)) = isThinking (store w).
Proof. reflexivity. Qed.

#[local] Hint Rewrite userInput_thinking userInput_emit userInput_appended
  userInput_set isThinking_emit isThinking_appended : world.

Ltac run_more :=
  repeat (progress (rewrite ?run_tryFinally, ?run_tryCatch, ?run_bind,
                      ?run_setIsThinking, ?run_setUserInput, ?run_appendNew,
                      ?run_speakText, ?run_setLastTestResponse,
                      ?run_setDiagnostics;
                    cbv beta iota)).

(** X5.  When its completion call returns [resp], [handleAskNext] ends
    normally with the thinking flag off, and the transcript gains first of
    all one assistant message whose text is [resp] as it came.  Where the
    host has speech synthesis that is all it gains, and the request is
    followed by the utterance of [resp] with the callback that re-arms
    recognition.  Where [speakText] throws [e], nothing is spoken and the
    error message of [e] follows [resp] in the transcript. *)
Theorem ask_next_appends_the_reply r net w resp net1 w1 :
  run (callGroq r (askPrompt r) (num "0.2") (num "400")) net
      (onStore (withIsThinking true) w)
    = (Returned resp, net1, w1) ->
  exists final,
    run (handleAskNext r) net w = (Returned tt, net1, final)
    /\ match synthesis with
       | SynthesisAvailable =>
           gained w final [(assistant, resp)]
           /\ trace final
              = trace w
                ++ [Fetched (groqRequest r (askPrompt r) (num "0.2") (num "400"));
                    Spoke resp (Some StartRecognition)]
       | SynthesisThrows e =>
           gained w final [(assistant, resp); (assistant, errorText e)]
           /\ trace final
              = trace w
                ++ [Fetched (groqRequest r (askPrompt r) (num "0.2") (num "400"))]
       end
    /\ isThinking (store final) = false.
Proof.
  intros H.
  exists (onStore (withIsThinking false)
            (afterSpeaking resp (Some StartRecognition)
               (appended (lit "a") assistant resp w1))).
  split.
  { unfold handleAskNext. rewrite run_tryFinally, run_tryCatch.
    run_steps. rewrite H. run_steps.
    unfold afterSpeaking. case synthesis; [| intros e]; run_steps; reflexivity. }
  destruct (callGroq_returned _ _ _ _ _ _ H) as [_ [_ Hw]]. subst w1.
  split; [| apply isThinking_set].
  unfold afterSpeaking. case synthesis; [| intros e].
  - split; [| world_simpl; rewrite <- ?app_assoc; reflexivity].
    world_simpl.
    match goal with
    | |- exists ms, (_ ++ [?a]) = _ /\ _ => gained_by [a]
    end.
  - split; [| world_simpl; rewrite <- ?app_assoc; reflexivity].
    world_simpl.
    match goal with
    | |- exists ms, ((_ ++ [?a]) ++ [?b]) = _ /\ _ => gained_by [a; b]
    end.
Qed.

(** X6.  When the input is not blank and the evaluation call returns
    [evalText], [handleUserSubmit] ends normally: the input field is
    emptied, the thinking flag is off, and the transcript gains first the
    trimmed answer as a user message and then an assistant message
    [EVALUATION:] + newline + [evalText].  Where the host has speech
    synthesis that is all it gains, and the request is followed by the
    utterance of [evalText] with no callback (recognition is not
    re-armed).  Where [speakText] throws [e], nothing is spoken and the
    error message of [e] follows the evaluation in the transcript. *)
Theorem submit_appends_answer_and_evaluation r net w evalText net1 w1 :
  truthy (trim (userInput r)) = true ->
  run (callGroq r (evalPrompt r (trim (userInput r))) (num "0") (num "250")) net
      (onStore (withIsThinking true)
         (appended (lit "u") user (trim (userInput r))
            (onStore (withUserInput []) w)))
    = (Returned evalText, net1, w1) ->
  exists final,
    run (handleUserSubmit r) net w = (Returned tt, net1, final)
    /\ match synthesis with
       | SynthesisAvailable =>
           gained w final
             [(user, trim (userInput r));
              (assistant, lit "EVALUATION:" ++ LF ++ evalText)]
           /\ trace final
              = trace w
                ++ [Fetched (groqRequest r (evalPrompt r (trim (userInput r)))
                               (num "0") (num "250"));
                    Spoke evalText None]
       | SynthesisThrows e =>
           gained w final
             [(user, trim (userInput r));
              (assistant, lit "EVALUATION:" ++ LF ++ evalText);
              (assistant, errorText e)]
           /\ trace final
              = trace w
                ++ [Fetched (groqRequest r (evalPrompt r (trim (userInput r)))
                               (num "0") (num "250"))]
       end
    /\ userInput (store final) = []
    /\ isThinking (store final) = false.
Proof.
  intros Hinput H.
  exists (onStore (withIsThinking false)
            (afterSpeaking evalText None
               (appended (lit "a") assistant
                  (lit "EVALUATION:" ++ LF ++ evalText) w1))).
  split.
  { unfold handleUserSubmit. rewrite Hinput. cbv beta iota zeta delta [negb].
    run_steps. rewrite H. run_steps.
    unfold afterSpeaking. case synthesis; [| intros e]; run_steps; reflexivity. }
  destruct (callGroq_returned _ _ _ _ _ _ H) as [_ [_ Hw]]. subst w1.
  split; [| split; [| apply isThinking_set]].
  - unfold afterSpeaking. case synthesis; [| intros e].
    + split; [| world_simpl; rewrite <- ?app_assoc; reflexivity].
      world_simpl.
      match goal with
      | |- exists ms, ((_ ++ [?a]) ++ [?b]) = _ /\ _ => gained_by [a; b]
      end.
    + split; [| world_simpl; rewrite <- ?app_assoc; reflexivity].
      world_simpl.
      match goal with
      | |- exists ms, (((_ ++ [?a]) ++ [?b]) ++ [?c]) = _ /\ _ => gained_by [a; b; c]
      end.
  - unfold afterSpeaking. case synthesis; [| intros e];
      autorewrite with world; reflexivity.
Qed.

(** X7.  A completion call that never settles: each operation stops at
    the [await] with its one request sent, keeps what it had appended
    before the call, and leaves the thinking flag on, as no [finally] has
    run. *)
Theorem unsettled_call_keeps_thinking r w :
  truthy (effectiveApiKey r) = true ->
  (exists final,
      run (handleAskNext r) [] w = (Pending, [], final)
      /\ isThinking (store final) = true
      /\ messages (store final) = messages (store w)
      /\ trace final
         = trace w ++ [Fetched (groqRequest r (askPrompt r) (num "0.2") (num "400"))])
  /\ (truthy (trim (userInput r)) = true ->
      exists final,
        run (handleUserSubmit r) [] w = (Pending, [], final)
        /\ isThinking (store final) = true
        /\ gained w final [(user, trim (userInput r))]
        /\ trace final
           = trace w
             ++ [Fetched (groqRequest r (evalPrompt r (trim (userInput r)))
                            (num "0") (num "250"))])
  /\ (exists final,
        run (startAgenticInterview r) [] w = (Pending, [], final)
        /\ isThinking (store final) = true
        /\ gained w final [(user, announcement r)]
        /\ trace final
           = trace w
             ++ [Fetched (groqRequest r (planPrompt r) (num "0.1") (num "400"))]).
Proof.
  intros Hkey. split; [| split].
  - eexists. split.
    { unfold handleAskNext. run_steps. rewrite run_callGroq, Hkey. reflexivity. }
    split; [| split]; autorewrite with world; reflexivity.
  - intros Hne. eexists. split.
    { unfold handleUserSubmit. rewrite Hne. cbv beta iota zeta delta [negb].
      run_steps. rewrite run_callGroq, Hkey. reflexivity. }
    split; [| split]; try (autorewrite with world; reflexivity).
    world_simpl.
    match goal with
    | |- exists ms, (_ ++ [?a]) = _ /\ _ => gained_by [a]
    end.
  - eexists. split.
    { unfold startAgenticInterview. run_steps. rewrite run_callGroq, Hkey.
      reflexivity. }
    split; [| split]; try (autorewrite with world; reflexivity).
    world_simpl.
    match goal with
    | |- exists ms, (_ ++ [?a]) = _ /\ _ => gained_by [a]
    end.
Qed.

(** ** Run Test Prompt *)

(** X8.  [runTestPrompt] reports in the last-test-response cell only.
    Without a credential it writes the no-key notice and sends nothing.
    With one it first writes the waiting notice; when the call returns
    [resp] it writes [OK], a dash, [response:], a newline and [resp], and
    then speaks [resp] with no callback where the host has speech
    synthesis; where [speakText] throws [e], nothing is spoken and the
    report is overwritten with [Test failed: ] + [e]'s message.  When the
    call throws [e] it writes [Test failed: ] + [e]'s message and speaks
    nothing.  It ends normally each time. *)
Theorem test_prompt_reports :
  (forall r net w,
      truthy (effectiveApiKey r) = false ->
      run (runTestPrompt r) net w
      = (Returned tt, net,
         onStore
           (withLastTestResponse
              (Some (lit "No API key configured (set VITE_GROQ_API_KEY or paste a Dev API Key). Test aborted.")))
           w))
  /\ (forall r net w resp net1 w1,
        run (callGroq r
               (lit "Respond with 'groq-test-ok' to confirm connectivity and authentication.")
               (num "0") (num "40")) net
            (onStore
               (withLastTestResponse
                  (Some (lit "Running test prompt " ++ EM_DASH
                         ++ lit " waiting for response...")))
               w)
          = (Returned resp, net1, w1) ->
        run (runTestPrompt r) net w
        = (Returned tt, net1,
           match synthesis with
           | SynthesisAvailable =>
               emit (Spoke resp None)
                 (onStore
                    (withLastTestResponse
                       (Some (lit "OK " ++ EM_DASH ++ lit " response:" ++ LF ++ resp)))
                    w1)
           | SynthesisThrows e =>
               onStore
                 (withLastTestResponse (Some (lit "Test failed: " ++ message e)))
                 (onStore
                    (withLastTestResponse
                       (Some (lit "OK " ++ EM_DASH ++ lit " response:" ++ LF ++ resp)))
                    w1)
           end))
  /\ (forall r net w e net1 w1,
        truthy (effectiveApiKey r) = true ->
        run (callGroq r
               (lit "Respond with 'groq-test-ok' to confirm connectivity and authentication.")
               (num "0") (num "40")) net
            (onStore
               (withLastTestResponse
                  (Some (lit "Running test prompt " ++ EM_DASH
                         ++ lit " waiting for response...")))
               w)
          = (Thrown e, net1, w1) ->
        run (runTestPrompt r) net w
        = (Returned tt, net1,
           onStore (withLastTestResponse (Some (lit "Test failed: " ++ message e))) w1)).
Proof.
  split; [| split].
  - intros r net w Hkey. unfold runTestPrompt. rewrite Hkey. reflexivity.
  - intros r net w resp net1 w1 H.
    destruct (callGroq_returned _ _ _ _ _ _ H) as [Hkey _].
    unfold runTestPrompt. rewrite Hkey. cbv beta iota delta [negb].
    run_more. rewrite H. run_more.
    case synthesis; [| intros e]; run_more; reflexivity.
  - intros r net w e net1 w1 Hkey H.
    unfold runTestPrompt. rewrite Hkey. cbv beta iota delta [negb].
    run_more. rewrite H. run_more. reflexivity.
Qed.

(** ** The draft of [app.jsx] *)

(** X9.  The draft's [startAgenticInterview], when both calls return:
    the same two requests as the final component sends, in the same order,
    and nothing else (no utterance); the transcript gains the
    announcement, the [PLAN:] message, the [FOLLOW-UPS:] message and then
    the fixed notice that the follow-ups will be asked one by one. *)
Theorem draft_start_interview_appends_notice
    r net w planText followupText net1 w1 net2 w2 :
  run (callGroq r (planPrompt r) (num "0.1") (num "400")) net
      (appended (lit "u") user (announcement r) (onStore (withIsThinking true) w))
    = (Returned planText, net1, w1) ->
  run (callGroq r (followupsPrompt planText) (num "0.1") (num "200")) net1
      (appended (lit "a") assistant (lit "PLAN:" ++ LF ++ planText) w1)
    = (Returned followupText, net2, w2) ->
  exists final,
    run (startAgenticInterview_draft r) net w = (Returned tt, net2, final)
    /\ trace final
       = trace w
         ++ [Fetched (groqRequest r (planPrompt r) (num "0.1") (num "400"));
             Fetched (groqRequest r (followupsPrompt planText) (num "0.1") (num "200"))]
    /\ gained w final
         [(user, announcement r);
          (assistant, lit "PLAN:" ++ LF ++ planText);
          (assistant, lit "FOLLOW-UPS:" ++ LF ++ followupText);
          (assistant, FOLLOWUPS_NOTICE)]
    /\ isThinking (store final) = false.
Proof.
  intros H1 H2.
  eexists. split.
  { unfold startAgenticInterview_draft. run_steps. rewrite H1. run_steps.
    rewrite H2. run_steps. reflexivity. }
  destruct (callGroq_returned _ _ _ _ _ _ H1) as [_ [_ Hw1]].
  destruct (callGroq_returned _ _ _ _ _ _ H2) as [_ [_ Hw2]].
  subst w2 w1.
  split; [world_simpl; rewrite <- !app_assoc; reflexivity |].
  split; [| apply isThinking_set].
  world_simpl.
  match goal with
  | |- exists ms, ((((_ ++ [?a]) ++ [?b]) ++ [?c]) ++ [?d]) = _ /\ _ =>
      gained_by [a; b; c; d]
  end.
Qed.

(** ** What [trim] leaves *)

Lemma trimStart_head s c q : trimStart s = c :: q -> isWhiteSpace c = false.
Proof.
  induction s as [| d s IH]; cbn [trimStart]; [discriminate |].
  destruct (isWhiteSpace d) eqn:Hd; [exact IH |].
  intros H. injection H as Hc Hq. subst. exact Hd.
Qed.

Lemma trimStart_keeps c q : isWhiteSpace c = false -> trimStart (c :: q) = c :: q.
Proof. intros H. cbn [trimStart]. rewrite H. reflexivity. Qed.

Lemma trimStart_app c l m :
  isWhiteSpace c = false -> trimStart (l ++ c :: m) = trimStart l ++ c :: m.
Proof.
  intros H. induction l as [| d l IH].
  - cbn [app trimStart]. rewrite H. reflexivity.
  - cbn [app trimStart]. destruct (isWhiteSpace d); [exact IH | reflexivity].
Qed.

Lemma trimEnd_cons c q : isWhiteSpace c = false -> trimEnd (c :: q) = c :: trimEnd q.
Proof.
  intros H. unfold trimEnd. cbn [rev].
  rewrite (@trimStart_app c (rev q) [] H), rev_app_distr. reflexivity.
Qed.

Lemma trimStart_idem s : trimStart (trimStart s) = trimStart s.
Proof.
  destruct (trimStart s) as [| c q] eqn:E; [reflexivity |].
  apply trimStart_keeps. exact (@trimStart_head s c q E).
Qed.

Lemma trimEnd_idem s : trimEnd (trimEnd s) = trimEnd s.
Proof. unfold trimEnd. rewrite rev_involutive, trimStart_idem. reflexivity. Qed.

Lemma trim_shape s :
  trim s = []
  \/ exists c q,
       trim s = c :: q
       /\ isWhiteSpace c = false
       /\ isWhiteSpace (last (trim s) c) = false.
Proof.
  unfold trim. destruct (trimStart s) as [| c q] eqn:E; [left; reflexivity |].
  right. pose proof (@trimStart_head s c q E) as Hc.
  rewrite (@trimEnd_cons c q Hc).
  exists c, (trimEnd q). split; [reflexivity |]. split; [exact Hc |].
  unfold trimEnd. destruct (trimStart (rev q)) as [| d u] eqn:Eq.
  - exact Hc.
  - cbn [rev]. change (c :: rev u ++ [d]) with ((c :: rev u) ++ [d]).
    rewrite last_last. exact (@trimStart_head (rev q) d u Eq).
Qed.

Lemma trim_idem s : trim (trim s) = trim s.
Proof.
  destruct (trim_shape s) as [Hs | [c [q [Hs [Hc _]]]]].
  - rewrite Hs. reflexivity.
  - unfold trim at 1. rewrite Hs, (@trimStart_keeps c q Hc), <- Hs.
    unfold trim. apply trimEnd_idem.
Qed.

Lemma run_appendOnly (A : Type) (p : Prog A) :
  AppendOnly p ->
  forall net w,
  exists suffix,
    messages (store (snd (run p net w))) = messages (store w) ++ suffix.
Proof.
  induction 1 as [a | e | X e k He Hk IH | req k Hk IH]; intros net w; simpl.
  - exists []. symmetry. apply app_nil_r.
  - exists []. symmetry. apply app_nil_r.
  - destruct (triggerextends e w He) as [s1 [Hs1 _]].
    destruct (perform e w) as [x w1]. simpl in Hs1.
    destruct (IH x net w1) as [s2 Hs2].
    exists (s1 ++ s2). rewrite Hs2, Hs1, app_assoc. reflexivity.
  - destruct net as [| o rest].
    + exists []. symmetry. apply app_nil_r.
    + destruct (IH o rest (emit (Fetched req) w)) as [s Hs].
      exists s. exact Hs.
Qed.

(** X10.  Whatever the network does afterwards (answer, error or
    nothing), a submitted answer that is not blank goes into the
    transcript at once as a user message whose text is the trimmed input:
    it is not empty, it neither starts nor ends with a white-space or
    line-terminator character, and trimming it again changes nothing. *)
Theorem submitted_answer_is_trimmed r net w :
  truthy (trim (userInput r)) = true ->
  let answer := trim (userInput r) in
  (exists i rest,
      messages (store (snd (run (handleUserSubmit r) net w)))
      = messages (store w) ++ mkMessage i user answer :: rest)
  /\ trim answer = answer
  /\ exists c q,
       answer = c :: q
       /\ isWhiteSpace c = false
       /\ isWhiteSpace (last answer c) = false.
Proof.
  intros Hne. cbv zeta. split; [| split].
  - unfold handleUserSubmit. rewrite Hne. cbv beta iota zeta delta [negb].
    rewrite run_bind, run_setUserInput. cbv beta iota.
    rewrite run_bind, run_appendNew. cbv beta iota.
    rewrite run_bind, run_setIsThinking. cbv beta iota.
    match goal with
    | |- context [run ?p net ?w3] =>
        assert (Hp : AppendOnly p) by auto 20 with ao;
        destruct (run_appendOnly Hp net w3) as [suffix Hs]
    end.
    rewrite Hs. autorewrite with world.
    eexists. exists suffix. rewrite <- app_assoc. reflexivity.
  - apply trim_idem.
  - destruct (trim_shape (userInput r)) as [Hs | Hs].
    + rewrite Hs in Hne. discriminate.
    + exact Hs.
Qed.

(** ** What the programs use *)

Lemma Uses_bind (A B : Type) allowed sendable (p : Prog A) (f : A -> Prog B) :
  Uses allowed sendable p ->
  (forall a, Uses allowed sendable (f a)) ->
  Uses allowed sendable (bind p f).
Proof. intros Hp Hf. induction Hp; simpl; try constructor; auto. Qed.

Lemma Uses_tryCatch (A : Type) allowed sendable (p : Prog A) h :
  Uses allowed sendable p ->
  (forall e, Uses allowed sendable (h e)) ->
  Uses allowed sendable (tryCatch p h).
Proof. intros Hp Hh. induction Hp; simpl; try constructor; auto. Qed.

Lemma Uses_tryFinally (A : Type) allowed sendable (p : Prog A) fin :
  Uses allowed sendable p ->
  Uses allowed sendable fin ->
  Uses allowed sendable (tryFinally p fin).
Proof.
  intros Hp Hfin. induction Hp; simpl.
  - apply Uses_bind; [assumption | intros; constructor].
  - apply Uses_bind; [assumption | intros; constructor].
  - constructor; auto.
  - constructor; auto.
Qed.

Lemma Uses_trigger (X : Type) (allowed : forall X, Eff X -> Prop) sendable
    (e : Eff X) :
  allowed X e -> Uses allowed sendable (trigger e).
Proof. intros He. constructor; [exact He | intros; constructor]. Qed.

Lemma Uses_liftResult (A : Type) allowed sendable (x : JsResult A) :
  Uses allowed sendable (liftResult x).
Proof. destruct x; constructor. Qed.

Lemma groqRequest_credentialed r prompt t m :
  truthy (effectiveApiKey r) = true -> credentialed (groqRequest r prompt t m).
Proof.
  intros Hkey. split; [reflexivity |]. split; [reflexivity |].
  exists (effectiveApiKey r). split; [exact Hkey |].
  right. left. reflexivity.
Qed.

Lemma Uses_callGroq allowed r prompt t m :
  Uses allowed credentialed (callGroq r prompt t m).
Proof.
  unfold callGroq. destruct (truthy (effectiveApiKey r)) eqn:Hkey; simpl;
    [| constructor].
  constructor; [apply groqRequest_credentialed; exact Hkey |].
  intros [e | res]; simpl; [constructor |].
  destruct (negb (ok res)).
  - apply Uses_bind; [apply Uses_liftResult | intros; constructor].
  - apply Uses_bind; intros; apply Uses_liftResult.
Qed.

Lemma Uses_appendNew (allowed : forall X, Eff X -> Prop) sendable prefix r t :
  allowed jsstring RandomSuffix ->
  (forall f, allowed unit (SetMessages f)) ->
  Uses allowed sendable (appendNew prefix r t).
Proof.
  intros Hr Hm. unfold appendNew, uid, append, setMessages, trigger. simpl.
  constructor; [exact Hr |]. intros d.
  constructor; [apply Hm | intros; constructor].
Qed.

Create HintDb us discriminated.
#[local] Hint Resolve Uses_bind Uses_tryCatch Uses_tryFinally Uses_liftResult
  Uses_callGroq : us.
#[local] Hint Extern 1 (Uses _ _ (appendNew _ _ _)) =>
  apply Uses_appendNew; [exact I | intros; exact I] : us.
#[local] Hint Extern 1 (Uses _ _ (setIsThinking _)) => apply Uses_trigger; exact I : us.
#[local] Hint Extern 1 (Uses _ _ (setUserInput _)) => apply Uses_trigger; exact I : us.
#[local] Hint Extern 1 (Uses _ _ (setDiagnostics _)) =>
  apply Uses_trigger; first [exact I | reflexivity] : us.
#[local] Hint Extern 1 (Uses _ _ (setLastTestResponse _)) =>
  apply Uses_trigger; first [exact I | reflexivity] : us.
#[local] Hint Extern 1 (Uses _ _ (setMessages _)) =>
  apply Uses_trigger; first [exact I | reflexivity] : us.
#[local] Hint Extern 1 (Uses _ _ (speakText _ _)) =>
  unfold speakText; case synthesis;
  [apply Uses_trigger; first [exact I | reflexivity] | intros; constructor] : us.
#[local] Hint Extern 1 (Uses _ _ (Ret _)) => constructor : us.

Lemma runTestPrompt_quiet r : Uses quietEff credentialed (runTestPrompt r).
Proof.
  unfold runTestPrompt.
  destruct (negb (truthy (effectiveApiKey r))); auto 20 with us.
Qed.

Lemma runDiagnostics_quiet r : Uses quietEff credentialed (runDiagnostics r).
Proof. unfold runDiagnostics. auto with us. Qed.

Lemma perform_quiet (X : Type) (e : Eff X) w :
  quietEff e ->
  messages (store (snd (perform e w))) = messages (store w)
  /\ isThinking (store (snd (perform e w))) = isThinking (store w)
  /\ userInput (store (snd (perform e w))) = userInput (store w).
Proof. destruct e; simpl; intros He; try contradiction; repeat split. Qed.

Lemma run_quiet (A : Type) sendable (p : Prog A) :
  Uses quietEff sendable p ->
  forall net w,
    messages (store (snd (run p net w))) = messages (store w)
    /\ isThinking (store (snd (run p net w))) = isThinking (store w)
    /\ userInput (store (snd (run p net w))) = userInput (store w).
Proof.
  induction 1 as [a | e | X e k He Hk IH | req k Hreq Hk IH]; intros net w; simpl.
  - repeat split.
  - repeat split.
  - destruct (perform_quiet e w He) as [Hm [Ht Hu]].
    destruct (perform e w) as [x w1]. simpl in Hm, Ht, Hu.
    destruct (IH x net w1) as [Hm' [Ht' Hu']].
    rewrite Hm', Ht', Hu', Hm, Ht, Hu. repeat split.
  - destruct net as [| o rest]; [repeat split |].
    apply (IH o rest (emit (Fetched req) w)).
Qed.

(** X11.  Run Diagnostics and Run Test Prompt leave the interview
    alone: against any network and however the test call ends (answer,
    error, nothing), the transcript, the thinking flag and the input field
    are as before.  Run Diagnostics moreover sends nothing, reads nothing
    from the network and ends at once with a report in the diagnostics
    cell. *)
Theorem diagnostics_and_test_leave_the_interview_alone r net w :
  (messages (store (snd (run (runTestPrompt r) net w))) = messages (store w)
   /\ isThinking (store (snd (run (runTestPrompt r) net w))) = isThinking (store w)
   /\ userInput (store (snd (run (runTestPrompt r) net w))) = userInput (store w))
  /\ (messages (store (snd (run (runDiagnostics r) net w))) = messages (store w)
      /\ isThinking (store (snd (run (runDiagnostics r) net w))) = isThinking (store w)
      /\ userInput (store (snd (run (runDiagnostics r) net w))) = userInput (store w))
  /\ exists report,
       run (runDiagnostics r) net w
       = (Returned tt, net, onStore (withDiagnostics (Some report)) w).
Proof.
  split; [| split].
  - apply (run_quiet (runTestPrompt_quiet r)).
  - apply (run_quiet (runDiagnostics_quiet r)).
  - eexists. unfold runDiagnostics. rewrite run_setDiagnostics. reflexivity.
Qed.

(** ** Every request carries a credential *)

Lemma perform_no_request (X : Type) (e : Eff X) w req :
  In (Fetched req) (trace (snd (perform e w))) -> In (Fetched req) (trace w).
Proof.
  destruct e; simpl; try (intros H; exact H).
  intros H. apply in_app_or in H. destruct H as [H | [H | []]];
    [exact H | discriminate H].
Qed.

Lemma advance_credentialed (p : Prog unit) :
  Uses anyEff credentialed p ->
  forall w,
    requestsCredentialed (trace w) ->
    requestsCredentialed (trace (fst (advance p w)))
    /\ (forall t, snd (advance p w) = Some t ->
        forall o, Uses anyEff credentialed (resume t o)).
Proof.
  induction 1 as [a | e | X e k He Hk IH | req k Hreq Hk IH]; intros w Hw; simpl.
  - split; [exact Hw | discriminate].
  - split; [exact Hw | discriminate].
  - assert (Hw1 : requestsCredentialed (trace (snd (perform e w)))).
    { intros req Hin. apply Hw. eapply perform_no_request. exact Hin. }
    destruct (perform e w) as [x w1]. apply IH. exact Hw1.
  - split.
    + intros req' Hin. cbn [trace emit] in Hin.
      apply in_app_or in Hin. destruct Hin as [Hin | [Hin | []]].
      * apply Hw. exact Hin.
      * injection Hin as Hin. subst req'. exact Hreq.
    + intros t Ht. injection Ht as Ht. subst t. exact Hk.
Qed.

Lemma dispatch_credentialed p w m l :
  Uses anyEff credentialed p ->
  sendsCredentialed (mkSys w m l) ->
  sendsCredentialed (dispatch p (mkSys w m l)).
Proof.
  intros Hp [Hl Hw]. cbn [inflight world] in Hl, Hw.
  destruct (advance_credentialed Hp w Hw) as [Htrace Htask].
  unfold dispatch, sendsCredentialed. cbn [world mount inflight].
  destruct (advance p w) as [w' [t |]]; cbn [fst snd world inflight] in *.
  - split; [| exact Htrace].
    apply Forall_app. split; [exact Hl |].
    constructor; [apply Htask; reflexivity | constructor].
  - split; [exact Hl | exact Htrace].
Qed.

Lemma listening_credentialed s :
  sendsCredentialed s ->
  sendsCredentialed (mkSys (emit Listening (world s)) (mount s) (inflight s)).
Proof.
  intros [Hl Hw]. split; [exact Hl |].
  intros req Hin. cbn [world trace emit] in Hin.
  apply in_app_or in Hin. destruct Hin as [Hin | [Hin | []]];
    [apply Hw; exact Hin | discriminate Hin].
Qed.

Lemma step_credentialed s ev : sendsCredentialed s -> sendsCredentialed (step s ev).
Proof.
  intros Hs.
  assert (Heta : sendsCredentialed (mkSys (world s) (mount s) (inflight s)))
    by exact Hs.
  destruct ev as [v | v | v | | | | | | | | t | onEnd | i o];
    unfold step; cbv beta iota zeta.
  - exact Hs.
  - exact Hs.
  - exact Hs.
  - destruct (negb (truthy (trim (candidateProfile (store (world s)))))
              || isThinking (store (world s))); [exact Hs |].
    apply (dispatch_credentialed (p := startAgenticInterview (store (world s))));
      [unfold startAgenticInterview; auto 20 with us | exact Heta].
  - destruct (isThinking (store (world s))); [exact Hs |].
    apply (dispatch_credentialed (p := handleAskNext (store (world s))));
      [unfold handleAskNext; auto 20 with us | exact Heta].
  - rewrite dispatch_clear. exact Hs.
  - apply listening_credentialed. exact Hs.
  - apply (dispatch_credentialed (p := handleUserSubmit (store (world s))));
      [| exact Heta].
    unfold handleUserSubmit.
    destruct (negb (truthy (trim (userInput (store (world s)))))); auto 20 with us.
  - apply (dispatch_credentialed (p := runDiagnostics (store (world s))));
      [unfold runDiagnostics; auto with us | exact Heta].
  - apply (dispatch_credentialed (p := runTestPrompt (store (world s))));
      [| exact Heta].
    unfold runTestPrompt.
    destruct (negb (truthy (effectiveApiKey (store (world s))))); auto 20 with us.
  - apply (dispatch_credentialed (p := handleVoiceInput (mount s) t));
      [| exact Heta].
    unfold handleVoiceInput, handleUserSubmit.
    destruct (negb (truthy (trim (userInput (mount s))))); auto 20 with us.
  - destruct onEnd as [[] |]; [apply listening_credentialed |]; exact Hs.
  - destruct (nth_error (inflight s) i) as [t |] eqn:Ht; [| exact Hs].
    destruct Hs as [Hl Hw].
    apply dispatch_credentialed.
    + rewrite Forall_forall in Hl. apply Hl. eapply nth_error_In. exact Ht.
    + split; [apply without_Forall; exact Hl | exact Hw].
Qed.

Lemma exec_credentialed rnd evs : sendsCredentialed (exec rnd evs).
Proof.
  induction evs as [| ev evs IH] using rev_ind.
  - split; [constructor | intros req []].
  - rewrite exec_snoc. apply step_credentialed. exact IH.
Qed.

(** X12.  Whatever the user does and however the fetches settle, every
    request the component has sent is a POST to the configured endpoint
    whose Authorization header is [Bearer ] followed by a credential that
    is not empty: no request ever leaves without a key. *)
Theorem every_request_carries_a_credential rnd evs req :
  In (Fetched req) (trace (world (exec rnd evs))) ->
  url req = GROQ_API_URL
  /\ method req = lit "POST"
  /\ exists key,
       truthy key = true
       /\ In (lit "Authorization", lit "Bearer " ++ key) (headers req).
Proof.
  intros Hin. destruct (exec_credentialed rnd evs) as [_ Hw].
  exact (Hw req Hin).
Qed.

(** ** The thinking flag *)

Lemma Idles_tryFinally (p : Prog unit) :
  forall b, Idles b (tryFinally p (setIsThinking false)).
Proof.
  induction p as [a | e | X e k IH | req k IH]; intros b; simpl.
  - apply idles_do. intros x. simpl. constructor.
  - apply idles_do. intros x. simpl. constructor.
  - apply idles_do. intros x. apply IH.
  - apply idles_await. intros o. apply IH.
Qed.

Lemma Idles_appendNew prefix r t (f : unit -> Prog unit) b :
  Idles b (f tt) -> Idles b (bind (appendNew prefix r t) f).
Proof.
  intros H. unfold appendNew, uid, append, setMessages, trigger. simpl.
  apply idles_do. intros d. simpl.
  apply idles_do. intros []. simpl. exact H.
Qed.

Lemma Idles_bind_quiet (X : Type) (e : Eff X) (f : X -> Prog unit) b :
  setsThinking e = None ->
  (forall x, Idles b (f x)) -> Idles b (bind (trigger e) f).
Proof.
  intros He H. cbn [bind trigger]. apply idles_do. intros x.
  rewrite He. cbn [bind]. apply H.
Qed.

Lemma Idles_bind_set v (f : unit -> Prog unit) b :
  Idles (negb v) (f tt) -> Idles b (bind (setIsThinking v) f).
Proof.
  intros H. unfold setIsThinking. cbn [bind trigger]. apply idles_do.
  intros []. cbn [bind setsThinking]. exact H.
Qed.

Lemma handleUserSubmit_thinking r :
  Idles false (handleUserSubmit r)
  \/ Uses leavesFlag anyRequest (handleUserSubmit r).
Proof.
  unfold handleUserSubmit.
  destruct (negb (truthy (trim (userInput r)))); [right; constructor | left].
  cbv zeta. unfold setUserInput.
  apply Idles_bind_quiet; [reflexivity |]. intros _.
  apply Idles_appendNew.
  apply Idles_bind_set.
  apply Idles_tryFinally.
Qed.

Lemma handleVoiceInput_thinking r t :
  Idles false (handleVoiceInput r t)
  \/ Uses leavesFlag anyRequest (handleVoiceInput r t).
Proof.
  unfold handleVoiceInput.
  destruct (handleUserSubmit_thinking r) as [Hi | Hu]; [left | right].
  - unfold setUserInput.
    apply Idles_bind_quiet; [reflexivity |]. intros _.
    apply Idles_appendNew. exact Hi.
  - apply Uses_bind; [apply Uses_trigger; reflexivity |]. intros _.
    apply Uses_bind; [| intros _; exact Hu].
    apply Uses_appendNew; [reflexivity | intros; reflexivity].
Qed.

Lemma Uses_weaken (A : Type) allowed sendable (p : Prog A) :
  Uses allowed sendable p -> Uses allowed anyRequest p.
Proof. induction 1; constructor; auto; exact I. Qed.

Lemma runTestPrompt_leavesFlag r : Uses leavesFlag anyRequest (runTestPrompt r).
Proof.
  apply (Uses_weaken (sendable := credentialed)).
  unfold runTestPrompt.
  destruct (negb (truthy (effectiveApiKey r))); auto 20 with us.
Qed.

Lemma runDiagnostics_leavesFlag r : Uses leavesFlag anyRequest (runDiagnostics r).
Proof. unfold runDiagnostics. auto with us. Qed.

Lemma perform_thinking (X : Type) (e : Eff X) w :
  isThinking (store (snd (perform e w)))
  = match setsThinking e with
    | Some v => v
    | None => isThinking (store w)
    end.
Proof. destruct e; reflexivity. Qed.

Lemma advance_Idles b (p : Prog unit) :
  Idles b p ->
  forall w,
    (b = true -> isThinking (store w) = false) ->
    match advance p w with
    | (w', None) => isThinking (store w') = false
    | (_, Some t) => settlesThinking t
    end.
Proof.
  induction 1 as [u | e | b X e k Hk IH | b req k Hk]; intros w Hb; simpl.
  - apply Hb. reflexivity.
  - apply Hb. reflexivity.
  - pose proof (perform_thinking e w) as Hflag.
    destruct (perform e w) as [x w1]. cbn [snd] in Hflag.
    apply IH. rewrite Hflag.
    destruct (setsThinking e) as [v |].
    + destruct v; [discriminate | reflexivity].
    + exact Hb.
  - exact Hk.
Qed.

Lemma advance_leavesFlag (p : Prog unit) :
  Uses leavesFlag anyRequest p ->
  forall w,
    isThinking (store (fst (advance p w))) = isThinking (store w)
    /\ (forall t, snd (advance p w) = Some t -> ignoresThinking t).
Proof.
  induction 1 as [a | e | X e k He Hk IH | req k Hreq Hk IH]; intros w; simpl.
  - split; [reflexivity | discriminate].
  - split; [reflexivity | discriminate].
  - pose proof (perform_thinking e w) as Hflag.
    unfold leavesFlag in He. rewrite He in Hflag.
    destruct (perform e w) as [x w1]. cbn [snd] in Hflag.
    rewrite <- Hflag. apply IH.
  - split; [reflexivity |].
    intros t Ht. injection Ht as Ht. subst t. exact Hk.
Qed.

Lemma dispatch_thinking p w m l :
  Idles false p \/ Uses leavesFlag anyRequest p ->
  Forall (fun t => settlesThinking t \/ ignoresThinking t) l ->
  (Idles false p
   \/ (isThinking (store w) = true -> exists t, In t l /\ settlesThinking t)) ->
  thinkingAccounted (dispatch p (mkSys w m l)).
Proof.
  intros Hkind Hl Hflag.
  assert (Hcase :
            Idles false p
            \/ (Uses leavesFlag anyRequest p
                /\ (isThinking (store w) = true ->
                    exists t, In t l /\ settlesThinking t))).
  { destruct Hflag as [Hi | Hw]; [left; exact Hi |].
    destruct Hkind as [Hi | Hu]; [left; exact Hi | right; split; assumption]. }
  unfold dispatch, thinkingAccounted. cbn [world mount inflight].
  destruct Hcase as [Hi | [Hu Hw]].
  - pose proof (advance_Idles Hi w) as Hend.
    destruct (advance p w) as [w' [t |]]; cbn [world inflight].
    + assert (Ht : settlesThinking t) by (apply Hend; discriminate).
      split.
      * apply Forall_app. split; [exact Hl |].
        constructor; [left; exact Ht | constructor].
      * intros _. exists t. split; [| exact Ht].
        apply in_or_app. right. left. reflexivity.
    + split; [exact Hl |].
      intros Hon. rewrite Hend in Hon; [discriminate | discriminate].
  - destruct (advance_leavesFlag Hu w) as [Hsame Htask].
    destruct (advance p w) as [w' [t |]]; cbn [fst snd world inflight] in *.
    + split.
      * apply Forall_app. split; [exact Hl |].
        constructor; [right; apply Htask; reflexivity | constructor].
      * intros Hon. rewrite Hsame in Hon.
        destruct (Hw Hon) as [t' [Hin Ht']].
        exists t'. split; [apply in_or_app; left; exact Hin | exact Ht'].
    + split; [exact Hl |].
      intros Hon. rewrite Hsame in Hon. exact (Hw Hon).
Qed.

Lemma In_without (T : Type) (l : list T) :
  forall i t x,
    nth_error l i = Some t -> In x l -> x = t \/ In x (without i l).
Proof.
  induction l as [| a l IH]; intros [| i] t x Hnth Hin;
    try discriminate Hnth; cbn [nth_error] in Hnth.
  - injection Hnth as Hnth. subst a. destruct Hin as [Hin | Hin].
    + left. symmetry. exact Hin.
    + right. exact Hin.
  - destruct Hin as [Hin | Hin].
    + right. left. exact Hin.
    + destruct (IH i t x Hnth Hin) as [Heq | Hrest].
      * left. exact Heq.
      * right. right. exact Hrest.
Qed.

Lemma step_thinking s ev : thinkingAccounted s -> thinkingAccounted (step s ev).
Proof.
  intros Hs. pose proof Hs as [Hl Hw].
  destruct ev as [v | v | v | | | | | | | | t | onEnd | i o];
    unfold step; cbv beta iota zeta.
  - exact Hs.
  - exact Hs.
  - exact Hs.
  - destruct (negb (truthy (trim (candidateProfile (store (world s)))))
              || isThinking (store (world s))); [exact Hs |].
    apply (@dispatch_thinking (startAgenticInterview (store (world s))) (world s) (mount s) (inflight s));
      [left; apply Idles_tryFinally | exact Hl | left; apply Idles_tryFinally].
  - destruct (isThinking (store (world s))); [exact Hs |].
    apply (@dispatch_thinking (handleAskNext (store (world s))) (world s) (mount s) (inflight s));
      [left; apply Idles_tryFinally | exact Hl | left; apply Idles_tryFinally].
  - rewrite dispatch_clear. exact Hs.
  - exact Hs.
  - apply (@dispatch_thinking (handleUserSubmit (store (world s))) (world s) (mount s) (inflight s));
      [apply handleUserSubmit_thinking | exact Hl | right; exact Hw].
  - apply (@dispatch_thinking (runDiagnostics (store (world s))) (world s) (mount s) (inflight s));
      [right; apply runDiagnostics_leavesFlag | exact Hl | right; exact Hw].
  - apply (@dispatch_thinking (runTestPrompt (store (world s))) (world s) (mount s) (inflight s));
      [right; apply runTestPrompt_leavesFlag | exact Hl | right; exact Hw].
  - apply (@dispatch_thinking (handleVoiceInput (mount s) t) (world s) (mount s) (inflight s));
      [apply handleVoiceInput_thinking | exact Hl | right; exact Hw].
  - destruct onEnd as [[] |]; exact Hs.
  - destruct (nth_error (inflight s) i) as [t |] eqn:Ht; [| exact Hs].
    assert (Hkind : settlesThinking t \/ ignoresThinking t).
    { rewrite Forall_forall in Hl. apply Hl. eapply nth_error_In. exact Ht. }
    apply dispatch_thinking.
    + destruct Hkind as [Hk | Hk]; [left | right]; apply Hk.
    + apply without_Forall. exact Hl.
    + destruct (isThinking (store (world s))) eqn:Hon;
        [| right; discriminate].
      destruct (Hw eq_refl) as [t' [Hin Ht']].
      destruct (@In_without Task (inflight s) i t t' Ht Hin) as [Heq | Hrest].
      * left. subst t'. apply Ht'.
      * right. intros _. exists t'. split; assumption.
Qed.

Lemma exec_thinking rnd evs : thinkingAccounted (exec rnd evs).
Proof.
  induction evs as [| ev evs IH] using rev_ind.
  - split; [constructor | discriminate].
  - rewrite exec_snoc. apply step_thinking. exact IH.
Qed.

(** X13.  In every reachable state, the thinking flag is on only while
    a request is outstanding: if the status shows thinking, some handler
    is suspended at a fetch, and that handler switches the flag off when
    it ends, whatever the outcome.  The component cannot be left showing
    thinking with nothing in flight. *)
Theorem thinking_only_while_in_flight rnd evs :
  isThinking (store (world (exec rnd evs))) = true ->
  inflight (exec rnd evs) <> []
  /\ exists t,
       In t (inflight (exec rnd evs))
       /\ forall o, Idles false (resume t o).
Proof.
  intros Hon. destruct (exec_thinking rnd evs) as [_ Hw].
  destruct (Hw Hon) as [t [Hin Ht]].
  split; [| exists t; split; [exact Hin | exact Ht]].
  intros Hnil. rewrite Hnil in Hin. exact Hin.
Qed.

(** ** Operations interleaved with other events *)

Lemma nth_error_last (T : Type) (l : list T) t :
  nth_error (l ++ [t]) (List.length l) = Some t.
Proof. induction l as [| a l IH]; [reflexivity | exact IH]. Qed.

Lemma without_last (T : Type) (l : list T) t :
  without (List.length l) (l ++ [t]) = l.
Proof.
  unfold without. induction l as [| a l IH]; [reflexivity |].
  cbn [List.length app firstn skipn]. cbn [skipn] in IH. rewrite IH. reflexivity.
Qed.

Lemma handleAskNext_in_loop r w :
  truthy (effectiveApiKey r) = true ->
  exists K,
    advance (handleAskNext r) w
    = (emit (Fetched (groqRequest r (askPrompt r) (num "0.2") (num "400")))
         (onStore (withIsThinking true) w),
       Some (mkTask (groqRequest r (askPrompt r) (num "0.2") (num "400")) K))
    /\ forall res data resp w',
         ok res = true ->
         resJson res = Ok data ->
         completionText data = Ok resp ->
         advance (K (Resolved res)) w'
         = (onStore (withIsThinking false)
              (afterSpeaking resp (Some StartRecognition)
                 (appended (lit "a") assistant resp w')),
            None).
Proof.
  intros Hkey. unfold handleAskNext, callGroq. rewrite Hkey.
  eexists. split; [reflexivity |].
  intros res data resp w' Hok Hjson Htext.
  cbn [bind tryCatch tryFinally negb]. rewrite Hok.
  cbn [bind tryCatch tryFinally negb liftResult]. rewrite Hjson.
  cbn [bind tryCatch tryFinally negb liftResult]. rewrite Htext.
  unfold speakText, afterSpeaking. case synthesis; [| intros e]; reflexivity.
Qed.

(** X14.  Clear Conversation does not cancel a call in flight.  From an
    idle state with a credential: ask-next, then Clear while the call is
    outstanding, then the answer [resp] arrives.  The answer is appended
    to the emptied transcript; the thinking flag goes off and the handler
    is no longer in flight.  Where the host has speech synthesis the
    transcript then consists of that one assistant message, which is
    spoken; where [speakText] throws [e], nothing is spoken and the error
    message of [e] is the second and last message. *)
Theorem reply_after_clear_lands_in_empty_transcript s res data resp :
  isThinking (store (world s)) = false ->
  truthy (effectiveApiKey (store (world s))) = true ->
  ok res = true ->
  resJson res = Ok data ->
  completionText data = Ok resp ->
  let r := store (world s) in
  let s' := step (step (step s ClickAskNext) ClickClear)
              (FetchSettled (List.length (inflight s)) (Resolved res)) in
  match synthesis with
  | SynthesisAvailable =>
      (exists i, transcript s' = [mkMessage i assistant resp])
      /\ trace (world s')
         = trace (world s)
           ++ [Fetched (groqRequest r (askPrompt r) (num "0.2") (num "400"));
               Spoke resp (Some StartRecognition)]
  | SynthesisThrows e =>
      (exists i j,
          transcript s'
          = [mkMessage i assistant resp; mkMessage j assistant (errorText e)])
      /\ trace (world s')
         = trace (world s)
           ++ [Fetched (groqRequest r (askPrompt r) (num "0.2") (num "400"))]
  end
  /\ inflight s' = inflight s
  /\ isThinking (store (world s')) = false.
Proof.
  intros Hidle Hkey Hok Hjson Htext. cbv zeta.
  destruct (handleAskNext_in_loop (store (world s)) (world s) Hkey)
    as [K [Hstart Hresume]].
  assert (H1 : step s ClickAskNext
               = mkSys
                   (emit (Fetched (groqRequest (store (world s))
                                     (askPrompt (store (world s)))
                                     (num "0.2") (num "400")))
                      (onStore (withIsThinking true) (world s)))
                   (mount s)
                   (inflight s
                    ++ [mkTask (groqRequest (store (world s))
                                  (askPrompt (store (world s)))
                                  (num "0.2") (num "400")) K])).
  { unfold step. rewrite Hidle. unfold dispatch. rewrite Hstart. reflexivity. }
  rewrite H1. clear H1.
  match goal with
  | |- context [step ?a ClickClear] =>
      replace (step a ClickClear)
        with (mkSys (onStore (withMessages (fun _ => [])) (world a))
                (mount a) (inflight a))
        by (unfold step; rewrite dispatch_clear; reflexivity)
  end.
  cbn [world mount inflight].
  unfold step. cbn [inflight world mount].
  rewrite nth_error_last, without_last.
  unfold dispatch. cbn [world mount inflight resume].
  rewrite (Hresume res data resp _ Hok Hjson Htext).
  cbn [world inflight]. unfold transcript. cbn [world].
  split; [| split; [reflexivity |]].
  - unfold afterSpeaking. case synthesis; [| intros e].
    + split; [eexists; reflexivity |].
      autorewrite with world. rewrite <- ?app_assoc. reflexivity.
    + split; [eexists; eexists; reflexivity |].
      autorewrite with world. rewrite <- ?app_assoc. reflexivity.
  - apply isThinking_set.
Qed.

Lemma startAgenticInterview_in_loop r w :
  truthy (effectiveApiKey r) = true ->
  exists K,
    advance (startAgenticInterview r) w
    = (emit (Fetched (groqRequest r (planPrompt r) (num "0.1") (num "400")))
         (appended (lit "u") user (announcement r)
            (onStore (withIsThinking true) w)),
       Some (mkTask (groqRequest r (planPrompt r) (num "0.1") (num "400")) K))
    /\ forall res data planText w',
         ok res = true ->
         resJson res = Ok data ->
         completionText data = Ok planText ->
         exists K',
           advance (K (Resolved res)) w'
           = (emit (Fetched (groqRequest r (followupsPrompt planText)
                               (num "0.1") (num "200")))
                (appended (lit "a") assistant (lit "PLAN:" ++ LF ++ planText) w'),
              Some (mkTask (groqRequest r (followupsPrompt planText)
                              (num "0.1") (num "200")) K')).
Proof.
  intros Hkey. unfold startAgenticInterview, callGroq. rewrite Hkey.
  eexists. split; [reflexivity |].
  intros res data planText w' Hok Hjson Htext.
  cbn [bind tryCatch tryFinally negb]. rewrite Hok.
  cbn [bind tryCatch tryFinally negb liftResult]. rewrite Hjson.
  cbn [bind tryCatch tryFinally negb liftResult]. rewrite Htext.
  eexists. reflexivity.
Qed.

(** X15.  An operation works with the render it was started from.
    From an idle state with a profile and a credential: Start Interview,
    then the Dev API Key field is changed to [key'] while the plan call is
    outstanding, then the plan arrives.  The follow-up request is built
    from the store as it was at the click: it carries the credential of
    that moment, not [key'], which the store holds by then. *)
Theorem follow_up_call_keeps_the_credential_of_the_click s key' res data planText :
  truthy (trim (candidateProfile (store (world s)))) = true ->
  isThinking (store (world s)) = false ->
  truthy (effectiveApiKey (store (world s))) = true ->
  ok res = true ->
  resJson res = Ok data ->
  completionText data = Ok planText ->
  let r := store (world s) in
  let s' := step (step (step s ClickStart) (ChangeDevKey key'))
              (FetchSettled (List.length (inflight s)) (Resolved res)) in
  devApiKey (store (world s')) = key'
  /\ trace (world s')
     = trace (world s)
       ++ [Fetched (groqRequest r (planPrompt r) (num "0.1") (num "400"));
           Fetched (groqRequest r (followupsPrompt planText) (num "0.1") (num "200"))]
  /\ exists K,
       inflight s'
       = inflight s
         ++ [mkTask (groqRequest r (followupsPrompt planText) (num "0.1") (num "200")) K].
Proof.
  intros Hprofile Hidle Hkey Hok Hjson Htext. cbv zeta.
  destruct (startAgenticInterview_in_loop (store (world s)) (world s) Hkey)
    as [K [Hstart Hresume]].
  assert (H1 : step s ClickStart
               = mkSys
                   (emit (Fetched (groqRequest (store (world s))
                                     (planPrompt (store (world s)))
                                     (num "0.1") (num "400")))
                      (appended (lit "u") user (announcement (store (world s)))
                         (onStore (withIsThinking true) (world s))))
                   (mount s)
                   (inflight s
                    ++ [mkTask (groqRequest (store (world s))
                                  (planPrompt (store (world s)))
                                  (num "0.1") (num "400")) K])).
  { unfold step. rewrite Hprofile, Hidle. cbn [negb orb].
    unfold dispatch. rewrite Hstart. reflexivity. }
  rewrite H1. clear H1.
  match goal with
  | |- context [step ?a (ChangeDevKey key')] =>
      replace (step a (ChangeDevKey key'))
        with (mkSys (onStore (withDevApiKey key') (world a)) (mount a) (inflight a))
        by reflexivity
  end.
  cbn [world mount inflight].
  unfold step. cbn [inflight world mount].
  rewrite nth_error_last, without_last.
  unfold dispatch. cbn [world mount inflight resume].
  destruct (Hresume res data planText
              (onStore (withDevApiKey key')
                 (emit (Fetched (groqRequest (store (world s))
                                   (planPrompt (store (world s)))
                                   (num "0.1") (num "400")))
                    (appended (lit "u") user (announcement (store (world s)))
                       (onStore (withIsThinking true) (world s)))))
              Hok Hjson Htext) as [K' HK'].
  rewrite HK'. cbn [world inflight].
  split; [reflexivity |].
  split; [| exists K'; reflexivity].
  autorewrite with world. rewrite <- !app_assoc. reflexivity.
Qed.

Lemma nth_error_middle (T : Type) (l : list T) t rest :
  nth_error (l ++ t :: rest) (List.length l) = Some t.
Proof. induction l as [| a l IH]; [reflexivity | exact IH]. Qed.

Lemma without_middle (T : Type) (l : list T) t rest :
  without (List.length l) (l ++ t :: rest) = l ++ rest.
Proof.
  unfold without. induction l as [| a l IH]; [reflexivity |].
  cbn [List.length app firstn skipn]. cbn [skipn] in IH. rewrite IH. reflexivity.
Qed.

Lemma handleUserSubmit_in_loop r w :
  truthy (effectiveApiKey r) = true ->
  truthy (trim (userInput r)) = true ->
  exists K,
    advance (handleUserSubmit r) w
    = (emit (Fetched (groqRequest r (evalPrompt r (trim (userInput r)))
                        (num "0") (num "250")))
         (onStore (withIsThinking true)
            (appended (lit "u") user (trim (userInput r))
               (onStore (withUserInput []) w))),
       Some (mkTask (groqRequest r (evalPrompt r (trim (userInput r)))
                       (num "0") (num "250")) K)).
Proof.
  intros Hkey Hinput. unfold handleUserSubmit, callGroq.
  rewrite Hkey, Hinput. eexists. reflexivity.
Qed.

(** X16.  Send is not held back by the thinking flag, and the flag is
    one cell for all operations.  From an idle state with a credential and
    an answer typed: ask-next, then Send while that call is outstanding,
    then the ask-next answer [resp] arrives.  The status is idle again
    although the evaluation request of the Send is still outstanding; the
    transcript has gained the answer and then [resp], followed, where
    [speakText] throws [e], by the error message of [e]. *)
Theorem status_idle_while_evaluation_outstanding s res data resp :
  isThinking (store (world s)) = false ->
  truthy (effectiveApiKey (store (world s))) = true ->
  truthy (trim (userInput (store (world s)))) = true ->
  ok res = true ->
  resJson res = Ok data ->
  completionText data = Ok resp ->
  let r := store (world s) in
  let s' := step (step (step s ClickAskNext) ClickSend)
              (FetchSettled (List.length (inflight s)) (Resolved res)) in
  isThinking (store (world s')) = false
  /\ (exists K,
        inflight s'
        = inflight s
          ++ [mkTask (groqRequest r (evalPrompt r (trim (userInput r)))
                        (num "0") (num "250")) K])
  /\ match synthesis with
     | SynthesisAvailable =>
         exists i j,
           transcript s'
           = transcript s
             ++ [mkMessage i user (trim (userInput r)); mkMessage j assistant resp]
     | SynthesisThrows e =>
         exists i j k,
           transcript s'
           = transcript s
             ++ [mkMessage i user (trim (userInput r));
                 mkMessage j assistant resp;
                 mkMessage k assistant (errorText e)]
     end.
Proof.
  intros Hidle Hkey Hinput Hok Hjson Htext. cbv zeta.
  destruct (handleAskNext_in_loop (store (world s)) (world s) Hkey)
    as [K [Hstart Hresume]].
  assert (H1 : step s ClickAskNext
               = mkSys
                   (emit (Fetched (groqRequest (store (world s))
                                     (askPrompt (store (world s)))
                                     (num "0.2") (num "400")))
                      (onStore (withIsThinking true) (world s)))
                   (mount s)
                   (inflight s
                    ++ [mkTask (groqRequest (store (world s))
                                  (askPrompt (store (world s)))
                                  (num "0.2") (num "400")) K])).
  { unfold step. rewrite Hidle. unfold dispatch. rewrite Hstart. reflexivity. }
  rewrite H1. clear H1 Hstart.
  match goal with
  | |- context [step ?a ClickSend] =>
      destruct (handleUserSubmit_in_loop (store (world a)) (world a) Hkey Hinput)
        as [KE HE];
      replace (step a ClickSend)
        with (mkSys
                (emit (Fetched (groqRequest (store (world s))
                                  (evalPrompt (store (world s))
                                     (trim (userInput (store (world s)))))
                                  (num "0") (num "250")))
                   (onStore (withIsThinking true)
                      (appended (lit "u") user
                         (trim (userInput (store (world s))))
                         (onStore (withUserInput []) (world a)))))
                (mount a)
                (inflight a
                 ++ [mkTask (groqRequest (store (world s))
                               (evalPrompt (store (world s))
                                  (trim (userInput (store (world s)))))
                               (num "0") (num "250")) KE]))
        by (unfold step, dispatch; rewrite HE; reflexivity)
  end.
  cbn [world mount inflight].
  unfold step. cbn [inflight world mount].
  rewrite <- app_assoc. cbn [app].
  rewrite nth_error_middle, without_middle.
  unfold dispatch. cbn [world mount inflight resume].
  rewrite (Hresume res data resp _ Hok Hjson Htext).
  cbn [world inflight]. unfold transcript. cbn [world].
  split; [apply isThinking_set |].
  split; [exists KE; reflexivity |].
  unfold afterSpeaking. case synthesis; [| intros e].
  - eexists. eexists.
    autorewrite with world. cbn [messages withMessages withIsThinking withUserInput].
    rewrite <- ?app_assoc. reflexivity.
  - eexists. eexists. eexists.
    autorewrite with world. cbn [messages withMessages withIsThinking withUserInput].
    rewrite <- ?app_assoc. reflexivity.
Qed.

End App.

(** ** The theorems at concrete inputs *)

(** C1 at a store with no Dev API Key and an environment with no static
    key. *)
Lemma callGroq_without_credential_witness :
  STATIC_API_KEY noEnv = []
  /\ devApiKey (sampleStore [] []) = []
  /\ callGroq noEnv (sampleStore [] []) (lit "hello") (num "0.2") (num "600")
     = Throw (Error MISSING_KEY)
  /\ forall net w,
       run (callGroq noEnv (sampleStore [] []) (lit "hello") (num "0.2") (num "600")) net w
       = (Thrown (Error MISSING_KEY), net, w).
Proof.
  split; [reflexivity |]. split; [reflexivity |].
  apply (@callGroq_without_credential noEnv (sampleStore [] []));
    reflexivity.
Defined.

(** C2 for the profile of the sample store, a plan answered through
    [choices[0].text] and follow-ups answered through [output]: in a host
    with speech synthesis, and in one without. *)
Lemma start_interview_two_calls_in_order_witness :
  let r := sampleStore (lit "k") [] in
  (exists final,
      run (startAgenticInterview noEnv SynthesisAvailable r)
        [Resolved (okResponse (choiceTextBody (lit "the plan")));
         Resolved (okResponse (outputBody (lit "1. Why?")))]
        (sampleWorld (lit "k") [])
      = (Returned tt, [], final)
      /\ map (fun m => (role m, text m)) (messages (store final))
         = [(system, SYSTEM_TEXT);
            (user, announcement r);
            (assistant, lit "PLAN:" ++ LF ++ lit "the plan");
            (assistant, lit "FOLLOW-UPS:" ++ LF ++ lit "1. Why?")]
      /\ trace final
         = [Fetched (groqRequest noEnv r (planPrompt r) (num "0.1") (num "400"));
            Fetched (groqRequest noEnv r (followupsPrompt (lit "the plan"))
                       (num "0.1") (num "200"));
            Spoke (lit "Let's begin the interview. " ++ lit "1. Why?")
              (Some StartRecognition)])
  /\ (exists final,
        run (startAgenticInterview noEnv noSynthesis r)
          [Resolved (okResponse (choiceTextBody (lit "the plan")));
           Resolved (okResponse (outputBody (lit "1. Why?")))]
          (sampleWorld (lit "k") [])
        = (Returned tt, [], final)
        /\ map (fun m => (role m, text m)) (messages (store final))
           = [(system, SYSTEM_TEXT);
              (user, announcement r);
              (assistant, lit "PLAN:" ++ LF ++ lit "the plan");
              (assistant, lit "FOLLOW-UPS:" ++ LF ++ lit "1. Why?");
              (assistant, lit "Error: SpeechSynthesisUtterance is not defined")]
        /\ trace final
           = [Fetched (groqRequest noEnv r (planPrompt r) (num "0.1") (num "400"));
              Fetched (groqRequest noEnv r (followupsPrompt (lit "the plan"))
                         (num "0.1") (num "200"))]).
Proof.
  cbv zeta. split.
  - destruct (@start_interview_two_calls_in_order noEnv SynthesisAvailable
                (sampleStore (lit "k") [])
                [Resolved (okResponse (choiceTextBody (lit "the plan")));
                 Resolved (okResponse (outputBody (lit "1. Why?")))]
                (sampleWorld (lit "k") [])
                (lit "the plan") (lit "1. Why?") _ _ _ _ eq_refl eq_refl)
      as [final [Hrun [_ [[Htrace [ms [Hms Hadded]]] _]]]].
    exists final. split; [exact Hrun |]. split; [| exact Htrace].
    rewrite Hms, map_app, Hadded. reflexivity.
  - destruct (@start_interview_two_calls_in_order noEnv noSynthesis
                (sampleStore (lit "k") [])
                [Resolved (okResponse (choiceTextBody (lit "the plan")));
                 Resolved (okResponse (outputBody (lit "1. Why?")))]
                (sampleWorld (lit "k") [])
                (lit "the plan") (lit "1. Why?") _ _ _ _ eq_refl eq_refl)
      as [final [Hrun [_ [[Htrace [ms [Hms Hadded]]] _]]]].
    exists final. split; [exact Hrun |]. split; [| exact Htrace].
    rewrite Hms, map_app, Hadded. reflexivity.
Defined.

(** C3 at four failures: the plan call with no credential at all; the
    follow-up call answered with status 500 after the plan call
    succeeded; ask-next on a rejected fetch; a submitted answer answered
    with status 500. *)
Lemma failed_call_is_reported_witness :
  (let r := sampleStore [] [] in
   exists final,
     run (startAgenticInterview noEnv SynthesisAvailable r) [] (sampleWorld [] []) = (Returned tt, [], final)
     /\ gained (sampleWorld [] []) final
          [(user, announcement r); (assistant, lit "Error: " ++ MISSING_KEY)]
     /\ isThinking (store final) = false)
  /\ (let r := sampleStore (lit "k") [] in
      exists final,
        run (startAgenticInterview noEnv SynthesisAvailable r)
          [Resolved (okResponse (choiceTextBody (lit "the plan")));
           Resolved errorResponse]
          (sampleWorld (lit "k") [])
        = (Returned tt, [], final)
        /\ gained (sampleWorld (lit "k") []) final
             [(user, announcement r);
              (assistant, lit "PLAN:" ++ LF ++ lit "the plan");
              (assistant, lit "Error: GROQ API error: 500 upstream down")]
        /\ isThinking (store final) = false)
  /\ (let r := sampleStore (lit "k") [] in
      exists final,
        run (handleAskNext noEnv SynthesisAvailable r) [Rejected (TypeError (lit "Failed to fetch"))]
          (sampleWorld (lit "k") [])
        = (Returned tt, [], final)
        /\ gained (sampleWorld (lit "k") []) final
             [(assistant, lit "Error: Failed to fetch")]
        /\ isThinking (store final) = false)
  /\ (let r := sampleStore (lit "k") (lit " my answer ") in
      exists final,
        run (handleUserSubmit noEnv SynthesisAvailable r) [Resolved errorResponse]
          (sampleWorld (lit "k") (lit " my answer "))
        = (Returned tt, [], final)
        /\ gained (sampleWorld (lit "k") (lit " my answer ")) final
             [(user, lit "my answer");
              (assistant, lit "Error: GROQ API error: 500 upstream down")]
        /\ isThinking (store final) = false).
Proof.
  cbv zeta.
  destruct (failed_call_is_reported noEnv SynthesisAvailable) as [Hplan [Hfollow [Hask Hsubmit]]].
  split; [| split; [| split]].
  - destruct (Hplan (sampleStore [] []) [] (sampleWorld [] [])
                (Error MISSING_KEY) _ _ eq_refl)
      as [final [Hrun [Hgain [_ Hidle]]]].
    exists final. split; [exact Hrun |]. split; [exact Hgain | exact Hidle].
  - destruct (Hfollow (sampleStore (lit "k") [])
                [Resolved (okResponse (choiceTextBody (lit "the plan")));
                 Resolved errorResponse]
                (sampleWorld (lit "k") []) UPSTREAM_DOWN _ _
                (lit "the plan") _ _ eq_refl eq_refl)
      as [final [Hrun [Hgain [_ Hidle]]]].
    exists final. split; [exact Hrun |]. split; [exact Hgain | exact Hidle].
  - destruct (Hask (sampleStore (lit "k") [])
                [Rejected (TypeError (lit "Failed to fetch"))]
                (sampleWorld (lit "k") [])
                (TypeError (lit "Failed to fetch")) _ _ eq_refl)
      as [final [Hrun [Hgain [_ Hidle]]]].
    exists final. split; [exact Hrun |]. split; [exact Hgain | exact Hidle].
  - destruct (Hsubmit (sampleStore (lit "k") (lit " my answer "))
                [Resolved errorResponse]
                (sampleWorld (lit "k") (lit " my answer "))
                UPSTREAM_DOWN _ _ eq_refl eq_refl)
      as [final [Hrun [Hgain [_ Hidle]]]].
    exists final. split; [exact Hrun |]. split; [exact Hgain | exact Hidle].
Defined.

(** C4 as stated fails: on the ok response whose body is
    [{ output: { toString: x } }], [callGroq] called with a key returns no
    string. *)
Lemma callGroq_does_not_always_return_a_string :
  ~ (forall data, exists t,
        fst (fst (run (callGroq noEnv (sampleStore (lit "k") []) (lit "hello")
                         (num "0.2") (num "600"))
                    [Resolved (okResponse data)] (sampleWorld (lit "k") [])))
        = Returned t).
Proof.
  intros H. destruct (H toStringBody) as [t Ht].
  vm_compute in Ht. discriminate Ht.
Qed.

(** C4 as amended, at bodies with other fields around the ones read: a
    first choice with a text, an empty [choices] beside an [output], a
    body with neither, the whole of [callGroq] on an ok response, and the
    whole of [callGroq] on the body whose [output] cannot be converted. *)
Lemma completion_text_extraction_witness :
  completionText
    (JObject [(lit "id", JString (lit "cmpl-1"));
              (lit "choices",
               JArray [JObject [(lit "index", JNumber (num "0"));
                                (lit "text", JString (lit "X"))]])])
  = Ok (lit "X")
  /\ completionText
       (JObject [(lit "choices", JArray []); (lit "output", JString (lit "Y"))])
     = Ok (lit "Y")
  /\ completionText (JObject [(lit "error", JNull)])
     = Ok (JSON_stringify (JObject [(lit "error", JNull)]))
  /\ run (callGroq noEnv (sampleStore (lit "k") []) (lit "hello") (num "0.2") (num "600"))
       [Resolved (okResponse (choiceTextBody (lit "X")))] (sampleWorld (lit "k") [])
     = (Returned (lit "X"), [],
        emit (Fetched (groqRequest noEnv (sampleStore (lit "k") []) (lit "hello")
                         (num "0.2") (num "600")))
          (sampleWorld (lit "k") []))
  /\ run (callGroq noEnv (sampleStore (lit "k") []) (lit "hello") (num "0.2") (num "600"))
       [Resolved (okResponse toStringBody)] (sampleWorld (lit "k") [])
     = (Thrown CANNOT_CONVERT, [],
        emit (Fetched (groqRequest noEnv (sampleStore (lit "k") []) (lit "hello")
                         (num "0.2") (num "600")))
          (sampleWorld (lit "k") [])).
Proof.
  destruct (completion_text_extraction noEnv)
    as [_ [_ [Hchoice [Houtput [Hneither [_ [_ Hcall]]]]]]].
  split; [apply Hchoice; reflexivity |].
  split; [apply Houtput; reflexivity |].
  split; [apply Hneither; reflexivity |].
  split.
  - apply (Hcall (sampleStore (lit "k") []) (lit "hello") (num "0.2") (num "600")
             (okResponse (choiceTextBody (lit "X"))) [] (sampleWorld (lit "k") [])
             (choiceTextBody (lit "X")));
      reflexivity.
  - apply (Hcall (sampleStore (lit "k") []) (lit "hello") (num "0.2") (num "600")
             (okResponse toStringBody) [] (sampleWorld (lit "k") []) toStringBody);
      reflexivity.
Defined.

(** C5 as stated fails: for the body
    [{ choices: [{ message: { content: Z } }] }] with [Z] the one-letter
    string, the text [callGroq] extracts is not [Z]. *)
Lemma message_content_is_not_extracted :
  completionText (messageContentBody (lit "Z")) <> Ok (lit "Z").
Proof. vm_compute. discriminate. Qed.

(** C5 as amended, at a body where [text] is null and [output] is a
    number, at one where both are null, and at the message-content body. *)
Lemma completion_text_priority_witness :
  completionText
    (JObject [(lit "choices", JArray [JObject [(lit "text", JString (lit "T"))]]);
              (lit "output", JString (lit "O"))])
  = Ok (lit "T")
  /\ completionText
       (JObject [(lit "choices", JArray [JObject [(lit "text", JNull)]]);
                 (lit "output", JNumber (num "42"))])
     = Ok (lit "42")
  /\ completionText
       (JObject [(lit "choices", JArray [JObject [(lit "text", JNull)]]);
                 (lit "output", JNull)])
     = Ok (JSON_stringify
             (JObject [(lit "choices", JArray [JObject [(lit "text", JNull)]]);
                       (lit "output", JNull)]))
  /\ completionText (messageContentBody (lit "Z"))
     = Ok (JSON_stringify (messageContentBody (lit "Z")))
  /\ readmeReply (messageContentBody (lit "Z")) = Some (JString (lit "Z")).
Proof.
  destruct completion_text_priority as [Htext [Houtput [Hbody Hmessage]]].
  split; [apply (Htext _ (JString (lit "T"))); [reflexivity | discriminate] |].
  split; [apply (Houtput _ (JNumber (num "42"))); [reflexivity | reflexivity | discriminate] |].
  split; [apply Hbody; reflexivity |].
  destruct (Hmessage (lit "Z")) as [_ [_ [Hser [_ [_ Hreadme]]]]].
  split; [exact Hser | apply Hreadme; reflexivity].
Defined.

(** C7 as stated fails: after Clear Conversation, a typed answer makes
    the user's message the first of a transcript that is not empty. *)
Lemma first_message_after_clear_is_not_system :
  ~ firstIsSystem
      (exec noEnv false false SynthesisAvailable sampleRnd
         [ClickClear; ChangeInput (lit "hi"); ClickSend]).
Proof. vm_compute. discriminate. Qed.

(** C7 as amended, at a session without a clear and at one with. *)
Lemma system_message_until_clear_witness :
  (exists rest,
      transcript (exec noEnv false false SynthesisAvailable sampleRnd [ChangeInput (lit "hi"); ClickSend])
      = seedMessage sampleRnd :: rest
      /\ Forall spoken rest)
  /\ Forall spoken
       (transcript
          (exec noEnv false false SynthesisAvailable sampleRnd
             [ClickClear; ChangeInput (lit "hi"); ClickSend])).
Proof.
  split.
  - apply (system_message_until_clear noEnv false false SynthesisAvailable sampleRnd
             [ChangeInput (lit "hi"); ClickSend]).
    reflexivity.
  - apply (system_message_until_clear noEnv false false SynthesisAvailable sampleRnd
             [ClickClear; ChangeInput (lit "hi"); ClickSend]).
    reflexivity.
Defined.

(** C9 at an input field holding a space, a tab and a no-break space. *)
Lemma blank_submit_is_noop_witness :
  trim ([32; 9; 0xA0]%N) = []
  /\ handleUserSubmit noEnv SynthesisAvailable (sampleStore (lit "k") [32; 9; 0xA0]%N) = Ret tt
  /\ (forall net w,
        run (handleUserSubmit noEnv SynthesisAvailable (sampleStore (lit "k") [32; 9; 0xA0]%N)) net w
        = (Returned tt, net, w))
  /\ (forall s,
        store (world s) = sampleStore (lit "k") [32; 9; 0xA0]%N ->
        step noEnv false false SynthesisAvailable s ClickSend = s).
Proof.
  split; [reflexivity |].
  apply (@blank_submit_is_noop noEnv false false SynthesisAvailable
           (sampleStore (lit "k") [32; 9; 0xA0]%N)).
  reflexivity.
Defined.

(** C6 at a concrete session (Dev API Key set): the utterance is added and
    nothing is sent, while the same text typed and sent is added and its
    evaluation is requested. *)
Example voice_and_typed_answers_differ :
  let voiced := exec noEnv false false SynthesisAvailable sampleRnd
                  [ChangeDevKey (lit "k"); RecognitionResult (lit "hello")] in
  let typed := exec noEnv false false SynthesisAvailable sampleRnd
                 [ChangeDevKey (lit "k"); ChangeInput (lit "hello"); ClickSend] in
  map (fun m => (role m, text m)) (transcript voiced)
  = [(system, SYSTEM_TEXT); (user, lit "hello")]
  /\ trace (world voiced) = []
  /\ inflight voiced = []
  /\ map (fun m => (role m, text m)) (transcript typed)
     = [(system, SYSTEM_TEXT); (user, lit "hello")]
  /\ List.length (trace (world typed)) = 1
  /\ List.length (inflight typed) = 1.
Proof. vm_compute. repeat split. Qed.

(** ** The configuration in a host *)

(** X17.  The configuration is read from one source, and the sources
    are not merged.  [getRuntimeEnv] never returns a missing value.  Where
    [import.meta.env] is an object it is the whole environment: a name it
    lacks is not looked up on [window], so a key injected there is not
    seen and, with the Dev API Key field empty, [callGroq] throws the
    missing-key error.  Where [import.meta.env] cannot be used and
    [window.__ENV] is an object, that object is the whole environment,
    whatever [window._env_] and [window] itself define. *)
Theorem configuration_comes_from_one_source h :
  truthyHost (getRuntimeEnv h) = true
  /\ (forall fields,
        importMeta h = MetaWith (HObject fields) ->
        runtimeEnvOf h = fields
        /\ (fields (lit "VITE_GROQ_API_KEY") = None ->
            forall r prompt temperature max_tokens,
              devApiKey r = [] ->
              callGroq (runtimeEnvOf h) r prompt temperature max_tokens
              = Throw (Error MISSING_KEY)))
  /\ (forall w fields,
        truthyHost (readImportMetaEnvSafely h) = false ->
        window h = Some w ->
        __ENV w = HObject fields ->
        runtimeEnvOf h = fields).
Proof.
  split; [| split].
  - unfold getRuntimeEnv.
    destruct (truthyHost (readImportMetaEnvSafely h)) eqn:Hmeta; [exact Hmeta |].
    destruct (window h) as [w |]; [| reflexivity].
    destruct (truthyHost (__ENV w) && isObjectType (__ENV w)) eqn:Henv.
    + apply andb_prop in Henv. apply Henv.
    + destruct (truthyHost (_env_ w) && isObjectType (_env_ w)) eqn:Henv'.
      * apply andb_prop in Henv'. apply Henv'.
      * reflexivity.
  - intros fields Hmeta.
    assert (Henv : runtimeEnvOf h = fields).
    { unfold runtimeEnvOf, getRuntimeEnv, readImportMetaEnvSafely.
      rewrite Hmeta. reflexivity. }
    split; [exact Henv |].
    intros Hnone r prompt temperature max_tokens Hdev.
    rewrite Henv. unfold callGroq, effectiveApiKey, STATIC_API_KEY, envOr.
    rewrite Hnone, Hdev. reflexivity.
  - intros w fields Hmeta Hwindow Henv.
    unfold runtimeEnvOf, getRuntimeEnv. rewrite Hmeta, Hwindow, Henv. reflexivity.
Qed.

(** ** The README draft's reply *)

(** X18.  The reply the README draft's [fetchInterviewerReply] appends
    and speaks is never a missing or empty value: where
    [choices[0].message.content] is missing or falsy it is the ellipsis.
    For the two body shapes the component's [callGroq] reads its text from
    ([choices[0].text] and [output]) the draft's reply is the ellipsis. *)
Theorem readme_reply_is_never_empty data :
  truthyValue (readmeReply data) = true
  /\ (truthyValue (messageContent data) = false ->
      readmeReply data = Some (JString ELLIPSIS))
  /\ (forall X, readmeReply (choiceTextBody X) = Some (JString ELLIPSIS))
  /\ (forall Y, readmeReply (outputBody Y) = Some (JString ELLIPSIS)).
Proof.
  split; [| split; [| split]].
  - unfold readmeReply.
    destruct (truthyValue (messageContent data)) eqn:Hcontent;
      [exact Hcontent | reflexivity].
  - intros Hcontent. unfold readmeReply. rewrite Hcontent. reflexivity.
  - intros X. reflexivity.
  - intros Y. reflexivity.
Qed.

(** ** The further theorems at concrete inputs *)

(** X1 in an environment that injects the key [k] and no URL, with
    another key pasted in the Dev API Key field; and in one that injects
    nothing. *)
Lemma configured_url_and_key_witness :
  (STATIC_API_KEY (keyOnly (lit "k")) = lit "k"
   /\ effectiveApiKey (keyOnly (lit "k")) (sampleStore (lit "dev") []) = lit "k"
   /\ GROQ_API_URL (keyOnly (lit "k")) = DEFAULT_GROQ_API_URL)
  /\ (STATIC_API_KEY noEnv = []
      /\ effectiveApiKey noEnv (sampleStore (lit "dev") []) = lit "dev").
Proof.
  destruct (configured_url_and_key (keyOnly (lit "k")) (sampleStore (lit "dev") []))
    as [_ [_ [Hdefault [Hinjected _]]]].
  destruct (configured_url_and_key noEnv (sampleStore (lit "dev") []))
    as [_ [_ [_ [_ [Hnone _]]]]].
  split.
  - destruct (Hinjected (lit "k") eq_refl eq_refl) as [Hstatic Heffective].
    split; [exact Hstatic |]. split; [exact Heffective |].
    apply Hdefault. left. reflexivity.
  - apply Hnone. left. reflexivity.
Defined.

(** X3 at a rejected fetch, a status 500 and an ok response whose body
    is HTML. *)
Lemma callGroq_failures_witness :
  let r := sampleStore (lit "k") [] in
  let w := sampleWorld (lit "k") [] in
  let call := callGroq noEnv r (lit "hello") (num "0.2") (num "600") in
  let sent := emit (Fetched (groqRequest noEnv r (lit "hello") (num "0.2") (num "600"))) w in
  truthy (effectiveApiKey noEnv r) = true
  /\ run call [Rejected (TypeError (lit "Failed to fetch"))] w
     = (Thrown (TypeError (lit "Failed to fetch")), [], sent)
  /\ run call [Resolved errorResponse] w
     = (Thrown (Error (lit "GROQ API error: " ++ decimal 500 ++ lit " "
                       ++ lit "upstream down")), [], sent)
  /\ run call [Resolved htmlResponse] w
     = (Thrown (SyntaxError (lit "Unexpected token < in JSON at position 0")), [], sent).
Proof.
  cbv zeta.
  destruct (@callGroq_failures noEnv (sampleStore (lit "k") []) (lit "hello")
              (num "0.2") (num "600") [] (sampleWorld (lit "k") []) eq_refl)
    as [Hrejected [Hstatus Hjson]].
  split; [reflexivity |].
  split; [apply Hrejected |].
  split; [apply (Hstatus errorResponse (lit "upstream down")); reflexivity |].
  apply (Hjson htmlResponse); reflexivity.
Defined.

(** X4 at a body whose [output] is missing and whose [choices] is
    empty. *)
Lemma completion_text_failure_mode_witness :
  nullish (choiceText (JObject [(lit "choices", JArray [])])) = true
  /\ nullish (outputField (JObject [(lit "choices", JArray [])])) = true
  /\ exists t, completionText (JObject [(lit "choices", JArray [])]) = Ok t.
Proof.
  split; [reflexivity |]. split; [reflexivity |].
  apply (completion_text_failure_mode (JObject [(lit "choices", JArray [])]));
    reflexivity.
Defined.

(** X5 at a question answered through [choices[0].text]: in a host
    with speech synthesis, and in one without. *)
Lemma ask_next_appends_the_reply_witness :
  let r := sampleStore (lit "k") [] in
  (exists final,
      run (handleAskNext noEnv SynthesisAvailable r)
        [Resolved (okResponse (choiceTextBody (lit "Why Rust?")))]
        (sampleWorld (lit "k") [])
      = (Returned tt, [], final)
      /\ gained (sampleWorld (lit "k") []) final [(assistant, lit "Why Rust?")]
      /\ isThinking (store final) = false)
  /\ (exists final,
        run (handleAskNext noEnv noSynthesis r)
          [Resolved (okResponse (choiceTextBody (lit "Why Rust?")))]
          (sampleWorld (lit "k") [])
        = (Returned tt, [], final)
        /\ gained (sampleWorld (lit "k") []) final
             [(assistant, lit "Why Rust?");
              (assistant, lit "Error: SpeechSynthesisUtterance is not defined")]
        /\ isThinking (store final) = false).
Proof.
  cbv zeta. split.
  - destruct (@ask_next_appends_the_reply noEnv SynthesisAvailable
                (sampleStore (lit "k") [])
                [Resolved (okResponse (choiceTextBody (lit "Why Rust?")))]
                (sampleWorld (lit "k") []) (lit "Why Rust?") _ _ eq_refl)
      as [final [Hrun [[Hgain _] Hidle]]].
    exists final. split; [exact Hrun |]. split; [exact Hgain | exact Hidle].
  - destruct (@ask_next_appends_the_reply noEnv noSynthesis
                (sampleStore (lit "k") [])
                [Resolved (okResponse (choiceTextBody (lit "Why Rust?")))]
                (sampleWorld (lit "k") []) (lit "Why Rust?") _ _ eq_refl)
      as [final [Hrun [[Hgain _] Hidle]]].
    exists final. split; [exact Hrun |]. split; [exact Hgain | exact Hidle].
Defined.

(** X6 at an answer typed with spaces around it and evaluated through
    [output]: in a host with speech synthesis, and in one without. *)
Lemma submit_appends_answer_and_evaluation_witness :
  let r := sampleStore (lit "k") (lit " my answer ") in
  (exists final,
      run (handleUserSubmit noEnv SynthesisAvailable r)
        [Resolved (okResponse (outputBody (lit "4/5")))]
        (sampleWorld (lit "k") (lit " my answer "))
      = (Returned tt, [], final)
      /\ gained (sampleWorld (lit "k") (lit " my answer ")) final
           [(user, lit "my answer");
            (assistant, lit "EVALUATION:" ++ LF ++ lit "4/5")]
      /\ userInput (store final) = []
      /\ isThinking (store final) = false)
  /\ (exists final,
        run (handleUserSubmit noEnv noSynthesis r)
          [Resolved (okResponse (outputBody (lit "4/5")))]
          (sampleWorld (lit "k") (lit " my answer "))
        = (Returned tt, [], final)
        /\ gained (sampleWorld (lit "k") (lit " my answer ")) final
             [(user, lit "my answer");
              (assistant, lit "EVALUATION:" ++ LF ++ lit "4/5");
              (assistant, lit "Error: SpeechSynthesisUtterance is not defined")]
        /\ userInput (store final) = []
        /\ isThinking (store final) = false).
Proof.
  cbv zeta. split.
  - destruct (@submit_appends_answer_and_evaluation noEnv SynthesisAvailable
                (sampleStore (lit "k") (lit " my answer "))
                [Resolved (okResponse (outputBody (lit "4/5")))]
                (sampleWorld (lit "k") (lit " my answer ")) (lit "4/5") _ _
                eq_refl eq_refl)
      as [final [Hrun [[Hgain _] [Hinput Hidle]]]].
    exists final. split; [exact Hrun |]. split; [exact Hgain |].
    split; [exact Hinput | exact Hidle].
  - destruct (@submit_appends_answer_and_evaluation noEnv noSynthesis
                (sampleStore (lit "k") (lit " my answer "))
                [Resolved (okResponse (outputBody (lit "4/5")))]
                (sampleWorld (lit "k") (lit " my answer ")) (lit "4/5") _ _
                eq_refl eq_refl)
      as [final [Hrun [[Hgain _] [Hinput Hidle]]]].
    exists final. split; [exact Hrun |]. split; [exact Hgain |].
    split; [exact Hinput | exact Hidle].
Defined.

(** X7 at the sample store with a key and an answer typed. *)
Lemma unsettled_call_keeps_thinking_witness :
  let r := sampleStore (lit "k") (lit " my answer ") in
  let w := sampleWorld (lit "k") (lit " my answer ") in
  truthy (effectiveApiKey noEnv r) = true
  /\ (exists final,
        run (handleAskNext noEnv SynthesisAvailable r) [] w = (Pending, [], final)
        /\ isThinking (store final) = true)
  /\ (exists final,
        run (handleUserSubmit noEnv SynthesisAvailable r) [] w = (Pending, [], final)
        /\ isThinking (store final) = true
        /\ gained w final [(user, lit "my answer")])
  /\ (exists final,
        run (startAgenticInterview noEnv SynthesisAvailable r) [] w = (Pending, [], final)
        /\ isThinking (store final) = true).
Proof.
  cbv zeta.
  destruct (@unsettled_call_keeps_thinking noEnv SynthesisAvailable
              (sampleStore (lit "k") (lit " my answer "))
              (sampleWorld (lit "k") (lit " my answer ")) eq_refl)
    as [[f1 [Hask [Hask' _]]] [Hsubmit [f3 [Hstart [Hstart' _]]]]].
  destruct (Hsubmit eq_refl) as [f2 [Hsend [Hsend' [Hgain _]]]].
  split; [reflexivity |].
  split; [exists f1; split; assumption |].
  split; [exists f2; split; [assumption | split; assumption] |].
  exists f3; split; assumption.
Defined.

(** X8 with no key; with a key and an answer, in a host with speech
    synthesis and in one without; and with a key and a status 500. *)
Lemma test_prompt_reports_witness :
  run (runTestPrompt noEnv SynthesisAvailable (sampleStore [] [])) [] (sampleWorld [] [])
  = (Returned tt, [],
     onStore
       (withLastTestResponse
          (Some (lit "No API key configured (set VITE_GROQ_API_KEY or paste a Dev API Key). Test aborted.")))
       (sampleWorld [] []))
  /\ (exists final,
        run (runTestPrompt noEnv SynthesisAvailable (sampleStore (lit "k") []))
          [Resolved (okResponse (choiceTextBody (lit "groq-test-ok")))]
          (sampleWorld (lit "k") [])
        = (Returned tt, [], final)
        /\ lastTestResponse (store final)
           = Some (lit "OK " ++ EM_DASH ++ lit " response:" ++ LF ++ lit "groq-test-ok"))
  /\ (exists final,
        run (runTestPrompt noEnv noSynthesis (sampleStore (lit "k") []))
          [Resolved (okResponse (choiceTextBody (lit "groq-test-ok")))]
          (sampleWorld (lit "k") [])
        = (Returned tt, [], final)
        /\ lastTestResponse (store final)
           = Some (lit "Test failed: SpeechSynthesisUtterance is not defined"))
  /\ (exists final,
        run (runTestPrompt noEnv SynthesisAvailable (sampleStore (lit "k") []))
          [Resolved errorResponse] (sampleWorld (lit "k") [])
        = (Returned tt, [], final)
        /\ lastTestResponse (store final)
           = Some (lit "Test failed: GROQ API error: 500 upstream down")).
Proof.
  destruct (test_prompt_reports noEnv SynthesisAvailable) as [Hnone [Hok Hfailed]].
  destruct (test_prompt_reports noEnv noSynthesis) as [_ [Hmute _]].
  split; [apply Hnone; reflexivity |].
  split; [| split].
  - eexists. split.
    + apply (Hok (sampleStore (lit "k") [])
               [Resolved (okResponse (choiceTextBody (lit "groq-test-ok")))]
               (sampleWorld (lit "k") []) (lit "groq-test-ok")).
      reflexivity.
    + reflexivity.
  - eexists. split.
    + apply (Hmute (sampleStore (lit "k") [])
               [Resolved (okResponse (choiceTextBody (lit "groq-test-ok")))]
               (sampleWorld (lit "k") []) (lit "groq-test-ok")).
      reflexivity.
    + reflexivity.
  - eexists. split.
    + apply (Hfailed (sampleStore (lit "k") []) [Resolved errorResponse]
               (sampleWorld (lit "k") []) UPSTREAM_DOWN); reflexivity.
    + reflexivity.
Defined.

(** X9 for the same plan and follow-ups as the final component was run
    at. *)
Lemma draft_start_interview_appends_notice_witness :
  let r := sampleStore (lit "k") [] in
  exists final,
    run (startAgenticInterview_draft noEnv r)
      [Resolved (okResponse (choiceTextBody (lit "the plan")));
       Resolved (okResponse (outputBody (lit "1. Why?")))]
      (sampleWorld (lit "k") [])
    = (Returned tt, [], final)
    /\ gained (sampleWorld (lit "k") []) final
         [(user, announcement r);
          (assistant, lit "PLAN:" ++ LF ++ lit "the plan");
          (assistant, lit "FOLLOW-UPS:" ++ LF ++ lit "1. Why?");
          (assistant, FOLLOWUPS_NOTICE)]
    /\ isThinking (store final) = false.
Proof.
  cbv zeta.
  destruct (@draft_start_interview_appends_notice noEnv
              (sampleStore (lit "k") [])
              [Resolved (okResponse (choiceTextBody (lit "the plan")));
               Resolved (okResponse (outputBody (lit "1. Why?")))]
              (sampleWorld (lit "k") [])
              (lit "the plan") (lit "1. Why?") _ _ _ _ eq_refl eq_refl)
    as [final [Hrun [_ [Hgain Hidle]]]].
  exists final. split; [exact Hrun |]. split; [exact Hgain | exact Hidle].
Defined.

(** X10 at an answer typed with spaces around it, with no key at all:
    the answer is in the transcript although the call cannot be made. *)
Lemma submitted_answer_is_trimmed_witness :
  let r := sampleStore [] (lit " my answer ") in
  truthy (trim (userInput r)) = true
  /\ trim (userInput r) = lit "my answer"
  /\ exists i rest,
       messages (store (snd (run (handleUserSubmit noEnv SynthesisAvailable r) []
                               (sampleWorld [] (lit " my answer ")))))
       = messages (store (sampleWorld [] (lit " my answer ")))
         ++ mkMessage i user (trim (userInput r)) :: rest.
Proof.
  cbv zeta. split; [reflexivity |]. split; [reflexivity |].
  apply (@submitted_answer_is_trimmed noEnv SynthesisAvailable
           (sampleStore [] (lit " my answer ")) []
           (sampleWorld [] (lit " my answer ")) eq_refl).
Defined.

(** X12 at the request ask-next sends once a key has been pasted. *)
Lemma every_request_carries_a_credential_witness :
  let s := exec noEnv false false SynthesisAvailable sampleRnd keyPasted in
  let req := groqRequest noEnv (store (world s)) (askPrompt (store (world s)))
               (num "0.2") (num "400") in
  In (Fetched req) (trace (world (exec noEnv false false SynthesisAvailable sampleRnd (keyPasted ++ [ClickAskNext]))))
  /\ url req = DEFAULT_GROQ_API_URL
  /\ exists key,
       truthy key = true
       /\ In (lit "Authorization", lit "Bearer " ++ key) (headers req).
Proof.
  cbv zeta.
  assert (Hsent :
            In (Fetched
                  (groqRequest noEnv
                     (store (world (exec noEnv false false SynthesisAvailable sampleRnd keyPasted)))
                     (askPrompt (store (world (exec noEnv false false SynthesisAvailable sampleRnd keyPasted))))
                     (num "0.2") (num "400")))
               (trace (world (exec noEnv false false SynthesisAvailable sampleRnd (keyPasted ++ [ClickAskNext]))))).
  { left. reflexivity. }
  split; [exact Hsent |].
  destruct (@every_request_carries_a_credential noEnv false false SynthesisAvailable sampleRnd
              (keyPasted ++ [ClickAskNext]) _ Hsent) as [Hurl [_ Hkey]].
  split; [exact Hurl | exact Hkey].
Defined.

(** X13 right after ask-next was pressed with a key pasted. *)
Lemma thinking_only_while_in_flight_witness :
  isThinking (store (world (exec noEnv false false SynthesisAvailable sampleRnd (keyPasted ++ [ClickAskNext]))))
  = true
  /\ inflight (exec noEnv false false SynthesisAvailable sampleRnd (keyPasted ++ [ClickAskNext])) <> [].
Proof.
  split; [reflexivity |].
  apply (@thinking_only_while_in_flight noEnv false false SynthesisAvailable sampleRnd
           (keyPasted ++ [ClickAskNext]) eq_refl).
Defined.

(** X14 from the state with a key pasted: in a host with speech
    synthesis, and in one without. *)
Lemma reply_after_clear_lands_in_empty_transcript_witness :
  (let s := exec noEnv false false SynthesisAvailable sampleRnd keyPasted in
   exists i,
     transcript
       (step noEnv false false SynthesisAvailable
          (step noEnv false false SynthesisAvailable
             (step noEnv false false SynthesisAvailable s ClickAskNext) ClickClear)
          (FetchSettled 0 (Resolved (okResponse (choiceTextBody (lit "Why Rust?"))))))
     = [mkMessage i assistant (lit "Why Rust?")])
  /\ (let s := exec noEnv false false noSynthesis sampleRnd keyPasted in
      exists i j,
        transcript
          (step noEnv false false noSynthesis
             (step noEnv false false noSynthesis
                (step noEnv false false noSynthesis s ClickAskNext) ClickClear)
             (FetchSettled 0 (Resolved (okResponse (choiceTextBody (lit "Why Rust?"))))))
        = [mkMessage i assistant (lit "Why Rust?");
           mkMessage j assistant (lit "Error: SpeechSynthesisUtterance is not defined")]).
Proof.
  cbv zeta. split.
  - apply (@reply_after_clear_lands_in_empty_transcript noEnv false false
             SynthesisAvailable
             (exec noEnv false false SynthesisAvailable sampleRnd keyPasted)
             (okResponse (choiceTextBody (lit "Why Rust?")))
             (choiceTextBody (lit "Why Rust?")) (lit "Why Rust?")
             eq_refl eq_refl eq_refl eq_refl eq_refl).
  - apply (@reply_after_clear_lands_in_empty_transcript noEnv false false
             noSynthesis
             (exec noEnv false false noSynthesis sampleRnd keyPasted)
             (okResponse (choiceTextBody (lit "Why Rust?")))
             (choiceTextBody (lit "Why Rust?")) (lit "Why Rust?")
             eq_refl eq_refl eq_refl eq_refl eq_refl).
Defined.

(** X15 from the state with a profile and the key [k] pasted: the field
    is emptied while the plan call is outstanding, and the follow-up
    request still carries [Bearer k]. *)
Lemma follow_up_call_keeps_the_credential_of_the_click_witness :
  let s := exec noEnv false false SynthesisAvailable sampleRnd profileAndKey in
  let s' := step noEnv false false SynthesisAvailable
              (step noEnv false false SynthesisAvailable (step noEnv false false SynthesisAvailable s ClickStart)
                 (ChangeDevKey []))
              (FetchSettled 0 (Resolved (okResponse (choiceTextBody (lit "the plan"))))) in
  devApiKey (store (world s')) = []
  /\ exists K,
       inflight s'
       = [mkTask (groqRequest noEnv (store (world s)) (followupsPrompt (lit "the plan"))
                    (num "0.1") (num "200")) K]
       /\ In (lit "Authorization", lit "Bearer k")
            (headers (groqRequest noEnv (store (world s))
                        (followupsPrompt (lit "the plan")) (num "0.1") (num "200"))).
Proof.
  cbv zeta.
  destruct (@follow_up_call_keeps_the_credential_of_the_click noEnv false false SynthesisAvailable
              (exec noEnv false false SynthesisAvailable sampleRnd profileAndKey) []
              (okResponse (choiceTextBody (lit "the plan")))
              (choiceTextBody (lit "the plan")) (lit "the plan")
              eq_refl eq_refl eq_refl eq_refl eq_refl eq_refl)
    as [Hdev [_ [K HK]]].
  split; [exact Hdev |].
  exists K. split; [exact HK |]. right. left. reflexivity.
Defined.

(** X16 from the state with a key pasted and an answer typed. *)
Lemma status_idle_while_evaluation_outstanding_witness :
  let s := exec noEnv false false SynthesisAvailable sampleRnd keyAndAnswer in
  let s' := step noEnv false false SynthesisAvailable
              (step noEnv false false SynthesisAvailable
                 (step noEnv false false SynthesisAvailable s ClickAskNext) ClickSend)
              (FetchSettled 0 (Resolved (okResponse (choiceTextBody (lit "Why Rust?"))))) in
  isThinking (store (world s')) = false
  /\ (exists K,
        inflight s'
        = [mkTask (groqRequest noEnv (store (world s))
                     (evalPrompt (store (world s)) (lit "my answer"))
                     (num "0") (num "250")) K])
  /\ exists i j,
       transcript s'
       = transcript s
         ++ [mkMessage i user (lit "my answer"); mkMessage j assistant (lit "Why Rust?")].
Proof.
  cbv zeta.
  destruct (@status_idle_while_evaluation_outstanding noEnv false false
              SynthesisAvailable
              (exec noEnv false false SynthesisAvailable sampleRnd keyAndAnswer)
              (okResponse (choiceTextBody (lit "Why Rust?")))
              (choiceTextBody (lit "Why Rust?")) (lit "Why Rust?")
              eq_refl eq_refl eq_refl eq_refl eq_refl eq_refl)
    as [Hidle [[K HK] Hgain]].
  split; [exact Hidle |]. split; [exists K; exact HK | exact Hgain].
Defined.

(** X17 at a bundled page that injects the key through [window.__ENV],
    and at a page where [import.meta] throws and both [window.__ENV] and
    [window._env_] hold a key. *)
Lemma configuration_comes_from_one_source_witness :
  callGroq (runtimeEnvOf bundledHost) (sampleStore [] []) (lit "hello")
    (num "0.2") (num "600")
  = Throw (Error MISSING_KEY)
  /\ runtimeEnvOf injectedHost = keyOnly (lit "k1").
Proof.
  split.
  - destruct (configuration_comes_from_one_source bundledHost) as [_ [Hmeta _]].
    destruct (Hmeta noEnv eq_refl) as [_ Hthrows].
    apply Hthrows; reflexivity.
  - destruct (configuration_comes_from_one_source injectedHost) as [_ [_ Hwindow]].
    apply (Hwindow (mkWindow (HObject (keyOnly (lit "k1")))
                      (HObject (keyOnly (lit "k2"))) noEnv));
      reflexivity.
Defined.

(** X18 at a chat-style body with an empty content. *)
Lemma readme_reply_is_never_empty_witness :
  truthyValue (messageContent (messageContentBody [])) = false
  /\ readmeReply (messageContentBody []) = Some (JString ELLIPSIS).
Proof.
  split; [reflexivity |].
  apply (readme_reply_is_never_empty (messageContentBody [])). reflexivity.
Defined.
